(** * Innova trading bot: a shallow embedding of the Python core.

  The development follows the layout of the backend:
    - [models.market_models]            ticks, candles, indicator sets
    - [services.market.candle_builder]  tick -> candle aggregation
    - [services.market.indicators]      incremental EMA / ATR / RSI
    - [services.strategy.trend_pullback] the signal scorer
    - [services.risk.*]                 risk firewall and position sizer
    - [services.execution.order_executor] propose / buy / poll
    - [infrastructure.deriv.deriv_ws_client] reconnection loop
    - [app.engine]                      bounded queue and trade worker

  Conventions.  Python [int] is [Z].  Python [float] is modelled by the
  rationals [Q]: every finite float is a rational, comparisons, [max] and
  [min] are exact on them, and the arithmetic is read without rounding.
  Where rounding or overflow decides what the code does, the floats are
  the binary64 floats of the kernel: the waiting time of the order
  executor, and the RSI of [indicators_binary64].  Python exceptions are
  values of [exn]; a call that may raise returns a [Result]. *)

From Stdlib Require Import ZArith QArith Qround Qabs Qminmax List String Ascii Bool
  Lia Lqa Morphisms Setoid Floats.
Import ListNotations.

Set Implicit Arguments.

(** ** Python runtime: exceptions, results, [max] and [min] *)

Module Py.

Inductive exn : Type :=
| ValueError (msg : string)
| ZeroDivisionError
| RuntimeError (msg : string)
| TimeoutError (msg : string)
| AssertionError
| TypeError
| DerivWSError (msg : string)
| ConnectionClosed
| IntegrityError
| QueueFull
| OverflowError
| OSError
| OperationalError.

Inductive Result (A : Type) : Type :=
| Ok (a : A)
| Raise (e : exn).

Arguments Ok {A} a.
Arguments Raise {A} e.

Definition bind {A B : Type} (m : Result A) (k : A -> Result B) : Result B :=
  match m with
  | Ok a => k a
  | Raise e => Raise e
  end.

(** [max(a, b)] keeps its first argument unless the second is strictly
    greater; [min(a, b)] keeps it unless the second is strictly smaller. *)
Definition max (a b : Q) : Q := if Qlt_le_dec a b then b else a.
Definition min (a b : Q) : Q := if Qlt_le_dec b a then b else a.

Definition ltb (a b : Q) : bool := if Qlt_le_dec a b then true else false.
Definition leb (a b : Q) : bool := if Qlt_le_dec b a then false else true.
Definition geb (a b : Q) : bool := leb b a.
Definition gtb (a b : Q) : bool := ltb b a.
Definition eqb (a b : Q) : bool := Qeq_bool a b.

(** [a / b] on floats raises when the divisor is zero. *)
Definition div (a b : Q) : Result Q :=
  if Qeq_bool b 0 then Raise ZeroDivisionError else Ok (a / b).

(** [a % b] on ints: the result has the sign of the divisor. *)
Definition mod_ (a b : Z) : Result Z :=
  if Z.eqb b 0 then Raise ZeroDivisionError else Ok (Z.modulo a b).

(** [int(x)] on a float truncates toward zero. *)
Definition int (q : Q) : Z := Z.quot (Qnum q) (Z.pos (Qden q)).

(** [round(x)] to an integer: to nearest, ties to even. *)
Definition round_half_even (q : Q) : Z :=
  let f := Qfloor q in
  let r := q - inject_Z f in
  if Qlt_le_dec r (1 # 2) then f
  else if Qlt_le_dec (1 # 2) r then (f + 1)%Z
  else if Z.even f then f else (f + 1)%Z.

(** [round(x, 2)]. *)
Definition round2 (q : Q) : Q := inject_Z (round_half_even (q * 100)) / 100.

(** Truthiness of an optional string: [None] and the empty string are falsy. *)
Definition truthy (o : option string) : bool :=
  match o with
  | None => false
  | Some s => negb (String.eqb s "")
  end.

(** [x or default] on an optional number: [None] and zero are falsy. *)
Definition or_float (o : option Q) (default : Q) : Q :=
  match o with
  | None => default
  | Some x => if Qeq_bool x 0 then default else x
  end.

(** [str.upper()] on ASCII letters. *)
Definition upper_ascii (c : ascii) : ascii :=
  let n := nat_of_ascii c in
  if (97 <=? n)%nat && (n <=? 122)%nat then ascii_of_nat (n - 32) else c.

Fixpoint upper (s : string) : string :=
  match s with
  | EmptyString => EmptyString
  | String c rest => String (upper_ascii c) (upper rest)
  end.

End Py.

Notation "x <- m ;; k" := (Py.bind m (fun x => k))
(at level 61, m at next level, right associativity).

(** ** models/market_models.py *)

Module market_models.

Record Tick : Type := mkTick {
  tick_symbol : string;
  epoch : Z;
  price : Q
}.

(** [open_time] is a UTC datetime in the source; it is kept as the epoch
    second it was built from, which orders the same way. *)
Record Candle : Type := mkCandle {
  symbol : string;
  timeframe_sec : Z;
  open_time : Z;
  open : Q;
  high : Q;
  low : Q;
  close : Q;
  volume : Z
}.

Record Indicators : Type := mkIndicators {
  ema_fast : option Q;
  ema_slow : option Q;
  atr : option Q;
  rsi : option Q
}.

End market_models.

(** ** services/market/candle_builder.py *)

Module candle_builder.
Import market_models.

(** [datetime.fromtimestamp(t, tz=timezone.utc)] on an [int].  An aware
    UTC datetime is represented by its epoch second, so the result is [t]
    itself when there is one.  The datetime type covers the years 1 to
    9999; outside them the call raises, as CPython 3.11 does on Linux with
    a 64-bit [time_t]: [OverflowError] when [t] does not fit [time_t],
    [OSError] when [gmtime] cannot represent the year, [ValueError] ("year
    ... is out of range") otherwise. *)
Definition fromtimestamp (t : Z) : Py.Result Z :=
  if ((t <? - 9223372036854775808) || (9223372036854775807 <? t))%Z
  then Py.Raise Py.OverflowError
  else if ((t <? - 67768040609740800) || (67768036191676799 <? t))%Z
  then Py.Raise Py.OSError
  else if ((t <? - 62135596800) || (253402300799 <? t))%Z
  then Py.Raise (Py.ValueError "year is out of range")
  else Py.Ok t.

(** The epoch seconds of [datetime.min] to [datetime.max] in UTC. *)
Definition in_datetime_range (t : Z) : Prop :=
  (- 62135596800 <= t <= 253402300799)%Z.

Definition _floor_time (epoch timeframe_sec : Z) : Py.Result Z :=
  m <- Py.mod_ epoch timeframe_sec ;;
  fromtimestamp (epoch - m).

(** The builder: its two configuration fields and the open-candle slot.
    The [on_candle_closed] callback receives exactly the candle that
    [update_with_tick] returns and its exceptions are swallowed, so the
    returned candle stands for the emission. *)
Record CandleBuilder : Type := mkBuilder {
  cb_symbol : string;
  cb_timeframe_sec : Z;
  _current : option Candle
}.

Definition new (sym : string) (tf : Z) : CandleBuilder :=
  mkBuilder sym tf None.

Definition seed (self : CandleBuilder) (ot : Z) (t : Tick) : Candle :=
  mkCandle (cb_symbol self) (cb_timeframe_sec self) ot
           (price t) (price t) (price t) (price t) 1.

Definition set_current (self : CandleBuilder) (c : Candle) : CandleBuilder :=
  mkBuilder (cb_symbol self) (cb_timeframe_sec self) (Some c).

Definition update_with_tick (self : CandleBuilder) (t : Tick)
  : Py.Result (CandleBuilder * option Candle) :=
  if negb (String.eqb (tick_symbol t) (cb_symbol self)) then Py.Ok (self, None)
  else
    ot <- _floor_time (epoch t) (cb_timeframe_sec self) ;;
    match _current self with
    | None => Py.Ok (set_current self (seed self ot t), None)
    | Some c =>
        if (open_time c <? ot)%Z
        then Py.Ok (set_current self (seed self ot t), Some c)
        else
          let c' := mkCandle (symbol c) (timeframe_sec c) (open_time c)
                             (open c)
                             (Py.max (high c) (price t))
                             (Py.min (low c) (price t))
                             (price t)
                             (volume c + 1)%Z in
          Py.Ok (set_current self c', None)
    end.

(** The open candle after a tick that does not open a later bucket. *)
Definition folded (c : Candle) (t : Tick) : Candle :=
  mkCandle (symbol c) (timeframe_sec c) (open_time c) (open c)
           (Py.max (high c) (price t)) (Py.min (low c) (price t))
           (price t) (volume c + 1)%Z.

(** Feeding a tick sequence; [out] collects the closed candles in the
    order they are emitted. *)
Fixpoint feed_from (self : CandleBuilder) (out : list Candle) (ticks : list Tick)
  : Py.Result (CandleBuilder * list Candle) :=
  match ticks with
  | [] => Py.Ok (self, out)
  | t :: rest =>
      r <- update_with_tick self t ;;
      match snd r with
      | None => feed_from (fst r) out rest
      | Some c => feed_from (fst r) (out ++ [c]) rest
      end
  end.

Definition feed (self : CandleBuilder) (ticks : list Tick) :=
  feed_from self [] ticks.

(** The bucket of a tick and the number of ticks of a sequence that fall
    in a bucket. *)
Definition bucket (tf : Z) (t : Tick) : Z := (epoch t - epoch t mod tf)%Z.

Definition ticks_in_bucket (tf : Z) (ticks : list Tick) (b : Z) : Z :=
  Z.of_nat (List.length (filter (fun t => (bucket tf t =? b)%Z) ticks)).

(** A bucket is completed once a tick of a later bucket has arrived. *)
Definition completed (tf : Z) (ticks : list Tick) (b : Z) : Prop :=
  exists t1 t2, In t1 ticks /\ In t2 ticks /\
                bucket tf t1 = b /\ (b < bucket tf t2)%Z.

Definition ohlc_ok (c : Candle) : Prop :=
  low c <= open c /\ open c <= high c /\ low c <= close c /\ close c <= high c.

(** No tick belongs to an earlier bucket than a tick delivered before it. *)
Fixpoint in_order (tf : Z) (ticks : list Tick) : Prop :=
  match ticks with
  | [] => True
  | t :: rest =>
      (forall u, In u rest -> (bucket tf t <= bucket tf u)%Z) /\ in_order tf rest
  end.

(** What one tick of the builder's own symbol does. *)
Definition tick_step (tf : Z) (self : CandleBuilder) (t : Tick) : CandleBuilder * option Candle :=
  match _current self with
  | None => (set_current self (seed self (bucket tf t) t), None)
  | Some c =>
      if (open_time c <? bucket tf t)%Z
      then (set_current self (seed self (bucket tf t) t), Some c)
      else (set_current self
              (mkCandle (symbol c) (timeframe_sec c) (open_time c) (open c)
                 (Py.max (high c) (price t)) (Py.min (low c) (price t))
                 (price t) (volume c + 1)%Z), None)
  end.

(** The price invariant needs no assumption on the order of the ticks. *)
Definition ohlc_inv (sym : string) (tf : Z) (self : CandleBuilder) (out : list Candle) : Prop :=
  cb_symbol self = sym /\ cb_timeframe_sec self = tf /\
  Forall ohlc_ok out /\
  (forall c, _current self = Some c -> ohlc_ok c).

(** The bucket bookkeeping, for ticks that arrive in bucket order.  [hist]
    is the part of the sequence already consumed. *)
Definition order_inv (tf : Z) (hist : list Tick) (self : CandleBuilder) (out : list Candle) : Prop :=
  match _current self with
  | None => hist = [] /\ out = []
  | Some c =>
      volume c = ticks_in_bucket tf hist (open_time c) /\
      (exists t, In t hist /\ bucket tf t = open_time c) /\
      (forall t, In t hist -> (bucket tf t <= open_time c)%Z) /\
      Forall (fun d => volume d = ticks_in_bucket tf hist (open_time d)) out /\
      NoDup (map open_time out) /\
      (forall k, In k (map open_time out) <->
                 (k < open_time c)%Z /\ exists t, In t hist /\ bucket tf t = k)
  end.

(** A late tick: the second one belongs to the bucket before the first. *)
Definition late_ticks : list Tick :=
  [ mkTick "R_75" 60 10; mkTick "R_75" 30 5; mkTick "R_75" 120 7 ].

(** The prices of the ticks of one bucket, in arrival order. *)
Definition bucket_prices (tf : Z) (ticks : list Tick) (b : Z) : list Q :=
  map price (filter (fun t => (bucket tf t =? b)%Z) ticks).

(** A candle summarises the ticks of its bucket: open is the first price,
    close the last, and high and low are the largest and the smallest. *)
Definition summarises (tf : Z) (ticks : list Tick) (c : Candle) : Prop :=
  hd_error (bucket_prices tf ticks (open_time c)) = Some (open c) /\
  last (bucket_prices tf ticks (open_time c)) (open c) = close c /\
  Forall (fun p => low c <= p /\ p <= high c) (bucket_prices tf ticks (open_time c)) /\
  In (high c) (bucket_prices tf ticks (open_time c)) /\
  In (low c) (bucket_prices tf ticks (open_time c)).

End candle_builder.

(** ** services/risk/risk_firewall.py *)

Module risk_firewall.

Record RiskSnapshot : Type := mkSnapshot {
  balance : Q;
  equity : Q;
  peak_equity : Q;
  daily_pnl : Q;
  trades_today : Z;
  consecutive_losses : Z;
  last_trade_closed_at_iso : option string
}.

(** The reason strings; the two formatted ones carry the number they print. *)
Inductive Reason : Type :=
| invalid_peak_equity
| max_drawdown_total_reached (dd : Q)
| max_loss_daily_reached (loss : Q)
| max_trades_daily_reached
| cooldown_after_consecutive_losses
| max_consecutive_losses_reached
| ok.

Record RiskDecision : Type := mkDecision {
  allowed : bool;
  reason : Reason;
  cooldown_remaining_sec : Z
}.

(** [RiskDecision(False, reason)]: the cooldown field keeps its default 0. *)
Definition reject (r : Reason) : RiskDecision := mkDecision false r 0.

Record RiskFirewall : Type := mkFirewall {
  max_drawdown_total : Q;
  max_loss_daily : Q;
  max_trades_daily : Z;
  max_consecutive_losses : Z;
  cooldown_minutes : Z;
  _day : Z;
  _daily_start_equity : option Q
}.

(** A datetime as [datetime.fromisoformat] returns it: its instant in
    seconds, and whether it is aware (the string carries a UTC offset) or
    naive. *)
Record IsoTime : Type := mkIso {
  at_sec : Q;
  aware : bool
}.

(** What the clock and the ISO parser answer during one call of [check]:
    the calendar day of [utc_now()], the reading taken when the stored
    close time does not parse, the reading used for [elapsed] (both in
    seconds), whether the datetimes of [utc_now()] are aware, and
    [datetime.fromisoformat] as a partial function ([None]: it raises). *)
Record Clock : Type := mkClock {
  today : Z;
  now_on_parse_failure : Q;
  now : Q;
  utc_aware : bool;
  fromisoformat : string -> option IsoTime
}.

Definition set_daily (self : RiskFirewall) (day : Z) (start : option Q) : RiskFirewall :=
  mkFirewall (max_drawdown_total self) (max_loss_daily self) (max_trades_daily self)
             (max_consecutive_losses self) (cooldown_minutes self) day start.

Definition reset_daily_if_needed (clk : Clock) (self : RiskFirewall) (snapshot : RiskSnapshot)
  : RiskFirewall :=
  let self1 :=
    if negb (today clk =? _day self)%Z
    then set_daily self (today clk) (Some (equity snapshot))
    else self in
  match _daily_start_equity self1 with
  | None => set_daily self1 (_day self1) (Some (equity snapshot))
  | Some _ => self1
  end.

Definition drawdown (snapshot : RiskSnapshot) : Q :=
  (peak_equity snapshot - equity snapshot) / peak_equity snapshot.

Definition daily_loss (start : Q) (snapshot : RiskSnapshot) : Q :=
  (start - equity snapshot) / Py.max start (1 # 1000000000).

(** [(utc_now() - last).total_seconds()].  Only the parse sits inside the
    [try]: the subtraction is outside it, and subtracting a naive datetime
    from an aware one, or the reverse, is a [TypeError]. *)
Definition elapsed (clk : Clock) (iso : string) : Py.Result Q :=
  match fromisoformat clk iso with
  | Some last =>
      if Bool.eqb (aware last) (utc_aware clk) then Py.Ok (now clk - at_sec last)
      else Py.Raise Py.TypeError
  | None => Py.Ok (now clk - now_on_parse_failure clk)
  end.

Definition remaining (self : RiskFirewall) (elapsed : Q) : Z :=
  Z.max 0 (Py.int (inject_Z (cooldown_minutes self * 60) - elapsed)).

Definition consecutive_loss_decision (clk : Clock) (self : RiskFirewall)
  (snapshot : RiskSnapshot) : Py.Result RiskDecision :=
  match last_trade_closed_at_iso snapshot with
  | Some iso =>
      if Py.truthy (Some iso) then
        e <- elapsed clk iso ;;
        if (0 <? remaining self e)%Z
        then Py.Ok (mkDecision false cooldown_after_consecutive_losses (remaining self e))
        else Py.Ok (reject max_consecutive_losses_reached)
      else Py.Ok (reject max_consecutive_losses_reached)
  | None => Py.Ok (reject max_consecutive_losses_reached)
  end.

(** The stored close time can be subtracted from [utc_now()]: it is
    missing, empty, unparsable, or as aware as the clock's datetimes. *)
Definition comparable (clk : Clock) (snapshot : RiskSnapshot) : Prop :=
  forall iso last,
    last_trade_closed_at_iso snapshot = Some iso ->
    fromisoformat clk iso = Some last ->
    aware last = utc_aware clk.

(** The first four limits of [check], in the order they are tested. *)
Definition passes_first_four (self : RiskFirewall) (start : Q) (snapshot : RiskSnapshot)
  : Prop :=
  0 < peak_equity snapshot /\
  drawdown snapshot < max_drawdown_total self /\
  daily_loss start snapshot < max_loss_daily self /\
  (trades_today snapshot < max_trades_daily self)%Z.

Definition check (clk : Clock) (self : RiskFirewall) (snapshot : RiskSnapshot)
  : Py.Result (RiskFirewall * RiskDecision) :=
  let self' := reset_daily_if_needed clk self snapshot in
  if Py.leb (peak_equity snapshot) 0 then Py.Ok (self', reject invalid_peak_equity)
  else
    let dd := drawdown snapshot in
    if Py.geb dd (max_drawdown_total self') then
      Py.Ok (self', reject (max_drawdown_total_reached dd))
    else
      match _daily_start_equity self' with
      | None => Py.Raise Py.AssertionError
      | Some start =>
          let loss := daily_loss start snapshot in
          if Py.geb loss (max_loss_daily self') then
            Py.Ok (self', reject (max_loss_daily_reached loss))
          else if (max_trades_daily self' <=? trades_today snapshot)%Z then
            Py.Ok (self', reject max_trades_daily_reached)
          else if (max_consecutive_losses self' <=? consecutive_losses snapshot)%Z then
            d <- consecutive_loss_decision clk self' snapshot ;;
            Py.Ok (self', d)
          else Py.Ok (self', mkDecision true ok 0)
      end.

Definition with_consecutive_losses (snapshot : RiskSnapshot) (n : Z) : RiskSnapshot :=
  mkSnapshot (balance snapshot) (equity snapshot) (peak_equity snapshot)
             (daily_pnl snapshot) (trades_today snapshot) n
             (last_trade_closed_at_iso snapshot).

(** The scenario of the specification: five consecutive losses against a
    maximum of five, last close ten minutes ago, thirty minute cooldown. *)
Definition cooldown_clock : Clock :=
  mkClock 0 0 600 true (fun _ => Some (mkIso 0 true)).

(** The same clock when the stored close times carry no UTC offset. *)
Definition naive_clock : Clock :=
  mkClock 0 0 600 true (fun _ => Some (mkIso 0 false)).

Definition cooldown_firewall : RiskFirewall :=
  mkFirewall (1 # 10) (5 # 100) 50 5 30 0 None.

Definition cooldown_snapshot : RiskSnapshot :=
  mkSnapshot 1000 1000 1000 0 3 5 (Some "2026-01-01T00:00:00+00:00"%string).

(** The same snapshot with a close time written without a UTC offset. *)
Definition naive_snapshot : RiskSnapshot :=
  mkSnapshot 1000 1000 1000 0 3 5 (Some "2026-01-01T00:00:00"%string).

End risk_firewall.

(** ** services/risk/position_sizer.py *)

Module position_sizer.

Inductive Reason : Type :=
| invalid_balance
| score_too_low (score : Q)
| ok.

Record SizeDecision : Type := mkSize {
  allowed : bool;
  stake : Q;
  risk_percent : Q;
  reason : Reason
}.

Record PositionSizer : Type := mkSizer {
  min_stake : Q;
  max_stake : Q;
  risk_base : Q;
  risk_high : Q;
  risk_cap : Q;
  score_high : Q;
  score_min : Q
}.

(** The risk percentage of the interpolation branch; the divisor is at
    least 1e-9, so the division cannot raise. *)
Definition risk_pct (self : PositionSizer) (score : Q) : Q :=
  if Py.geb score (score_high self) then Py.min (risk_high self) (risk_cap self)
  else
    let t := (score - score_min self)
             / Py.max (score_high self - score_min self) (1 # 1000000000) in
    Py.min (risk_base self + t * (risk_high self - risk_base self)) (risk_cap self).

(** The stake after the clamp and before the final [round(stake, 2)]. *)
Definition clamped_stake (self : PositionSizer) (balance score : Q) : Q :=
  Py.max (min_stake self) (Py.min (max_stake self) (balance * risk_pct self score)).

Definition compute (self : PositionSizer) (balance score : Q) : SizeDecision :=
  if Py.leb balance 0 then mkSize false 0 0 invalid_balance
  else if Py.ltb score (score_min self) then mkSize false 0 0 (score_too_low score)
  else mkSize true (Py.round2 (clamped_stake self balance score))
                   (risk_pct self score) ok.

(** A sizer the configuration accepts (min_stake > 0, max_stake > min_stake)
    whose minimum stake is not a whole number of cents. *)
Definition fractional_sizer : PositionSizer :=
  mkSizer (1004 # 1000) 1000 (5 # 1000) (7 # 1000) (1 # 100) (75 # 100) (55 # 100).

End position_sizer.

(** ** infrastructure/deriv/deriv_ws_client.py *)

Module deriv_ws_client.

Inductive AuthOutcome : Type :=
| auth_ok
| auth_error_response
| auth_raised (e : Py.exn).

(** What happens during one call of [_connect_and_run]: whether
    [websockets.connect] raises, how the authorize request ends, whether
    re-subscribing raises, and how the two tasks end.  [_reader_loop]
    returns on [ConnectionClosed] and re-raises anything else;
    [_heartbeat_loop] is a [while True] whose only exit is the [raise] of a
    failed ping, so it ends with an exception. *)
Record Session : Type := mkSession {
  connect : option Py.exn;
  authorize : AuthOutcome;
  resubscribe : option Py.exn;
  reader_end : option Py.exn;
  heartbeat_end : Py.exn
}.

(** Whether [_connected_evt.set()] is reached: the socket opened and the
    authorization succeeded. *)
Definition connected (s : Session) : bool :=
  match connect s, authorize s with
  | None, auth_ok => true
  | _, _ => false
  end.

(** [asyncio.wait(..., return_when=FIRST_EXCEPTION)] over the reader and
    the heartbeat, followed by re-raising the exception of a finished
    task.  When the reader returned cleanly the wait goes on until the
    heartbeat raises. *)
Definition wait_tasks (s : Session) : Py.Result unit :=
  match reader_end s with
  | Some e => Py.Raise e
  | None => Py.Raise (heartbeat_end s)
  end.

Definition _connect_and_run (s : Session) : Py.Result unit :=
  match connect s with
  | Some e => Py.Raise e
  | None =>
      match authorize s with
      | auth_raised e => Py.Raise e
      | auth_error_response => Py.Raise (Py.DerivWSError "Auth error")
      | auth_ok =>
          match resubscribe s with
          | Some e => Py.Raise e
          | None => wait_tasks s
          end
      end
  end.

(** [_run_forever] while the stop event stays clear.  Each attempt comes
    with the value [random.random()] returns for its jitter; the result is
    the list of delays slept, in order. *)
Fixpoint run_from (max_backoff backoff : Q) (attempts : list (Session * Q)) : list Q :=
  match attempts with
  | [] => []
  | (s, rnd) :: rest =>
      let backoff :=
        match _connect_and_run s with
        | Py.Ok _ => 1
        | Py.Raise _ => backoff
        end in
      let jitter := rnd * (3 # 10) * backoff in
      let sleep_for := Py.min max_backoff (backoff + jitter) in
      sleep_for :: run_from max_backoff (Py.min max_backoff (backoff * 2)) rest
  end.

Definition _run_forever (max_backoff : Q) (attempts : list (Session * Q)) : list Q :=
  run_from max_backoff 1 attempts.

(** The constructor default [max_reconnect_backoff_sec = 60.0], which the
    engine keeps. *)
Definition max_reconnect_backoff_sec : Q := 60.

(** The backoff before the [n]-th sleep when nothing resets it. *)
Fixpoint doubled (max_backoff : Q) (n : nat) : Q :=
  match n with
  | O => 1
  | S k => Py.min max_backoff (doubled max_backoff k * 2)
  end.

(** Two failed authorizations, then a session that connects, runs and
    loses its heartbeat, then one more failure. *)
Definition auth_failure : Session :=
  mkSession None auth_error_response None None Py.ConnectionClosed.

Definition dropped_session : Session :=
  mkSession None auth_ok None None (Py.TimeoutError "ping").

End deriv_ws_client.

(** ** services/market/indicators.py *)

Module indicators.
Import market_models.

(** [alpha] divides by [period + 1.0]; [update] validates [period > 1]
    before any call.  The value is the exact one: the float of the code is
    this value rounded at each of its operations, so it can differ from it
    in the last digits. *)
Definition _ema (prev : option Q) (value : Q) (period : Z) : Q :=
  let alpha := 2 / (inject_Z period + 1) in
  match prev with
  | None => value
  | Some p => alpha * value + (1 - alpha) * p
  end.

Record IndicatorEngine : Type := mkEngine {
  ema_fast_period : Z;
  ema_slow_period : Z;
  atr_period : Z;
  rsi_period : Z;
  _bars : Z;
  _ema_fast : option Q;
  _ema_slow : option Q;
  _prev_close : option Q;
  _atr : option Q;
  _avg_gain : option Q;
  _avg_loss : option Q
}.

(** [IndicatorEngine(ema_fast_period=..., ...)]: the state fields keep
    their defaults. *)
Definition new (fast slow atr_p rsi_p : Z) : IndicatorEngine :=
  mkEngine fast slow atr_p rsi_p 0 None None None None None None.

Definition _validate_periods (self : IndicatorEngine) : Py.Result unit :=
  if (ema_fast_period self <=? 1)%Z then Py.Raise (Py.ValueError "ema_fast_period must be > 1")
  else if (ema_slow_period self <=? 1)%Z then Py.Raise (Py.ValueError "ema_slow_period must be > 1")
  else if (atr_period self <=? 1)%Z then Py.Raise (Py.ValueError "atr_period must be > 1")
  else if (rsi_period self <=? 1)%Z then Py.Raise (Py.ValueError "rsi_period must be > 1")
  else Py.Ok tt.

Definition is_ready (self : IndicatorEngine) : bool :=
  (Z.max (Z.max (ema_slow_period self) (atr_period self)) (rsi_period self) <=? _bars self)%Z.

Definition true_range (prev_close : option Q) (candle : Candle) : Q :=
  match prev_close with
  | None => high candle - low candle
  | Some pc =>
      Py.max (Py.max (high candle - low candle) (Qabs (high candle - pc)))
             (Qabs (low candle - pc))
  end.

(** Wilder smoothing of the average gain and loss.  A state with a gain
    but no loss makes [self._avg_loss * ...] a [TypeError]. *)
Definition smooth_gain_loss (self : IndicatorEngine) (gain loss : Q)
  : Py.Result (Q * Q) :=
  match _avg_gain self with
  | None => Py.Ok (gain, loss)
  | Some g =>
      match _avg_loss self with
      | None => Py.Raise Py.TypeError
      | Some l =>
          Py.Ok ((g * (inject_Z (rsi_period self) - 1) + gain) / inject_Z (rsi_period self),
                 (l * (inject_Z (rsi_period self) - 1) + loss) / inject_Z (rsi_period self))
      end
  end.

(** The RSI of a bar, from the bar count and the smoothed averages. *)
Definition rsi_value (bars period : Z) (avg_gain avg_loss : Q) : Py.Result Q :=
  if (bars <? period)%Z then Py.Ok 50
  else if Py.eqb avg_loss 0 then Py.Ok 100
  else
    let rs := avg_gain / Py.max avg_loss (1 # 1000000000000) in
    q <- Py.div 100 (1 + rs) ;;
    Py.Ok (100 - q).

Definition update (self : IndicatorEngine) (candle : Candle)
  : Py.Result (IndicatorEngine * Indicators) :=
  _ <- _validate_periods self ;;
  let bars := (_bars self + 1)%Z in
  let close := close candle in
  let ema_f := _ema (_ema_fast self) close (ema_fast_period self) in
  let ema_s := _ema (_ema_slow self) close (ema_slow_period self) in
  let tr := true_range (_prev_close self) candle in
  let atr :=
    match _atr self with
    | None => tr
    | Some a => (a * (inject_Z (atr_period self) - 1) + tr) / inject_Z (atr_period self)
    end in
  let change :=
    match _prev_close self with
    | None => 0
    | Some pc => close - pc
    end in
  let gain := Py.max change 0 in
  let loss := Py.max (- change) 0 in
  gl <- smooth_gain_loss self gain loss ;;
  rsi <- rsi_value bars (rsi_period self) (fst gl) (snd gl) ;;
  Py.Ok (mkEngine (ema_fast_period self) (ema_slow_period self)
                  (atr_period self) (rsi_period self)
                  bars (Some ema_f) (Some ema_s) (Some close) (Some atr)
                  (Some (fst gl)) (Some (snd gl)),
         mkIndicators (Some ema_f) (Some ema_s) (Some atr) (Some rsi)).

(** Feeding a candle sequence: the engine after the last candle. *)
Fixpoint run (self : IndicatorEngine) (candles : list Candle) : Py.Result IndicatorEngine :=
  match candles with
  | [] => Py.Ok self
  | c :: rest =>
      r <- update self c ;;
      run (fst r) rest
  end.

(** The averages, once present, are not negative. *)
Definition averages_ok (self : IndicatorEngine) : Prop :=
  match _avg_gain self, _avg_loss self with
  | None, _ => True
  | Some g, Some l => 0 <= g /\ 0 <= l
  | Some _, None => False
  end.








(** The largest finite binary64 value. *)
Definition max_float : Q := inject_Z (2 ^ 1024 - 2 ^ 971).


End indicators.

(** ** services/market/indicators.py: the RSI in binary64

    The RSI part of [IndicatorEngine.update] once more, on the floats of
    the machine instead of the rationals: here a sum can overflow to
    infinity and a quotient of infinities is not a number. *)

Module indicators_binary64.

Record RsiState : Type := mkRsi {
  rsi_period : Z;
  _bars : Z;
  _prev_close : option float;
  _avg_gain : option float;
  _avg_loss : option float
}.

Definition new (rsi_p : Z) : RsiState := mkRsi rsi_p 0 None None None.

(** An [int] operand of a float operation; exact below 2^53. *)
Definition of_int (n : Z) : float := PrimFloat.of_uint63 (Uint63.of_Z n).

(** [max(a, b)] keeps [a] unless [b > a]; [x or 0.0]; [a / b]. *)
Definition max (a b : float) : float := if PrimFloat.ltb a b then b else a.

Definition or_zero (x : float) : float := if PrimFloat.eqb x 0 then 0%float else x.

Definition div (a b : float) : Py.Result float :=
  if PrimFloat.eqb b 0 then Py.Raise Py.ZeroDivisionError
  else Py.Ok (PrimFloat.div a b).

Definition smooth (period : Z) (avg x : float) : float :=
  PrimFloat.div (PrimFloat.add (PrimFloat.mul avg (of_int (period - 1))) x)
                (of_int period).

(** 1e-12 as a binary64 float. *)
Definition tiny : float := 0x1.19799812dea11p-40%float.

Definition update (self : RsiState) (close : float) : Py.Result (RsiState * float) :=
  if (rsi_period self <=? 1)%Z then Py.Raise (Py.ValueError "rsi_period must be > 1")
  else
    let bars := (_bars self + 1)%Z in
    let change :=
      match _prev_close self with
      | None => 0%float
      | Some pc => PrimFloat.sub close pc
      end in
    let gain := max change 0 in
    let loss := max (PrimFloat.opp change) 0 in
    gl <- match _avg_gain self with
          | None => Py.Ok (gain, loss)
          | Some g =>
              match _avg_loss self with
              | None => Py.Raise Py.TypeError
              | Some l =>
                  Py.Ok (smooth (rsi_period self) g gain, smooth (rsi_period self) l loss)
              end
          end ;;
    rsi <- (if (bars <? rsi_period self)%Z then Py.Ok 50%float
            else
              let avg_loss := or_zero (snd gl) in
              if PrimFloat.eqb avg_loss 0 then Py.Ok 100%float
              else
                rs <- div (or_zero (fst gl)) (max avg_loss tiny) ;;
                q <- div 100 (PrimFloat.add 1 rs) ;;
                Py.Ok (PrimFloat.sub 100 q)) ;;
    Py.Ok (mkRsi (rsi_period self) bars (Some close) (Some (fst gl)) (Some (snd gl)), rsi).

(** Feeding a series of closes: the RSI of every bar, in order. *)
Fixpoint run (self : RsiState) (out : list float) (closes : list float)
  : Py.Result (RsiState * list float) :=
  match closes with
  | [] => Py.Ok (self, out)
  | c :: rest =>
      r <- update self c ;;
      run (fst r) (out ++ [snd r]) rest
  end.

(** The largest finite binary64 value. *)
Definition max_float : float := 0x1.fffffffffffffp+1023%float.


End indicators_binary64.

(** ** services/strategy/trend_pullback.py *)

Module trend_pullback.
Import market_models.

Inductive Side : Type := CALL | PUT | NONE.

Inductive Reason : Type :=
| indicators_not_ready
| invalid_price
| no_trend
| atr_too_low (atr_pct : Q)
| ema_spread_too_low (spread : Q)
| rsi_overbought_skip
| rsi_oversold_skip
| rsi_not_in_long_zone
| rsi_not_in_short_zone
| ok.

Record Signal : Type := mkSignal {
  side : Side;
  score : Q;
  reason : Reason
}.

Record TrendPullbackStrategy : Type := mkStrategy {
  min_atr_pct : Q;
  min_ema_spread_pct : Q;
  rsi_long_zone : Q * Q;
  rsi_short_zone : Q * Q;
  rsi_overbought : Q;
  rsi_oversold : Q
}.

(** The constructor defaults, which are also what the engine passes. *)
Definition default : TrendPullbackStrategy :=
  mkStrategy (1 # 1000) (5 # 10000) (45, 60) (40, 55) 70 30.

Definition none (r : Reason) : Signal := mkSignal NONE 0 r.

Definition zone (self : TrendPullbackStrategy) (uptrend : bool) : Q * Q :=
  if uptrend then rsi_long_zone self else rsi_short_zone self.

Definition zone_mid (z : Q * Q) : Q := (fst z + snd z) / 2.
Definition zone_half (z : Q * Q) : Q := Py.max ((snd z - fst z) / 2) (1 # 1000000000).

(** The scoring tail of [generate], entered once every gate has passed. *)
Definition score_of (self : TrendPullbackStrategy) (z : Q * Q)
  (ema_spread_pct atr_pct rsi : Q) : Py.Result Q :=
  t <- Py.div ema_spread_pct (min_ema_spread_pct self * 4) ;;
  let trend_strength := Py.min 1 t in
  v <- Py.div atr_pct (min_atr_pct self * 4) ;;
  let vol_strength := Py.min 1 v in
  d <- Py.div (Qabs (rsi - zone_mid z)) (zone_half z) ;;
  let rsi_score := Py.max 0 (1 - d) in
  let score := (45 # 100) * trend_strength + (35 # 100) * rsi_score
               + (20 # 100) * vol_strength in
  Py.Ok (Py.max 0 (Py.min 1 score)).

Definition generate (self : TrendPullbackStrategy) (candle : Candle) (ind : Indicators)
  : Py.Result Signal :=
  match ema_fast ind, ema_slow ind, atr ind, rsi ind with
  | Some ema_fast, Some ema_slow, Some atr, Some rsi =>
      let price := close candle in
      if Py.leb price 0 then Py.Ok (none invalid_price)
      else
        let uptrend := Py.gtb ema_fast ema_slow in
        let downtrend := Py.ltb ema_fast ema_slow in
        if negb (uptrend || downtrend) then Py.Ok (none no_trend)
        else
          atr_pct <- Py.div atr price ;;
          if Py.ltb atr_pct (min_atr_pct self) then Py.Ok (none (atr_too_low atr_pct))
          else
            ema_spread_pct <- Py.div (Qabs (ema_fast - ema_slow)) price ;;
            if Py.ltb ema_spread_pct (min_ema_spread_pct self)
            then Py.Ok (none (ema_spread_too_low ema_spread_pct))
            else if Py.geb rsi (rsi_overbought self) && uptrend
            then Py.Ok (none rsi_overbought_skip)
            else if Py.leb rsi (rsi_oversold self) && downtrend
            then Py.Ok (none rsi_oversold_skip)
            else
              let z := zone self uptrend in
              if negb (Py.leb (fst z) rsi && Py.leb rsi (snd z))
              then Py.Ok (none (if uptrend then rsi_not_in_long_zone
                                else rsi_not_in_short_zone))
              else
                sc <- score_of self z ema_spread_pct atr_pct rsi ;;
                Py.Ok (mkSignal (if uptrend then CALL else PUT) sc ok)
  | _, _, _, _ => Py.Ok (none indicators_not_ready)
  end.

(** The gates of [generate] in the order they are tested, for indicator
    values that are all present. *)
Definition gates_pass (self : TrendPullbackStrategy) (price ema_fast ema_slow atr rsi : Q)
  : Prop :=
  0 < price /\
  ~ ema_fast == ema_slow /\
  min_atr_pct self <= atr / price /\
  min_ema_spread_pct self <= Qabs (ema_fast - ema_slow) / price /\
  ~ (rsi_overbought self <= rsi /\ ema_slow < ema_fast) /\
  ~ (rsi <= rsi_oversold self /\ ema_fast < ema_slow) /\
  fst (zone self (Py.gtb ema_fast ema_slow)) <= rsi /\
  rsi <= snd (zone self (Py.gtb ema_fast ema_slow)).

(** The score as the specification words it: 0.45 trend strength + 0.35 RSI
    score + 0.20 volatility strength, clamped to [0, 1], with the zone
    midpoint (lo + hi) / 2 and the zone half-width (hi - lo) / 2. *)
Definition spec_score (ema_spread_floor atr_floor lo hi ema_spread_pct atr_pct rsi : Q) : Q :=
  let trend_strength := Qmin 1 (ema_spread_pct / (4 * ema_spread_floor)) in
  let vol_strength := Qmin 1 (atr_pct / (4 * atr_floor)) in
  let rsi_score := Qmax 0 (1 - Qabs (rsi - (lo + hi) / 2) / ((hi - lo) / 2)) in
  Qmax 0 (Qmin 1 ((45 # 100) * trend_strength + (35 # 100) * rsi_score
                  + (20 # 100) * vol_strength)).

End trend_pullback.

(** ** services/execution/order_executor.py *)

Module order_executor.

Record ExecutedTrade : Type := mkExecuted {
  contract_id : Z;
  profit : Q;
  buy_price : Q;
  payout : Q;
  is_win : bool
}.

(** The requests the executor sends. *)
Record ProposalRequest : Type := mkProposalReq {
  amount : Q;
  contract_type : string;
  currency : string;
  duration : Z;
  duration_unit : string;
  multiplier : option Z;
  req_symbol : string
}.

Record LimitOrder : Type := mkLimitOrder {
  take_profit : Z;
  stop_loss : Z
}.

Record BuyRequest : Type := mkBuyReq {
  buy : string;
  price : Q;
  limit_order : option LimitOrder
}.

(** The fields the executor reads from the responses: a truthy ["error"]
    entry, the proposal id, the ["buy"] object, the open-contract status. *)
Record ProposalResponse : Type := mkProposalResp {
  proposal_error : option string;
  proposal_id : option string
}.

Record BuyResponse : Type := mkBuyResp {
  buy_error : option string;
  buy_contract_id : option Z;
  buy_buy_price : option Q
}.

Record PocResponse : Type := mkPocResp {
  poc_error : option string;
  is_sold : bool;
  poc_profit : option Q;
  poc_payout : option Q
}.

(** The transport client as the executor sees it: [request] either raises
    or answers.  [on_poc] lists the answers to the successive status polls
    of a contract; when they run out the request gets no answer and
    [_raw_request] raises its timeout. *)
Record Client : Type := mkClient {
  on_proposal : ProposalRequest -> Py.Result ProposalResponse;
  on_buy : BuyRequest -> Py.Result BuyResponse;
  on_poc : Z -> list (Py.Result PocResponse)
}.

Record OrderExecutor : Type := mkExecutor {
  client : Client;
  symbol : string;
  executor_currency : string
}.

(** [symbol or self.symbol]. *)
Definition pick_symbol (self : OrderExecutor) (sym : option string) : string :=
  match sym with
  | Some s => if Py.truthy (Some s) then s else symbol self
  | None => symbol self
  end.

(** Step 3 of both entry points: poll until the contract is sold.  The
    waiting time is kept in binary64 as the code keeps it:
    [elapsed += poll_sec] rounds at every step, and that decides how many
    polls are made before [elapsed < timeout_sec] fails. *)
Fixpoint wait_until_sold (polls : list (Py.Result PocResponse))
  (elapsed poll_sec timeout_sec : float) (cid : Z) (bought_at : Q)
  : Py.Result ExecutedTrade :=
  if PrimFloat.ltb elapsed timeout_sec then
    match polls with
    | [] => Py.Raise (Py.DerivWSError "Request timeout")
    | answer :: rest =>
        poc <- answer ;;
        if Py.truthy (poc_error poc) then Py.Raise (Py.RuntimeError "poc_error")
        else if is_sold poc then
          let profit := Py.or_float (poc_profit poc) 0 in
          let payout := Py.or_float (poc_payout poc) 0 in
          Py.Ok (mkExecuted cid profit bought_at payout (Py.gtb profit 0))
        else wait_until_sold rest (PrimFloat.add elapsed poll_sec) poll_sec timeout_sec
                             cid bought_at
    end
  else Py.Raise (Py.TimeoutError "contract_wait_timeout").

(** Steps 1 and 2 of both entry points: proposal, then buy. *)
Definition propose_and_buy (self : OrderExecutor) (req : ProposalRequest)
  (stake : Q) (limit : option LimitOrder) : Py.Result (Z * Q) :=
  proposal <- on_proposal (client self) req ;;
  if Py.truthy (proposal_error proposal) then Py.Raise (Py.RuntimeError "proposal_error")
  else
    match proposal_id proposal with
    | None => Py.Raise (Py.RuntimeError "proposal_missing_id")
    | Some pid =>
        if negb (Py.truthy (Some pid)) then Py.Raise (Py.RuntimeError "proposal_missing_id")
        else
          bought <- on_buy (client self) (mkBuyReq pid stake limit) ;;
          if Py.truthy (buy_error bought) then Py.Raise (Py.RuntimeError "buy_error")
          else
            match buy_contract_id bought with
            | None => Py.Raise (Py.RuntimeError "buy_missing_contract_id")
            | Some cid => Py.Ok (cid, Py.or_float (buy_buy_price bought) stake)
            end
    end.

Definition execute_rise_fall (self : OrderExecutor) (side : string) (stake : Q)
  (duration : Z) (duration_unit : string) (sym : option string)
  (poll_sec timeout_sec : float) : Py.Result ExecutedTrade :=
  let req := mkProposalReq stake side (executor_currency self) duration duration_unit
                           None (pick_symbol self sym) in
  b <- propose_and_buy self req stake None ;;
  wait_until_sold (on_poc (client self) (fst b)) 0%float poll_sec timeout_sec
                  (fst b) (snd b).

Definition execute_multiplier (self : OrderExecutor) (side : string) (stake : Q)
  (take_profit_usd stop_loss_usd : Q) (duration : Z) (duration_unit : string)
  (mult : Z) (sym : option string) (poll_sec timeout_sec : float)
  : Py.Result ExecutedTrade :=
  let contract :=
    (if String.eqb (Py.upper side) "CALL" then "MULTUP" else "MULTDOWN")%string in
  let limit := mkLimitOrder (Py.round_half_even (Py.max (1 # 100) take_profit_usd))
                            (Py.round_half_even (Py.max (1 # 100) stop_loss_usd)) in
  let dur :=
    if String.eqb duration_unit "m" then ((duration * 60)%Z, "s"%string)
    else if String.eqb duration_unit "h" then ((duration * 3600)%Z, "s"%string)
    else (duration, duration_unit) in
  let req := mkProposalReq stake contract (executor_currency self) (fst dur) (snd dur)
                           (Some mult) (pick_symbol self sym) in
  b <- propose_and_buy self req stake (Some limit) ;;
  wait_until_sold (on_poc (client self) (fst b)) 0%float poll_sec timeout_sec
                  (fst b) (snd b).

(** A brokerage that accepts the order and reports it sold at the second
    poll with a profit of exactly 0. *)
Definition break_even_client : Client :=
  mkClient (fun _ => Py.Ok (mkProposalResp None (Some "p1"%string)))
           (fun _ => Py.Ok (mkBuyResp None (Some 7%Z) (Some 10)))
           (fun _ => [ Py.Ok (mkPocResp None false None None);
                       Py.Ok (mkPocResp None true (Some 0) (Some 10)) ]).

(** The polls that precede the one that settles a contract: each answered,
    without an error entry, that the contract is still open. *)
Definition still_open (polls : list (Py.Result PocResponse)) (k : nat) : Prop :=
  forall j, (j < k)%nat ->
    exists p, nth_error polls j = Some (Py.Ok p) /\
              Py.truthy (poc_error p) = false /\ is_sold p = false.

(** The value of [elapsed] after [k] sleeps of [poll_sec], from [elapsed]. *)
Fixpoint waited (elapsed poll_sec : float) (k : nat) : float :=
  match k with
  | O => elapsed
  | S j => waited (PrimFloat.add elapsed poll_sec) poll_sec j
  end.

(** A brokerage that reports the contract open at the first ten polls and
    sold, with a profit of 3, at the eleventh. *)
Definition slow_client : Client :=
  mkClient (fun _ => Py.Ok (mkProposalResp None (Some "p1"%string)))
           (fun _ => Py.Ok (mkBuyResp None (Some 7%Z) (Some 10)))
           (fun _ => repeat (Py.Ok (mkPocResp None false None None)) 10
                     ++ [ Py.Ok (mkPocResp None true (Some 3) (Some 13)) ]).

(** 0.1 as a binary64 float. *)
Definition one_tenth : float := 0x1.999999999999ap-4%float.


End order_executor.

(** ** app/engine.py: the bounded queue and the trade worker *)

Module engine.

Record TradeIntent : Type := mkIntent {
  symbol : string;
  side : string;
  score : Q;
  stake : Q;
  reason : string;
  entry_price : Q;
  take_profit_usd : option Q;
  stop_loss_usd : option Q
}.

(** [asyncio.Queue]: the items waiting and the count of items put and not
    yet marked done. *)
Record Queue : Type := mkQueue {
  maxsize : Z;
  items : list TradeIntent;
  _unfinished_tasks : Z
}.

Definition qsize (q : Queue) : Z := Z.of_nat (List.length (items q)).

Definition full (q : Queue) : bool :=
  if (maxsize q <=? 0)%Z then false else (maxsize q <=? qsize q)%Z.

Definition put_nowait (q : Queue) (item : TradeIntent) : Py.Result Queue :=
  if full q then Py.Raise Py.QueueFull
  else Py.Ok (mkQueue (maxsize q) (items q ++ [item]) (_unfinished_tasks q + 1)).

(** [await queue.get()]: [None] when the queue is empty and the caller
    stays suspended. *)
Definition get (q : Queue) : option (TradeIntent * Queue) :=
  match items q with
  | [] => None
  | item :: rest => Some (item, mkQueue (maxsize q) rest (_unfinished_tasks q))
  end.

Definition task_done (q : Queue) : Py.Result Queue :=
  if (_unfinished_tasks q <=? 0)%Z
  then Py.Raise (Py.ValueError "task_done() called too many times")
  else Py.Ok (mkQueue (maxsize q) (items q) (_unfinished_tasks q - 1)).

(** [asyncio.Queue(maxsize=3)]. *)
Definition trade_queue : Queue := mkQueue 3 [] 0.

Inductive Level : Type := info | warning | error.

Record LogEntry : Type := mkLog {
  level : Level;
  event : string
}.

(** The tail of [on_candle] and of [run_timer]: [put_nowait] inside
    [try ... except asyncio.QueueFull]. *)
Definition enqueue (q : Queue) (log : list LogEntry) (intent : TradeIntent)
  : Py.Result (Queue * list LogEntry) :=
  match put_nowait q intent with
  | Py.Ok q' => Py.Ok (q', log ++ [mkLog info "trade_intent_enqueued"])
  | Py.Raise Py.QueueFull => Py.Ok (q, log ++ [mkLog warning "trade_queue_full_skip"])
  | Py.Raise e => Py.Raise e
  end.

(** The trade ledger and the event log of the repository. *)
Record TradeRow : Type := mkRow {
  row_id : string;
  row_symbol : string;
  row_side : string;
  row_stake : Q;
  row_pnl : option Q;
  row_balance_after : option Q
}.

Record Repo : Type := mkRepo {
  trades : list TradeRow;
  events : list LogEntry
}.

(** [INSERT] on a table whose primary key is the id. *)
Definition insert_trade (r : Repo) (row : TradeRow) : Py.Result Repo :=
  if existsb (fun t => String.eqb (row_id t) (row_id row)) (trades r)
  then Py.Raise Py.IntegrityError
  else Py.Ok (mkRepo (trades r ++ [row]) (events r)).

Definition delete_trade (r : Repo) (id : string) : Repo :=
  mkRepo (filter (fun t => negb (String.eqb (row_id t) id)) (trades r)) (events r).

Definition close_trade (r : Repo) (id : string) (pnl : Q) (balance_after : option Q) : Repo :=
  mkRepo (map (fun t => if String.eqb (row_id t) id
                        then mkRow (row_id t) (row_symbol t) (row_side t) (row_stake t)
                                   (Some pnl) balance_after
                        else t) (trades r))
         (events r).

Definition log_event (r : Repo) (lvl : Level) (type : string) : Repo :=
  mkRepo (trades r) (events r ++ [mkLog lvl type]).

(** What [run_engine] closes over and the worker reads or writes. *)
Record Engine : Type := mkEngine {
  queue : Queue;
  trade_in_flight : bool;
  repo : Repo;
  balance : option Q;
  peak_equity : option Q;
  rf : risk_firewall.RiskFirewall;
  logs : list LogEntry
}.

Definition with_queue (st : Engine) (q : Queue) : Engine :=
  mkEngine q (trade_in_flight st) (repo st) (balance st) (peak_equity st) (rf st) (logs st).

Definition with_in_flight (st : Engine) (b : bool) : Engine :=
  mkEngine (queue st) b (repo st) (balance st) (peak_equity st) (rf st) (logs st).

Definition with_repo (st : Engine) (r : Repo) : Engine :=
  mkEngine (queue st) (trade_in_flight st) r (balance st) (peak_equity st) (rf st) (logs st).

Definition with_balance (st : Engine) (b : option Q) : Engine :=
  mkEngine (queue st) (trade_in_flight st) (repo st) b (peak_equity st) (rf st) (logs st).

Definition with_peak (st : Engine) (p : option Q) : Engine :=
  mkEngine (queue st) (trade_in_flight st) (repo st) (balance st) p (rf st) (logs st).

Definition with_rf (st : Engine) (f : risk_firewall.RiskFirewall) : Engine :=
  mkEngine (queue st) (trade_in_flight st) (repo st) (balance st) (peak_equity st) f (logs st).

Definition log (st : Engine) (lvl : Level) (ev : string) : Engine :=
  mkEngine (queue st) (trade_in_flight st) (repo st) (balance st) (peak_equity st) (rf st)
           (logs st ++ [mkLog lvl ev]).

(** What the outside answers while one intent is processed: the kill-switch
    file, the clock, the ledger queries, the dry-run flag, the fresh trade
    id, the outcome of the awaited order execution, and the errors, if any,
    with which the database answers the two ledger calls of the [except]
    block: [delete_trade] and [log_event]. *)
Record World : Type := mkWorld {
  killswitch : Py.Result bool;
  clock : risk_firewall.Clock;
  trades_today : Z;
  consecutive_losses : Z;
  last_close_iso : option string;
  daily_pnl : Q;
  dry_run : bool;
  new_trade_id : string;
  execution : Py.Result order_executor.ExecutedTrade;
  delete_error : option Py.exn;
  log_error : option Py.exn
}.

(** How the [try] block of the worker is left. *)
Inductive BodyEnd : Type :=
| fell_through
| continued
| raised (e : Py.exn).

Definition snapshot_of (w : World) (equity peak : Q) : risk_firewall.RiskSnapshot :=
  risk_firewall.mkSnapshot equity equity peak (daily_pnl w) (trades_today w)
                           (consecutive_losses w) (last_close_iso w).

(** The path after the dry-run test: ledger row, execution, close. *)
Definition execute_intent (w : World) (st : Engine) (intent : TradeIntent)
  : Engine * option string * BodyEnd :=
  let trade_id := new_trade_id w in
  let row := mkRow trade_id (symbol intent) (side intent) (stake intent) None None in
  match insert_trade (repo st) row with
  | Py.Raise e => (st, Some trade_id, raised e)
  | Py.Ok r =>
      let st := with_repo st (log_event r info "trade_open") in
      let st := log st info "trade_execute_start" in
      match execution w with
      | Py.Raise e => (st, Some trade_id, raised e)
      | Py.Ok result =>
          let st :=
            match balance st with
            | Some b => with_balance st (Some (b + order_executor.profit result))
            | None => st
            end in
          let st := with_repo st (close_trade (repo st) trade_id
                                    (order_executor.profit result)
                                    (Some (Py.or_float (balance st) 0))) in
          let st := with_repo st (log_event (repo st) info "trade_close") in
          let st := log st info "trade_execute_done" in
          let st := log st info "performance" in
          (st, Some trade_id, fell_through)
      end
  end.

(** The [try] block of [trade_worker], from [ks.load()] on. *)
Definition try_body (w : World) (st : Engine) (intent : TradeIntent)
  : Engine * option string * BodyEnd :=
  match killswitch w with
  | Py.Raise e => (st, None, raised e)
  | Py.Ok true => (log st warning "killswitch_enabled_skip_trade", None, continued)
  | Py.Ok false =>
      let equity := Py.or_float (balance st) 0 in
      let peak :=
        Py.max (match peak_equity st with
                | None => Py.or_float (Some equity) 0
                | Some p => Py.or_float (Some p) 0
                end) equity in
      let st := with_peak st (Some peak) in
      match risk_firewall.check (clock w) (rf st) (snapshot_of w equity peak) with
      | Py.Raise e =>
          (* [check] has reset the day fields of the firewall before it raises *)
          (with_rf st (risk_firewall.reset_daily_if_needed
                         (clock w) (rf st) (snapshot_of w equity peak)),
           None, raised e)
      | Py.Ok (rf', decision) =>
          let st := with_rf st rf' in
          if negb (risk_firewall.allowed decision)
          then (log st warning "risk_block_skip_trade", None, continued)
          else if trade_in_flight st
          then (log st info "trade_in_flight_skip", None, continued)
          else
            let st := with_in_flight st true in
            if dry_run w then
              let st := log st info "dry_run_skip_execution" in
              let st := with_repo st (log_event (repo st) info "dry_run_skip") in
              let st := with_in_flight st false in
              match task_done (queue st) with
              | Py.Raise e => (st, None, raised e)
              | Py.Ok q => (with_queue st q, None, continued)
              end
            else execute_intent w st intent
      end
  end.

(** [except Exception as e]: log, roll the speculative row back, record
    the error event.  The rollback sits in its own [try ... except
    Exception: pass], so a failing [delete_trade] leaves the row and goes
    on; [log_event] is unguarded, so an error of it escapes the handler.
    The second component is the exception that escapes, if any. *)
Definition except_handler (w : World) (st : Engine) (trade_id : option string)
  (e : BodyEnd) : Engine * option Py.exn :=
  match e with
  | raised _ =>
      let st := log st error "trade_worker_error" in
      let st :=
        match trade_id with
        | Some id =>
            match delete_error w with
            | None => with_repo st (delete_trade (repo st) id)
            | Some _ => st
            end
        | None => st
        end in
      match log_error w with
      | None => (with_repo st (log_event (repo st) error "trade_error"), None)
      | Some x => (st, Some x)
      end
  | _ => (st, None)
  end.

(** [finally]: release the in-flight guard and mark the task done.  An
    exception raised here leaves the [while True] loop. *)
Definition finally_block (st : Engine) : Py.Result Engine :=
  let st := with_in_flight st false in
  q <- task_done (queue st) ;;
  Py.Ok (with_queue st q).

(** One turn of the loop for an intent already taken from the queue.  The
    [finally] block runs on every path; an exception that escaped the
    handler leaves the loop after it, unless [finally] raises its own. *)
Definition process_intent (w : World) (st : Engine) (intent : TradeIntent)
  : Py.Result Engine :=
  let '(st1, trade_id, e) := try_body w st intent in
  let '(st2, escaped) := except_handler w st1 trade_id e in
  st3 <- finally_block st2 ;;
  match escaped with
  | Some x => Py.Raise x
  | None => Py.Ok st3
  end.

(** How the worker task stands after the scripted worlds: suspended in
    [get] on an empty queue, terminated by an escaped exception, or with
    intents left and no world to process them in. *)
Inductive WorkerEnd : Type :=
| waiting (st : Engine)
| died (e : Py.exn)
| pending (st : Engine).

Fixpoint trade_worker (worlds : list World) (st : Engine) : WorkerEnd :=
  match get (queue st) with
  | None => waiting st
  | Some (intent, q) =>
      match worlds with
      | [] => pending st
      | w :: rest =>
          match process_intent w (with_queue st q) intent with
          | Py.Ok st' => trade_worker rest st'
          | Py.Raise e => died e
          end
      end
  end.

Definition sample_intent (sym : string) : TradeIntent :=
  mkIntent sym "CALL" (675 # 1000) 5 "ok" 100 None None.

(** [trade_queue] after three successful [put_nowait]. *)
Definition full_queue : Queue :=
  mkQueue 3 [sample_intent "R_50"; sample_intent "R_75"; sample_intent "R_100"] 3.

(** A quiet world: kill switch off, no trades today, no losses; the flag
    [dry] is [development.dry_run]. *)
Definition quiet_world (dry : bool) (outcome : Py.Result order_executor.ExecutedTrade)
  : World :=
  mkWorld (Py.Ok false)
          (risk_firewall.mkClock 0 0 600 true (fun _ => Some (risk_firewall.mkIso 0 true)))
          0 0 None 0 dry "20261103T120000" outcome None None.

Definition winning_trade : order_executor.ExecutedTrade :=
  order_executor.mkExecuted 7 (9 # 2) 5 (19 # 2) true.

(** The engine right after [run_engine] set it up, with queue [q]. *)
Definition fresh_engine (q : Queue) : Engine :=
  mkEngine q false (mkRepo [] []) (Some 1000) None
           (risk_firewall.mkFirewall (1 # 10) (5 # 100) 50 3 30 0 None) [].

Definition one_intent : Queue :=
  mkQueue 3 [sample_intent "R_75"] 1.

Definition two_intents : Queue :=
  mkQueue 3 [sample_intent "R_75"; sample_intent "R_100"] 2.

(** A producer that enqueues a whole batch of intents while the worker is
    not consuming: [enqueue] applied to each in turn. *)
Fixpoint enqueue_all (q : Queue) (log : list LogEntry) (intents : list TradeIntent)
  : Py.Result (Queue * list LogEntry) :=
  match intents with
  | [] => Py.Ok (q, log)
  | intent :: rest =>
      r <- enqueue q log intent ;;
      enqueue_all (fst r) (snd r) rest
  end.

End engine.

(** ** services/market/higher_tf_trend.py *)

Module higher_tf_trend.
Import market_models.

Record _AggCandle : Type := mkAgg {
  agg_open : Q;
  agg_high : Q;
  agg_low : Q;
  agg_close : Q
}.

Inductive TrendKind : Type := bullish | bearish | neutral.

Record HigherTimeframeTrend : Type := mkTrend {
  _n : Z;
  _buffer : list Candle;
  _last_htf : option _AggCandle;
  _prev_htf : option _AggCandle
}.

(** [__init__]: [_n = max(1, int(timeframe_1m_blocks))] and an empty
    [deque(maxlen=_n * 3)]. *)
Definition new (timeframe_1m_blocks : Z) : HigherTimeframeTrend :=
  mkTrend (Z.max 1 timeframe_1m_blocks) [] None None.

(** [deque.append] with a maximum length: once full, the oldest element is
    dropped. *)
Definition deque_append (maxlen : Z) (buf : list Candle) (c : Candle) : list Candle :=
  if (maxlen <=? Z.of_nat (List.length buf))%Z then tl buf ++ [c] else buf ++ [c].

(** [xs[-n:]] for a positive [n]. *)
Definition last_n (n : Z) (xs : list Candle) : list Candle :=
  skipn (List.length xs - Z.to_nat n) xs.

(** [max(c.high for c in chunk)] and [min(c.low for c in chunk)]: the first
    extreme value is kept, an empty chunk is a [ValueError]. *)
Definition max_high (chunk : list Candle) : Py.Result Q :=
  match chunk with
  | [] => Py.Raise (Py.ValueError "max() arg is an empty sequence")
  | c :: rest => Py.Ok (fold_left (fun m x => Py.max m (high x)) rest (high c))
  end.

Definition min_low (chunk : list Candle) : Py.Result Q :=
  match chunk with
  | [] => Py.Raise (Py.ValueError "min() arg is an empty sequence")
  | c :: rest => Py.Ok (fold_left (fun m x => Py.min m (low x)) rest (low c))
  end.

Definition add_1m_candle (self : HigherTimeframeTrend) (candle : Candle)
  : Py.Result HigherTimeframeTrend :=
  let buf := deque_append (_n self * 3) (_buffer self) candle in
  if (Z.of_nat (List.length buf) <? _n self)%Z
  then Py.Ok (mkTrend (_n self) buf (_last_htf self) (_prev_htf self))
  else
    let chunk := last_n (_n self) buf in
    match chunk with
    | [] => Py.Raise (Py.ValueError "list index out of range")
    | first :: _ =>
        hi <- max_high chunk ;;
        lo <- min_low chunk ;;
        let agg := mkAgg (open first) hi lo (close (last chunk first)) in
        Py.Ok (mkTrend (_n self) buf (Some agg) (_last_htf self))
    end.

Definition get_trend (self : HigherTimeframeTrend) : TrendKind :=
  match _last_htf self, _prev_htf self with
  | Some l, Some p =>
      if Py.gtb (agg_close l) (agg_close p) then bullish
      else if Py.ltb (agg_close l) (agg_close p) then bearish
      else neutral
  | _, _ => neutral
  end.

Definition is_aligned (self : HigherTimeframeTrend) (signal_side : string)
  (allow_neutral : bool) : bool :=
  match get_trend self with
  | neutral => allow_neutral
  | bullish => String.eqb signal_side "CALL"
  | bearish => String.eqb signal_side "PUT"
  end.

(** Feeding closed 1m candles in order. *)
Fixpoint feed (self : HigherTimeframeTrend) (candles : list Candle)
  : Py.Result HigherTimeframeTrend :=
  match candles with
  | [] => Py.Ok self
  | c :: rest =>
      s <- add_1m_candle self c ;;
      feed s rest
  end.

(** What holds of a trend object built with [_n = n] after the candles
    [fed]: the buffer length, its newest element, and whose closes the two
    aggregated candles carry. *)
Definition fed_inv (n : Z) (fed : list Candle) (s : HigherTimeframeTrend) : Prop :=
  _n s = n /\
  List.length (_buffer s) = Nat.min (List.length fed) (Z.to_nat (n * 3)) /\
  (forall older x, fed = older ++ [x] -> exists pre, _buffer s = pre ++ [x]) /\
  ((Z.of_nat (List.length fed) < n)%Z -> _last_htf s = None) /\
  ((n <= Z.of_nat (List.length fed))%Z ->
   exists a, _last_htf s = Some a /\
             forall older x, fed = older ++ [x] -> agg_close a = close x) /\
  ((Z.of_nat (List.length fed) <= n)%Z -> _prev_htf s = None) /\
  ((n < Z.of_nat (List.length fed))%Z ->
   exists p, _prev_htf s = Some p /\
             forall older y x, fed = older ++ [y; x] -> agg_close p = close y).

End higher_tf_trend.

(** ** services/market/support_resistance.py *)

Module support_resistance.
Import market_models.

(** [min(lows)] and [max(highs)] over the list comprehension of a window;
    every [Candle] has both attributes. *)
Definition min_of (xs : list Q) : option Q :=
  match xs with
  | [] => None
  | x :: rest => Some (fold_left Py.min rest x)
  end.

Definition max_of (xs : list Q) : option Q :=
  match xs with
  | [] => None
  | x :: rest => Some (fold_left Py.max rest x)
  end.

Definition compute_levels (recent_candles : list Candle) (min_candles : Z)
  : option Q * option Q :=
  match recent_candles with
  | [] => (None, None)
  | _ :: _ =>
      if (Z.of_nat (List.length recent_candles) <? min_candles)%Z then (None, None)
      else
        match min_of (map low recent_candles), max_of (map high recent_candles) with
        | Some support, Some resistance => (Some support, Some resistance)
        | _, _ => (None, None)
        end
  end.

(** The distance test of one side; [ref] is at least 1e-9, so the division
    cannot raise. *)
Definition near (close_price level near_pct : Q) : bool :=
  Py.leb (Qabs (close_price - level) / Py.max close_price (1 # 1000000000)) near_pct.

Definition passes_sr_filter (side : string) (close_price : Q)
  (support resistance : option Q) (near_pct : Q) (min_candles_met : bool) : bool :=
  if negb min_candles_met || Py.leb close_price 0 then true
  else
    match support, resistance with
    | None, None => true
    | _, _ =>
        if String.eqb side "CALL" then
          match support with
          | None => true
          | Some s => near close_price s near_pct
          end
        else if String.eqb side "PUT" then
          match resistance with
          | None => true
          | Some r => near close_price r near_pct
          end
        else true
    end.

(** The support/resistance gate as [on_candle] and [run_timer] apply it to
    the window of recent candles, the closing candle included. *)
Definition sr_gate (window : list Candle) (min_candles : Z) (side : string)
  (close_price near_pct : Q) : bool :=
  let levels := compute_levels window min_candles in
  passes_sr_filter side close_price (fst levels) (snd levels) near_pct
                   (min_candles <=? Z.of_nat (List.length window))%Z.

End support_resistance.

(** ** services/risk/tp_sl.py *)

Module tp_sl.

Record TpSlAmounts : Type := mkTpSl {
  take_profit_usd : Q;
  stop_loss_usd : Q
}.

Definition compute_tp_sl_from_stake (stake take_profit_percent stop_loss_percent : Q)
  : TpSlAmounts :=
  let stake := Py.max (1 # 100) stake in
  let tp := stake * take_profit_percent in
  let sl := stake * stop_loss_percent in
  mkTpSl (Py.max (1 # 100) (Py.round2 tp)) (Py.max (1 # 100) (Py.round2 sl)).

End tp_sl.

(** ** services/execution/deriv_multiplier_resolver.py *)

Module deriv_multiplier_resolver.

(** [min(xs, key=lambda x: abs(x - preferred))]: the first element with
    the smallest distance; an empty list is a [ValueError]. *)
Fixpoint closest_from (best : Z) (rest : list Z) (preferred : Z) : Z :=
  match rest with
  | [] => best
  | x :: more =>
      closest_from (if (Z.abs (x - preferred) <? Z.abs (best - preferred))%Z
                    then x else best) more preferred
  end.

Definition closest (xs : list Z) (preferred : Z) : Py.Result Z :=
  match xs with
  | [] => Py.Raise (Py.ValueError "min() arg is an empty sequence")
  | x :: rest => Py.Ok (closest_from x rest preferred)
  end.

(** [preferred in allowed]. *)
Definition mem (x : Z) (xs : list Z) : bool := existsb (Z.eqb x) xs.

(** The part of [allowed] kept when [prefer_moderate] applies:
    [allowed[: cap_idx + 1]]. *)
Definition moderate (allowed : list Z) : list Z :=
  let len := Z.of_nat (List.length allowed) in
  let cap_idx := Z.max 0 (len - 1 - Z.max 1 (len / 4)) in
  firstn (Z.to_nat (cap_idx + 1)) allowed.

Definition pick_best_multiplier (allowed : list Z) (preferred : Z)
  (prefer_moderate : bool) : Py.Result Z :=
  match allowed with
  | [] => Py.Ok (Z.max 1 preferred)
  | _ :: _ =>
      if mem preferred allowed then Py.Ok preferred
      else if prefer_moderate && (1 <? Z.of_nat (List.length allowed))%Z then
        match moderate allowed with
        | [] => closest allowed preferred
        | _ :: _ => closest (moderate allowed) preferred
        end
      else closest allowed preferred
  end.

(** [range(lo, stop, step)] for a positive step. *)
Definition py_range (lo stop step : Z) : list Z :=
  map (fun k => (lo + Z.of_nat k * step)%Z)
      (seq 0 (Z.to_nat ((stop - lo + step - 1) / step))).

Definition common : list Z :=
  [1; 2; 5; 10; 20; 40; 50; 100; 200; 400; 500; 1000; 2000]%Z.

(** [_range_to_list] on a range whose ["min"] and ["max"] are numbers,
    already converted by [int]; [None] stands for a bound that is missing
    or not a number. *)
Definition _range_to_list (lo hi : option Z) : list Z :=
  match lo, hi with
  | Some lo, Some hi =>
      match filter (fun x => (lo <=? x) && (x <=? hi))%Z common with
      | [] =>
          let step := Z.max 1 ((hi - lo) / 10) in
          py_range lo (hi + 1) step
      | out => out
      end
  | _, _ => []
  end.

End deriv_multiplier_resolver.

(** ** infrastructure/storage/sqlite_repository.py: the loss streak *)

Module sqlite_repository.

(** A row of [SELECT pnl, exit_time FROM trades WHERE exit_time IS NOT NULL
    ORDER BY exit_time DESC]: most recent close first. *)
Record ClosedRow : Type := mkClosed {
  pnl : option Q;
  exit_time : string
}.

(** The [for] loop of [get_consecutive_losses_and_last_close], with its
    two [break]s. *)
Fixpoint scan (rows : list ClosedRow) (consecutive : Z) (last_close : option string)
  : Z * option string :=
  match rows with
  | [] => (consecutive, last_close)
  | r :: rest =>
      let last_close :=
        match last_close with
        | None => if Py.truthy (Some (exit_time r)) then Some (exit_time r) else None
        | Some t => Some t
        end in
      match pnl r with
      | None => (consecutive, last_close)
      | Some p =>
          if Py.leb p 0 then scan rest (consecutive + 1) last_close
          else (consecutive, last_close)
      end
  end.

(** [closed] is the whole result of the query before [LIMIT 20]. *)
Definition get_consecutive_losses_and_last_close (closed : list ClosedRow)
  : Z * option string :=
  scan (firstn 20 closed) 0 None.

(** A closed trade the ledger counts as a loss. *)
Definition is_loss (r : ClosedRow) : bool :=
  match pnl r with
  | Some p => Py.leb p 0
  | None => false
  end.

End sqlite_repository.

(** ** services/risk/killswitch.py *)

Module killswitch.

Record KillSwitchState : Type := mkState {
  enabled : bool;
  reason : string;
  activated_at_iso : option string
}.

(** The JSON object of the state file: each key may be missing. *)
Record FileData : Type := mkFile {
  f_enabled : option bool;
  f_reason : option string;
  f_activated_at_iso : option string
}.

(** The switch and the file at its path ([None]: the file does not
    exist). *)
Record KillSwitch : Type := mkSwitch {
  _state : KillSwitchState;
  file : option FileData
}.

Definition load (self : KillSwitch) : KillSwitch :=
  match file self with
  | None => self
  | Some data =>
      mkSwitch (mkState (match f_enabled data with Some b => b | None => false end)
                        (match f_reason data with Some r => r | None => ""%string end)
                        (f_activated_at_iso data))
               (file self)
  end.

(** [KillSwitch(path)]: the disabled default, then [load]. *)
Definition new (on_disk : option FileData) : KillSwitch :=
  load (mkSwitch (mkState false "" None) on_disk).

Definition save (self : KillSwitch) : KillSwitch :=
  mkSwitch (_state self)
           (Some (mkFile (Some (enabled (_state self)))
                         (Some (reason (_state self)))
                         (activated_at_iso (_state self)))).

(** [now] is [utc_now().isoformat()]. *)
Definition activate (self : KillSwitch) (why now : string) : KillSwitch :=
  if enabled (_state self) then self
  else save (mkSwitch (mkState true why (Some now)) (file self)).

Definition deactivate (self : KillSwitch) (why : string) : KillSwitch :=
  save (mkSwitch (mkState false why None) (file self)).

End killswitch.

(** * Proofs *)

(** ** Python [max] and [min] *)

Lemma py_max_l (a b : Q) : a <= Py.max a b.
Proof. unfold Py.max. destruct (Qlt_le_dec a b); lra. Qed.

Lemma py_max_r (a b : Q) : b <= Py.max a b.
Proof. unfold Py.max. destruct (Qlt_le_dec a b); lra. Qed.

Lemma py_min_l (a b : Q) : Py.min a b <= a.
Proof. unfold Py.min. destruct (Qlt_le_dec b a); lra. Qed.

Lemma py_min_r (a b : Q) : Py.min a b <= b.
Proof. unfold Py.min. destruct (Qlt_le_dec b a); lra. Qed.

Lemma py_max_lub (a b c : Q) : a <= c -> b <= c -> Py.max a b <= c.
Proof. unfold Py.max. destruct (Qlt_le_dec a b); lra. Qed.

Lemma py_min_glb (a b c : Q) : c <= a -> c <= b -> c <= Py.min a b.
Proof. unfold Py.min. destruct (Qlt_le_dec b a); lra. Qed.

Lemma py_ltb_true (a b : Q) : Py.ltb a b = true <-> a < b.
Proof. unfold Py.ltb. destruct (Qlt_le_dec a b); split; intros; try lra; congruence. Qed.

Lemma py_ltb_false (a b : Q) : Py.ltb a b = false <-> b <= a.
Proof. unfold Py.ltb. destruct (Qlt_le_dec a b); split; intros; try lra; congruence. Qed.

Lemma py_leb_true (a b : Q) : Py.leb a b = true <-> a <= b.
Proof. unfold Py.leb. destruct (Qlt_le_dec b a); split; intros; try lra; congruence. Qed.

Lemma py_leb_false (a b : Q) : Py.leb a b = false <-> b < a.
Proof. unfold Py.leb. destruct (Qlt_le_dec b a); split; intros; try lra; congruence. Qed.

(** ** Candle aggregation *)

Section CandleBuilderProofs.
Import market_models candle_builder.

Variable sym : string.
Variable tf : Z.
Hypothesis tf_nonzero : tf <> 0%Z.

Lemma fromtimestamp_in_range (t : Z) :
  in_datetime_range t -> fromtimestamp t = Py.Ok t.
Proof.
  unfold in_datetime_range, fromtimestamp. intros H.
  destruct (Z.ltb_spec t (- 9223372036854775808)); [lia|].
  destruct (Z.ltb_spec 9223372036854775807 t); [lia|].
  destruct (Z.ltb_spec t (- 67768040609740800)); [lia|].
  destruct (Z.ltb_spec 67768036191676799 t); [lia|].
  destruct (Z.ltb_spec t (- 62135596800)); [lia|].
  destruct (Z.ltb_spec 253402300799 t); [lia|].
  reflexivity.
Qed.

Lemma fromtimestamp_out_of_range (t : Z) :
  ~ in_datetime_range t -> exists e, fromtimestamp t = Py.Raise e.
Proof.
  unfold in_datetime_range, fromtimestamp. intros H.
  destruct (_ || _)%bool; [eexists; reflexivity|].
  destruct (_ || _)%bool; [eexists; reflexivity|].
  destruct (Z.ltb_spec t (- 62135596800)); [eexists; reflexivity|].
  destruct (Z.ltb_spec 253402300799 t); [eexists; reflexivity|].
  exfalso. apply H. lia.
Qed.

Lemma update_with_tick_own (self : CandleBuilder) (t : Tick) :
  cb_symbol self = sym -> cb_timeframe_sec self = tf -> tick_symbol t = sym ->
  in_datetime_range (bucket tf t) ->
  update_with_tick self t = Py.Ok (tick_step tf self t).
Proof.
  intros Hs Ht Hsym Hrange.
  unfold update_with_tick, tick_step, _floor_time, Py.mod_.
  rewrite Hs, Hsym, String.eqb_refl. cbn [negb]. rewrite Ht.
  destruct (Z.eqb_spec tf 0) as [E | _]; [contradiction|]. cbn [Py.bind].
  change (epoch t - epoch t mod tf)%Z with (bucket tf t).
  rewrite (fromtimestamp_in_range Hrange). cbn [Py.bind].
  destruct (_current self) as [c|]; [|reflexivity].
  destruct (open_time c <? _)%Z; reflexivity.
Qed.

Lemma update_with_tick_out_of_range (self : CandleBuilder) (t : Tick) :
  cb_symbol self = sym -> cb_timeframe_sec self = tf -> tick_symbol t = sym ->
  ~ in_datetime_range (bucket tf t) ->
  exists e, update_with_tick self t = Py.Raise e.
Proof.
  intros Hs Ht Hsym Hrange.
  unfold update_with_tick, _floor_time, Py.mod_.
  rewrite Hs, Hsym, String.eqb_refl. cbn [negb]. rewrite Ht.
  destruct (Z.eqb_spec tf 0) as [E | _]; [contradiction|]. cbn [Py.bind].
  change (epoch t - epoch t mod tf)%Z with (bucket tf t).
  destruct (fromtimestamp_out_of_range Hrange) as [e ->]. exists e. reflexivity.
Qed.

Lemma update_with_tick_late (self : CandleBuilder) (c : Candle) (t : Tick) :
  cb_symbol self = sym -> cb_timeframe_sec self = tf -> tick_symbol t = sym ->
  in_datetime_range (bucket tf t) ->
  _current self = Some c -> (bucket tf t <= open_time c)%Z ->
  update_with_tick self t = Py.Ok (set_current self (folded c t), None).
Proof.
  intros Hs Ht Hsym Hrange Hc Hlate.
  rewrite (update_with_tick_own self t Hs Ht Hsym Hrange).
  unfold tick_step. rewrite Hc.
  destruct (Z.ltb_spec (open_time c) (bucket tf t)); [lia | reflexivity].
Qed.

Lemma tick_step_config (self : CandleBuilder) (t : Tick) :
  cb_symbol (fst (tick_step tf self t)) = cb_symbol self /\
  cb_timeframe_sec (fst (tick_step tf self t)) = cb_timeframe_sec self.
Proof.
  unfold tick_step. destruct (_current self) as [c|]; [|split; reflexivity].
  destruct (open_time c <? _)%Z; split; reflexivity.
Qed.

Lemma seed_ohlc (self : CandleBuilder) (ot : Z) (t : Tick) : ohlc_ok (seed self ot t).
Proof. unfold ohlc_ok, seed; simpl. repeat split; lra. Qed.

Lemma tick_step_ohlc (self : CandleBuilder) (out : list Candle) (t : Tick) :
  ohlc_inv sym tf self out ->
  ohlc_inv sym tf (fst (tick_step tf self t))
           (match snd (tick_step tf self t) with None => out | Some c => out ++ [c] end).
Proof.
  intros (Hs & Ht & Hout & Hcur).
  destruct (tick_step_config self t) as [Cs Ct].
  unfold ohlc_inv. rewrite Cs, Ct. do 2 (split; [assumption|]).
  unfold tick_step. destruct (_current self) as [c|] eqn:Ec; simpl.
  - specialize (Hcur c eq_refl).
    destruct (open_time c <? bucket tf t)%Z; simpl.
    + split.
      * apply Forall_app; split; [assumption | constructor; [assumption | constructor]].
      * intros d Hd. inversion Hd; subst. apply seed_ohlc.
    + split; [assumption|]. intros d Hd. inversion Hd; subst; clear Hd.
      destruct Hcur as (H1 & H2 & H3 & H4). unfold ohlc_ok; simpl.
      pose proof (py_max_l (high c) (price t)).
      pose proof (py_max_r (high c) (price t)).
      pose proof (py_min_l (low c) (price t)).
      pose proof (py_min_r (low c) (price t)).
      repeat split; lra.
  - split; [assumption|]. intros d Hd. inversion Hd; subst. apply seed_ohlc.
Qed.

Lemma feed_from_ohlc (ticks : list Tick) :
  forall self out,
    (forall t, In t ticks -> tick_symbol t = sym) ->
    (forall t, In t ticks -> in_datetime_range (bucket tf t)) ->
    ohlc_inv sym tf self out ->
    exists self' out',
      feed_from self out ticks = Py.Ok (self', out') /\ ohlc_inv sym tf self' out'.
Proof.
  induction ticks as [|t rest IH]; intros self out Hsym Hrange Hinv.
  - exists self, out. split; [reflexivity | assumption].
  - simpl. destruct Hinv as (Hs & Ht & Hrest).
    rewrite (update_with_tick_own self t Hs Ht (Hsym t (or_introl eq_refl))
               (Hrange t (or_introl eq_refl))). simpl.
    pose proof (@tick_step_ohlc self out t (conj Hs (conj Ht Hrest))) as Hnext.
    destruct (snd (tick_step tf self t)) as [c|];
      apply IH; try assumption; intros u Hu;
        first [apply Hsym | apply Hrange]; right; assumption.
Qed.

Lemma ticks_in_bucket_snoc (hist : list Tick) (t : Tick) (k : Z) :
  ticks_in_bucket tf (hist ++ [t]) k =
  (ticks_in_bucket tf hist k + (if (bucket tf t =? k)%Z then 1 else 0))%Z.
Proof.
  unfold ticks_in_bucket. rewrite filter_app, length_app. simpl.
  destruct (bucket tf t =? k)%Z; simpl; lia.
Qed.

Lemma ticks_in_bucket_none (hist : list Tick) (k : Z) :
  (forall t, In t hist -> bucket tf t <> k) -> ticks_in_bucket tf hist k = 0%Z.
Proof.
  unfold ticks_in_bucket. induction hist as [|t hist IH]; intros H; [reflexivity|].
  simpl. destruct (Z.eqb_spec (bucket tf t) k) as [E|E].
  - exfalso. apply (H t); [left; reflexivity | assumption].
  - apply IH. intros u Hu. apply H. right. assumption.
Qed.

Lemma tick_step_order (hist : list Tick) (self : CandleBuilder) (out : list Candle) (t : Tick) :
  order_inv tf hist self out ->
  (forall c, _current self = Some c -> (open_time c <= bucket tf t)%Z) ->
  order_inv tf (hist ++ [t]) (fst (tick_step tf self t))
            (match snd (tick_step tf self t) with None => out | Some c => out ++ [c] end) /\
  (exists c', _current (fst (tick_step tf self t)) = Some c' /\ open_time c' = bucket tf t).
Proof.
  unfold order_inv, tick_step. intros Hinv Hle.
  destruct (_current self) as [c|] eqn:Ec.
  - destruct Hinv as (Hvol & (w & Hw & Hwb) & Hmax & Hout & Hnd & Hin).
    specialize (Hle c eq_refl).
    destruct (Z.ltb_spec (open_time c) (bucket tf t)) as [Hlt|Hge]; simpl.
    + (* the tick opens a later bucket: [c] is closed *)
      split; [|eexists; split; reflexivity].
      split; [|split; [|split; [|split; [|split]]]].
      * rewrite ticks_in_bucket_snoc, Z.eqb_refl, ticks_in_bucket_none; [reflexivity|].
        intros u Hu. specialize (Hmax u Hu). lia.
      * exists t. split; [apply in_or_app; right; left; reflexivity | reflexivity].
      * intros u Hu. apply in_app_or in Hu. destruct Hu as [Hu|[<-|[]]]; [|lia].
        specialize (Hmax u Hu). lia.
      * apply Forall_app. split.
        -- rewrite Forall_forall in *. intros d Hd.
           rewrite ticks_in_bucket_snoc, (Hout d Hd).
           assert (open_time d < open_time c)%Z as Hdc
             by (apply Hin, in_map, Hd).
           destruct (Z.eqb_spec (bucket tf t) (open_time d)); lia.
        -- constructor; [|constructor].
           rewrite ticks_in_bucket_snoc, Hvol.
           destruct (Z.eqb_spec (bucket tf t) (open_time c)); lia.
      * rewrite map_app. simpl.
        apply NoDup_app; [assumption | apply NoDup_cons; [intros [] | constructor] |].
        intros k Hk [<-|[]]. apply Hin in Hk. lia.
      * intros k. rewrite map_app, in_app_iff. simpl. split.
        -- intros [Hk|[<-|[]]].
           ++ apply Hin in Hk. destruct Hk as (Hk & u & Hu & Hub).
              split; [lia|]. exists u. split; [apply in_or_app; left|]; assumption.
           ++ split; [assumption|]. exists w. split; [apply in_or_app; left|]; assumption.
        -- intros (Hk & u & Hu & Hub). apply in_app_or in Hu.
           destruct Hu as [Hu|[<-|[]]]; [|lia].
           pose proof (Hmax u Hu) as Hbound.
           destruct (Z.eq_dec k (open_time c)) as [->|Hne]; [right; left; reflexivity|].
           left. apply Hin. split; [lia|]. exists u. split; assumption.
    + (* same bucket: the open candle is updated in place *)
      assert (bucket tf t = open_time c) as Eb by lia.
      split; [|eexists; split; [reflexivity | simpl; lia]].
      split; [|split; [|split; [|split; [|split]]]].
      * rewrite ticks_in_bucket_snoc, Eb, Z.eqb_refl, Hvol. reflexivity.
      * exists t. split; [apply in_or_app; right; left; reflexivity | assumption].
      * intros u Hu. apply in_app_or in Hu. destruct Hu as [Hu|[<-|[]]]; [|lia].
        apply Hmax, Hu.
      * rewrite Forall_forall in *. intros d Hd.
        rewrite ticks_in_bucket_snoc, (Hout d Hd).
        assert (open_time d < open_time c)%Z as Hdc by (apply Hin, in_map, Hd).
        destruct (Z.eqb_spec (bucket tf t) (open_time d)); lia.
      * assumption.
      * intros k. rewrite Hin. split.
        -- intros (Hk & u & Hu & Hub). split; [assumption|].
           exists u. split; [apply in_or_app; left|]; assumption.
        -- intros (Hk & u & Hu & Hub). split; [assumption|].
           apply in_app_or in Hu. destruct Hu as [Hu|[<-|[]]]; [|lia].
           exists u. split; assumption.
  - destruct Hinv as [-> ->]. simpl.
    split; [|eexists; split; reflexivity].
    split; [|split; [|split; [|split; [|split]]]].
    + unfold ticks_in_bucket. simpl. rewrite Z.eqb_refl. reflexivity.
    + exists t. split; [left|]; reflexivity.
    + intros u [<-|[]]. lia.
    + constructor.
    + constructor.
    + intros k. split; [intros []|]. intros (Hk & u & [<-|[]] & Hub). lia.
Qed.

Lemma feed_from_order (rest : list Tick) :
  forall hist self out,
    cb_symbol self = sym -> cb_timeframe_sec self = tf ->
    (forall t, In t rest -> tick_symbol t = sym) ->
    (forall t, In t rest -> in_datetime_range (bucket tf t)) ->
    order_inv tf hist self out ->
    (forall c u, _current self = Some c -> In u rest -> (open_time c <= bucket tf u)%Z) ->
    in_order tf rest ->
    exists self' out',
      feed_from self out rest = Py.Ok (self', out') /\
      order_inv tf (hist ++ rest) self' out'.
Proof.
  induction rest as [|t rest IH]; intros hist self out Hs Ht Hsym Hrange Hinv Hle Hord.
  - exists self, out. rewrite app_nil_r. split; [reflexivity | assumption].
  - simpl. rewrite (update_with_tick_own self t Hs Ht (Hsym t (or_introl eq_refl))
                      (Hrange t (or_introl eq_refl))). simpl.
    destruct Hord as [Hhead Hord].
    destruct (@tick_step_order hist self out t Hinv) as (Hnext & c' & Ec' & Ot').
    { intros c Ec. apply (Hle c t Ec). left. reflexivity. }
    destruct (tick_step_config self t) as [Cs Ct].
    replace (hist ++ t :: rest) with ((hist ++ [t]) ++ rest)
      by (rewrite <- app_assoc; reflexivity).
    destruct (snd (tick_step tf self t)) as [c|];
      (apply IH;
       [ congruence | congruence
       | intros u Hu; apply Hsym; right; assumption
       | intros u Hu; apply Hrange; right; assumption
       | assumption
       | intros d u Ed Hu; rewrite Ec' in Ed; inversion Ed; subst d;
         rewrite Ot'; apply Hhead, Hu
       | assumption ]).
Qed.

End CandleBuilderProofs.

Section CandleBuilderClaims.
Import market_models candle_builder.

(** C2, as stated, fails on a late tick.  The tick of epoch 30 is folded
    into the candle opened at 60, which is emitted with volume 2 although one
    tick was observed in that bucket, and no candle is ever emitted for the
    completed bucket 0. *)
Lemma candle_builder_late_tick_counterexample :
  exists self c,
    feed (new "R_75" 60) late_ticks = Py.Ok (self, [c]) /\
    open_time c = 60%Z /\ volume c = 2%Z /\
    ticks_in_bucket 60 late_ticks (open_time c) = 1%Z /\
    completed 60 late_ticks 0 /\
    ~ In 0%Z (map open_time [c]).
Proof.
  eexists. eexists. split; [vm_compute; reflexivity|]. simpl.
  repeat split.
  - exists (mkTick "R_75" 30 5), (mkTick "R_75" 60 10). unfold late_ticks. simpl.
    repeat split; auto; vm_compute; reflexivity.
  - intros [H|[]]. discriminate H.
Qed.

(** C2, amended.  For every sequence of ticks of the builder's instrument
    whose bucket times lie within the range of [datetime] (years 1 to 9999)
    the feed succeeds and every emitted candle satisfies low <= open <= high
    and low <= close <= high.  When moreover no tick belongs to an earlier
    bucket than a tick before it, every emitted candle has volume equal to
    the number of ticks of its bucket, no two emitted candles share a
    bucket, and the buckets of the emitted candles are exactly the
    completed ones.  A tick of an earlier bucket than the open candle is
    folded into that candle: nothing is emitted, and the open candle keeps
    its bucket and its open, takes the tick's price as close, widens high
    and low to it and counts it in its volume.  A tick whose bucket time is
    outside the range of [datetime] makes [update_with_tick] raise. *)
Theorem candle_builder_in_order_spec (sym : string) (tf : Z) (ticks : list Tick)
  (Htf : tf <> 0%Z)
  (Hsym : forall t, In t ticks -> tick_symbol t = sym)
  (Hrange : forall t, In t ticks -> in_datetime_range (bucket tf t)) :
  (exists self out,
     feed (new sym tf) ticks = Py.Ok (self, out) /\
     Forall ohlc_ok out /\
     (in_order tf ticks ->
      Forall (fun c => volume c = ticks_in_bucket tf ticks (open_time c)) out /\
      NoDup (map open_time out) /\
      (forall k, completed tf ticks k <-> In k (map open_time out)))) /\
  (forall self c t,
     cb_symbol self = sym -> cb_timeframe_sec self = tf -> tick_symbol t = sym ->
     in_datetime_range (bucket tf t) ->
     _current self = Some c -> (bucket tf t < open_time c)%Z ->
     update_with_tick self t = Py.Ok (set_current self (folded c t), None) /\
     open_time (folded c t) = open_time c /\ open (folded c t) = open c /\
     close (folded c t) = price t /\ volume (folded c t) = (volume c + 1)%Z /\
     low (folded c t) <= price t /\ price t <= high (folded c t) /\
     low (folded c t) <= low c /\ high c <= high (folded c t)) /\
  (forall self t,
     cb_symbol self = sym -> cb_timeframe_sec self = tf -> tick_symbol t = sym ->
     ~ in_datetime_range (bucket tf t) ->
     exists e, update_with_tick self t = Py.Raise e).
Proof.
  split; [|split].
  2:{ intros self c t Hs Ht Hts Hr Hc Hlate.
      split; [apply (@update_with_tick_late sym tf Htf self c t); try assumption; lia|].
      cbn [folded open_time open close volume low high].
      pose proof (py_max_l (high c) (price t)). pose proof (py_max_r (high c) (price t)).
      pose proof (py_min_l (low c) (price t)). pose proof (py_min_r (low c) (price t)).
      repeat split; assumption. }
  2:{ intros self t Hs Ht Hts Hr.
      apply (@update_with_tick_out_of_range sym tf Htf self t); assumption. }
  destruct (@feed_from_ohlc sym tf Htf ticks (new sym tf) [] Hsym Hrange)
    as (self & out & Hfeed & Hohlc).
  { unfold ohlc_inv. simpl.
    split; [reflexivity | split; [reflexivity | split; [constructor|]]].
    intros c Hc. discriminate Hc. }
  exists self, out. split; [exact Hfeed|]. split; [apply Hohlc|].
  intros Hord.
  destruct (@feed_from_order sym tf Htf ticks [] (new sym tf) [] eq_refl eq_refl Hsym Hrange)
    as (self' & out' & Hfeed' & Hinv); try assumption.
  { split; reflexivity. }
  { intros c u Hc. discriminate Hc. }
  unfold feed in Hfeed. rewrite Hfeed in Hfeed'. inversion Hfeed'; subst self' out'.
  simpl in Hinv. unfold order_inv in Hinv.
  destruct (_current self) as [c|].
  - destruct Hinv as (_ & (w & Hw & Hwb) & Hmax & Hout & Hnd & Hin).
    split; [assumption|]. split; [assumption|].
    intros k. rewrite Hin. split.
    + intros (t1 & t2 & H1 & H2 & Hb & Hlt). split.
      * specialize (Hmax t2 H2). lia.
      * exists t1. split; assumption.
    + intros (Hk & u & Hu & Hub). exists u, w. repeat split; try assumption. lia.
  - destruct Hinv as [-> ->]. split; [constructor|]. split; [constructor|].
    intros k. split; [|intros []].
    intros (t1 & _ & [] & _).
Qed.

(** The amended statement on three ticks in order, two in the bucket of 60
    and one that closes it: the emitted candle is the one of bucket 60 with
    volume 2, open 10, high 12, low 10 and close 12. *)
Lemma candle_builder_in_order_spec_witness :
  exists self c,
    feed (new "R_75" 60)
         [ mkTick "R_75" 61 10; mkTick "R_75" 75 12; mkTick "R_75" 120 7 ]
    = Py.Ok (self, [c]) /\
    ohlc_ok c /\ open_time c = 60%Z /\
    volume c = ticks_in_bucket 60
                 [ mkTick "R_75" 61 10; mkTick "R_75" 75 12; mkTick "R_75" 120 7 ] 60 /\
    volume c = 2%Z /\
    completed 60 [ mkTick "R_75" 61 10; mkTick "R_75" 75 12; mkTick "R_75" 120 7 ] 60.
Proof.
  destruct (@candle_builder_in_order_spec "R_75" 60
              [ mkTick "R_75" 61 10; mkTick "R_75" 75 12; mkTick "R_75" 120 7 ])
    as ((self & out & Hfeed & Hohlc & Hord) & _).
  - discriminate.
  - intros t [<-|[<-|[<-|[]]]]; reflexivity.
  - intros t [<-|[<-|[<-|[]]]]; vm_compute; split; discriminate.
  - destruct Hord as (Hvol & _ & Hcompleted).
    { simpl. repeat split; intros u Hu;
        repeat (destruct Hu as [<-|Hu]; [vm_compute; discriminate|]); destruct Hu. }
    vm_compute in Hfeed. injection Hfeed as <- <-.
    eexists. eexists. split; [reflexivity|].
    inversion Hohlc as [|c0 l0 Hc0 _]; subst.
    inversion Hvol as [|c1 l1 Hv1 _]; subst.
    split; [exact Hc0|]. split; [reflexivity|]. split; [exact Hv1|].
    split; [reflexivity|]. apply Hcompleted. left. reflexivity.
Defined.

End CandleBuilderClaims.

(** ** Risk firewall *)

Section RiskFirewallProofs.
Import risk_firewall.

Lemma reset_daily_sets_start (clk : Clock) (self : RiskFirewall) (s : RiskSnapshot) :
  exists start, _daily_start_equity (reset_daily_if_needed clk self s) = Some start.
Proof.
  unfold reset_daily_if_needed.
  destruct (negb (today clk =? _day self)%Z); simpl.
  - eexists; reflexivity.
  - destruct (_daily_start_equity self) eqn:E; simpl; eauto.
Qed.

Lemma reset_daily_keeps_limits (clk : Clock) (self : RiskFirewall) (s : RiskSnapshot) :
  let self' := reset_daily_if_needed clk self s in
  max_drawdown_total self' = max_drawdown_total self /\
  max_loss_daily self' = max_loss_daily self /\
  max_trades_daily self' = max_trades_daily self /\
  max_consecutive_losses self' = max_consecutive_losses self /\
  cooldown_minutes self' = cooldown_minutes self.
Proof.
  unfold reset_daily_if_needed.
  destruct (negb (today clk =? _day self)%Z); simpl.
  - repeat split.
  - destruct (_daily_start_equity self); simpl; repeat split.
Qed.

Lemma py_int_inject_Z (q : Q) (n : Z) : q == inject_Z n -> Py.int q = n.
Proof.
  unfold Py.int, Qeq. destruct q as [a b]. simpl. intros H.
  rewrite Z.mul_1_r in H. rewrite H. apply Z.quot_mul. discriminate.
Qed.

(** Truncation brackets a positive value from below within one unit. *)
Lemma py_int_pos_bracket (q : Q) :
  (0 < Py.int q)%Z -> inject_Z (Py.int q) <= q /\ q < inject_Z (Py.int q) + 1.
Proof.
  unfold Py.int. destruct q as [a b]. simpl. intros H.
  assert (0 <= a)%Z as Ha.
  { destruct (Z.le_gt_cases 0 a) as [G|L]; [assumption|exfalso].
    assert (Z.quot a (Z.pos b) <= 0)%Z; [|lia].
    apply Z.quot_le_upper_bound; lia. }
  rewrite Z.quot_div_nonneg in * by lia.
  pose proof (Z.div_mod a (Z.pos b)) as Hdm.
  pose proof (Z.mod_pos_bound a (Z.pos b)) as Hmb.
  unfold Qle, Qlt, Qplus, inject_Z. simpl. split; nia.
Qed.

Lemma consecutive_loss_decision_rejects (clk : Clock) (self : RiskFirewall)
  (s : RiskSnapshot) (d : RiskDecision) :
  consecutive_loss_decision clk self s = Py.Ok d -> allowed d = false.
Proof.
  unfold consecutive_loss_decision.
  destruct (last_trade_closed_at_iso s) as [iso|];
    [|intros H; injection H as <-; reflexivity].
  destruct (Py.truthy (Some iso)); [|intros H; injection H as <-; reflexivity].
  destruct (elapsed clk iso) as [e|x]; cbn [Py.bind]; [|discriminate].
  destruct (0 <? remaining self e)%Z; intros H; injection H as <-; reflexivity.
Qed.

Lemma consecutive_loss_decision_returns (clk : Clock) (self : RiskFirewall)
  (s : RiskSnapshot) :
  comparable clk s -> exists d, consecutive_loss_decision clk self s = Py.Ok d.
Proof.
  unfold comparable, consecutive_loss_decision, elapsed. intros Hc.
  destruct (last_trade_closed_at_iso s) as [iso|]; [|eexists; reflexivity].
  destruct (Py.truthy (Some iso)); [|eexists; reflexivity].
  destruct (fromisoformat clk iso) as [last|] eqn:Ep.
  - rewrite (Hc iso last eq_refl Ep), Bool.eqb_reflx. cbn [Py.bind].
    destruct (0 <? _)%Z; eexists; reflexivity.
  - cbn [Py.bind]. destruct (0 <? _)%Z; eexists; reflexivity.
Qed.

(** C3, as stated, fails on a stored close time without a UTC offset.  The
    snapshot passes the first four limits with five consecutive losses
    against a maximum of five, its close time parses to an instant 600
    seconds before now, the cooldown is 30 minutes; the datetimes of
    [utc_now()] are aware, the parsed one is naive, and [check] raises
    [TypeError] instead of returning the cooldown rejection. *)
Lemma risk_firewall_naive_time_counterexample :
  passes_first_four cooldown_firewall 1000 naive_snapshot /\
  (max_consecutive_losses cooldown_firewall <= consecutive_losses naive_snapshot)%Z /\
  cooldown_minutes cooldown_firewall = 30%Z /\
  (exists iso last,
     last_trade_closed_at_iso naive_snapshot = Some iso /\
     fromisoformat naive_clock iso = Some last /\
     now naive_clock - at_sec last == 600 /\
     aware last = false /\ utc_aware naive_clock = true) /\
  check naive_clock cooldown_firewall naive_snapshot = Py.Raise Py.TypeError.
Proof.
  split; [unfold passes_first_four; vm_compute; repeat split|].
  split; [vm_compute; discriminate|]. split; [reflexivity|].
  split; [|vm_compute; reflexivity].
  eexists. eexists. split; [reflexivity|]. split; [reflexivity|].
  repeat split; reflexivity.
Qed.

(** C3, amended.  On a snapshot whose stored close time can be subtracted
    from [utc_now()] (it is missing, empty, unparsable or as aware as the
    clock), [check] returns, tests its limits in the order peak equity,
    drawdown, daily loss, trade count, consecutive losses, and the first one
    that fails decides.  On a snapshot that passes the first four with
    consecutive losses at or above the maximum and a parsable last-close
    time, the decision is the cooldown rejection carrying
    int(cooldownMinutes*60 - elapsed) when that is positive (within one second
    below the exact difference), the generic consecutive-loss rejection when
    it is not, and exactly 1200 for a 30 minute cooldown and a close 600
    seconds ago.  On such a snapshot whose close time parses to a datetime
    that is not as aware as the clock, [check] raises [TypeError]. *)
Theorem risk_firewall_check_order (clk : Clock) (self : RiskFirewall) (s : RiskSnapshot) :
  exists start,
    _daily_start_equity (reset_daily_if_needed clk self s) = Some start /\
    (comparable clk s ->
     exists d,
       check clk self s = Py.Ok (reset_daily_if_needed clk self s, d) /\
       (peak_equity s <= 0 -> d = reject invalid_peak_equity) /\
       (0 < peak_equity s -> max_drawdown_total self <= drawdown s ->
        d = reject (max_drawdown_total_reached (drawdown s))) /\
       (0 < peak_equity s -> drawdown s < max_drawdown_total self ->
        max_loss_daily self <= daily_loss start s ->
        d = reject (max_loss_daily_reached (daily_loss start s))) /\
       (0 < peak_equity s -> drawdown s < max_drawdown_total self ->
        daily_loss start s < max_loss_daily self ->
        (max_trades_daily self <= trades_today s)%Z ->
        d = reject max_trades_daily_reached) /\
       (passes_first_four self start s ->
        (consecutive_losses s < max_consecutive_losses self)%Z ->
        d = mkDecision true ok 0) /\
       (passes_first_four self start s ->
        (max_consecutive_losses self <= consecutive_losses s)%Z ->
        allowed d = false /\
        forall iso last,
          last_trade_closed_at_iso s = Some iso -> iso <> ""%string ->
          fromisoformat clk iso = Some last ->
          let left :=
            Py.int (inject_Z (cooldown_minutes self * 60) - (now clk - at_sec last)) in
          ((0 < left)%Z ->
           d = mkDecision false cooldown_after_consecutive_losses left /\
           inject_Z left
           <= inject_Z (cooldown_minutes self * 60) - (now clk - at_sec last) /\
           inject_Z (cooldown_minutes self * 60) - (now clk - at_sec last)
           < inject_Z left + 1) /\
          ((left <= 0)%Z -> d = reject max_consecutive_losses_reached) /\
          (cooldown_minutes self = 30%Z -> now clk - at_sec last == 600 ->
           d = mkDecision false cooldown_after_consecutive_losses 1200))) /\
    (passes_first_four self start s ->
     (max_consecutive_losses self <= consecutive_losses s)%Z ->
     forall iso last,
       last_trade_closed_at_iso s = Some iso -> iso <> ""%string ->
       fromisoformat clk iso = Some last ->
       aware last <> utc_aware clk ->
       check clk self s = Py.Raise Py.TypeError).
Proof.
  destruct (reset_daily_sets_start clk self s) as [start Hstart].
  destruct (reset_daily_keeps_limits clk self s) as (Ldd & Lloss & Ltr & Lcl & Lcd).
  exists start. split; [exact Hstart|].
  unfold check. rewrite Hstart, Ldd, Lloss, Ltr, Lcl.
  unfold Py.geb.
  split.
  2:{ intros (P1 & P2 & P3 & P4) Hmax iso last Hiso Hne Hparse Haware.
      destruct (Py.leb (peak_equity s) 0) eqn:Epeak; [apply py_leb_true in Epeak; lra|].
      destruct (Py.leb (max_drawdown_total self) (drawdown s)) eqn:Edd;
        [apply py_leb_true in Edd; lra|].
      destruct (Py.leb (max_loss_daily self) (daily_loss start s)) eqn:Eloss;
        [apply py_leb_true in Eloss; lra|].
      destruct (Z.leb_spec (max_trades_daily self) (trades_today s)); [lia|].
      destruct (Z.leb_spec (max_consecutive_losses self) (consecutive_losses s)); [|lia].
      unfold consecutive_loss_decision, elapsed. rewrite Hiso, Hparse.
      assert (Py.truthy (Some iso) = true) as ->.
      { simpl. destruct (String.eqb_spec iso ""); [contradiction | reflexivity]. }
      destruct (Bool.eqb (aware last) (utc_aware clk)) eqn:Eaw;
        [apply Bool.eqb_prop in Eaw; contradiction | reflexivity]. }
  intros Hcomparable.
  destruct (Py.leb (peak_equity s) 0) eqn:Epeak.
  { apply py_leb_true in Epeak. eexists.
    split; [reflexivity|].
    unfold passes_first_four.
    repeat split; intros; try reflexivity; try lra;
      try (exfalso; intuition lra). }
  apply py_leb_false in Epeak.
  destruct (Py.leb (max_drawdown_total self) (drawdown s)) eqn:Edd.
  { apply py_leb_true in Edd. eexists.
    split; [reflexivity|].
    unfold passes_first_four.
    repeat split; intros; try reflexivity; try lra;
      try (exfalso; intuition lra). }
  apply py_leb_false in Edd.
  destruct (Py.leb (max_loss_daily self) (daily_loss start s)) eqn:Eloss.
  { apply py_leb_true in Eloss. eexists.
    split; [reflexivity|].
    unfold passes_first_four.
    repeat split; intros; try reflexivity; try lra;
      try (exfalso; intuition lra). }
  apply py_leb_false in Eloss.
  destruct (Z.leb_spec (max_trades_daily self) (trades_today s)) as [Etr|Etr].
  { eexists.
    split; [reflexivity|].
    unfold passes_first_four.
    repeat split; intros; try reflexivity; try lra;
      try (exfalso; intuition lia). }
  destruct (Z.leb_spec (max_consecutive_losses self) (consecutive_losses s)) as [Ecl|Ecl].
  2:{ eexists.
      split; [reflexivity|].
      repeat split; intros; try reflexivity; try lra; try lia. }
  destruct (consecutive_loss_decision_returns (reset_daily_if_needed clk self s) Hcomparable)
    as [d Hd].
  rewrite Hd. cbn [Py.bind].
  exists d. split; [reflexivity|].
  split; [intros; lra|]. split; [intros; lra|]. split; [intros; lra|].
  split; [intros; lia|]. split; [intros; lia|].
  intros _ _. split; [apply (consecutive_loss_decision_rejects _ _ _ Hd)|].
  intros iso last Hiso Hne Hparse.
  set (left := Py.int (inject_Z (cooldown_minutes self * 60) - (now clk - at_sec last))).
  assert (elapsed clk iso = Py.Ok (now clk - at_sec last)) as Hel.
  { unfold elapsed. rewrite Hparse, (Hcomparable iso last Hiso Hparse), Bool.eqb_reflx.
    reflexivity. }
  assert (remaining (reset_daily_if_needed clk self s) (now clk - at_sec last)
          = Z.max 0 left) as Hrem.
  { unfold remaining. rewrite Lcd. reflexivity. }
  assert (Py.truthy (Some iso) = true) as Htruthy.
  { simpl. destruct (String.eqb_spec iso ""); [contradiction | reflexivity]. }
  unfold consecutive_loss_decision in Hd.
  rewrite Hiso, Htruthy, Hel in Hd. cbn [Py.bind] in Hd. rewrite Hrem in Hd.
  split; [|split].
  - intros Hpos. destruct (Z.ltb_spec 0 (Z.max 0 left)); [|lia].
    rewrite Z.max_r in Hd by lia. injection Hd as <-. split; [reflexivity|].
    apply py_int_pos_bracket. exact Hpos.
  - intros Hle. destruct (Z.ltb_spec 0 (Z.max 0 left)); [lia|].
    injection Hd as <-. reflexivity.
  - intros Hcd Helapsed.
    assert (left = 1200%Z) as Hleft.
    { unfold left. apply py_int_inject_Z. rewrite Hcd, Helapsed. reflexivity. }
    rewrite Hleft in Hd. cbn in Hd. injection Hd as <-. reflexivity.
Qed.

(** The scenario of the specification, and the same snapshot with a close
    time that carries no offset. *)
Lemma risk_firewall_check_order_witness :
  check cooldown_clock cooldown_firewall cooldown_snapshot =
  Py.Ok (reset_daily_if_needed cooldown_clock cooldown_firewall cooldown_snapshot,
         mkDecision false cooldown_after_consecutive_losses 1200) /\
  check naive_clock cooldown_firewall naive_snapshot = Py.Raise Py.TypeError.
Proof.
  split.
  - destruct (risk_firewall_check_order cooldown_clock cooldown_firewall cooldown_snapshot)
      as (start & Hstart & Hok & _).
    destruct Hok as (d & Hcheck & _ & _ & _ & _ & _ & Hcool).
    { intros iso last _ H. injection H as <-. reflexivity. }
    rewrite Hcheck. f_equal. f_equal.
    vm_compute in Hstart. injection Hstart as <-.
    destruct Hcool as [_ Hcool].
    + unfold passes_first_four. vm_compute. repeat split.
    + vm_compute. discriminate.
    + destruct (Hcool "2026-01-01T00:00:00+00:00"%string (mkIso 0 true)) as (_ & _ & H).
      * reflexivity.
      * discriminate.
      * reflexivity.
      * apply H; reflexivity.
  - destruct (risk_firewall_check_order naive_clock cooldown_firewall naive_snapshot)
      as (start & Hstart & _ & Hraise).
    vm_compute in Hstart. injection Hstart as <-.
    apply (Hraise) with (iso := "2026-01-01T00:00:00"%string) (last := mkIso 0 false).
    + unfold passes_first_four. vm_compute. repeat split.
    + vm_compute. discriminate.
    + reflexivity.
    + discriminate.
    + reflexivity.
    + discriminate.
Defined.

(** C9.  [check] is monotone in the consecutive-loss count: a snapshot that
    is rejected stays rejected when only [consecutive_losses] grows. *)
Theorem risk_firewall_monotone (clk : Clock) (self self' : RiskFirewall)
  (s : RiskSnapshot) (d : RiskDecision) (n : Z)
  (Hcheck : check clk self s = Py.Ok (self', d))
  (Hrejected : allowed d = false)
  (Hmore : (consecutive_losses s < n)%Z) :
  exists d', check clk self (with_consecutive_losses s n) = Py.Ok (self', d') /\
             allowed d' = false.
Proof.
  unfold check in *.
  change (reset_daily_if_needed clk self (with_consecutive_losses s n))
    with (reset_daily_if_needed clk self s).
  change (peak_equity (with_consecutive_losses s n)) with (peak_equity s).
  change (drawdown (with_consecutive_losses s n)) with (drawdown s).
  destruct (Py.leb (peak_equity s) 0).
  { injection Hcheck as <- <-. eexists. split; reflexivity. }
  destruct (Py.geb (drawdown s) _).
  { injection Hcheck as <- <-. eexists. split; reflexivity. }
  destruct (_daily_start_equity (reset_daily_if_needed clk self s)) as [start|];
    [|discriminate Hcheck].
  change (daily_loss start (with_consecutive_losses s n)) with (daily_loss start s).
  destruct (Py.geb (daily_loss start s) _).
  { injection Hcheck as <- <-. eexists. split; reflexivity. }
  change (trades_today (with_consecutive_losses s n)) with (trades_today s).
  destruct (_ <=? trades_today s)%Z.
  { injection Hcheck as <- <-. eexists. split; reflexivity. }
  change (consecutive_losses (with_consecutive_losses s n)) with n.
  destruct (Z.leb_spec (max_consecutive_losses (reset_daily_if_needed clk self s))
                       (consecutive_losses s)) as [Hle|Hlt].
  - destruct (Z.leb_spec (max_consecutive_losses (reset_daily_if_needed clk self s)) n);
      [|lia].
    change (consecutive_loss_decision clk (reset_daily_if_needed clk self s)
              (with_consecutive_losses s n))
      with (consecutive_loss_decision clk (reset_daily_if_needed clk self s) s).
    destruct (consecutive_loss_decision clk (reset_daily_if_needed clk self s) s)
      as [d0|x]; cbn [Py.bind] in *; [|discriminate Hcheck].
    injection Hcheck as <- <-. eexists. split; [reflexivity | exact Hrejected].
  - injection Hcheck as <- <-. simpl in Hrejected. discriminate Hrejected.
Qed.

(** Monotonicity on the drawdown scenario of the specification: peak 1000,
    equity 880, limit 10%, consecutive losses raised from 0 to 7. *)
Lemma risk_firewall_monotone_witness :
  exists d',
    check cooldown_clock cooldown_firewall
          (with_consecutive_losses (mkSnapshot 880 880 1000 0 3 0 None) 7)
    = Py.Ok (reset_daily_if_needed cooldown_clock cooldown_firewall
               (mkSnapshot 880 880 1000 0 3 0 None), d') /\
    allowed d' = false.
Proof.
  apply (@risk_firewall_monotone cooldown_clock cooldown_firewall _
           (mkSnapshot 880 880 1000 0 3 0 None)
           (reject (max_drawdown_total_reached (drawdown (mkSnapshot 880 880 1000 0 3 0 None))))).
  - reflexivity.
  - reflexivity.
  - simpl. lia.
Defined.

End RiskFirewallProofs.

(** ** Rounding *)

Lemma round_half_even_near (q : Q) :
  q - (1 # 2) <= inject_Z (Py.round_half_even q) /\
  inject_Z (Py.round_half_even q) <= q + (1 # 2).
Proof.
  unfold Py.round_half_even.
  pose proof (Qfloor_le q) as Hlo. pose proof (Qlt_floor q) as Hhi.
  rewrite inject_Z_plus in Hhi. change (inject_Z 1) with 1 in Hhi.
  destruct (Qlt_le_dec (q - inject_Z (Qfloor q)) (1 # 2)) as [H1|H1].
  - split; lra.
  - destruct (Qlt_le_dec (1 # 2) (q - inject_Z (Qfloor q))) as [H2|H2].
    + rewrite inject_Z_plus. change (inject_Z 1) with 1. split; lra.
    + destruct (Z.even (Qfloor q)).
      * split; lra.
      * rewrite inject_Z_plus. change (inject_Z 1) with 1. split; lra.
Qed.

Lemma round_half_even_ge (q : Q) (n : Z) :
  inject_Z n <= q -> (n <= Py.round_half_even q)%Z.
Proof.
  intros H. apply Qfloor_resp_le in H. rewrite Qfloor_Z in H.
  unfold Py.round_half_even.
  destruct (Qlt_le_dec _ _); [assumption|].
  destruct (Qlt_le_dec _ _); [lia|].
  destruct (Z.even _); lia.
Qed.

Lemma round_half_even_le (q : Q) (m : Z) :
  q <= inject_Z m -> (Py.round_half_even q <= m)%Z.
Proof.
  intros H. pose proof (Qfloor_resp_le _ _ H) as Hf. rewrite Qfloor_Z in Hf.
  pose proof (Qfloor_le q) as Hlo.
  assert (q - inject_Z (Qfloor q) > 0 -> (Qfloor q + 1 <= m)%Z) as Hstep.
  { intros Hr. assert (inject_Z (Qfloor q) < inject_Z m) as Hlt by lra.
    rewrite <- Zlt_Qlt in Hlt. lia. }
  unfold Py.round_half_even.
  destruct (Qlt_le_dec _ _) as [H1|H1]; [assumption|].
  destruct (Qlt_le_dec _ _) as [H2|H2]; [apply Hstep; lra|].
  destruct (Z.even _); [assumption | apply Hstep; lra].
Qed.

Lemma round2_near (q : Q) :
  q - (1 # 200) <= Py.round2 q /\ Py.round2 q <= q + (1 # 200).
Proof.
  unfold Py.round2. destruct (round_half_even_near (q * 100)) as [H1 H2].
  unfold Qdiv. change (/ 100) with (1 # 100). split; lra.
Qed.

(** Rounding to cents stays inside an interval whose ends are whole cents. *)
Lemma round2_between_cents (q : Q) (a b : Z) :
  inject_Z a / 100 <= q -> q <= inject_Z b / 100 ->
  inject_Z a / 100 <= Py.round2 q /\ Py.round2 q <= inject_Z b / 100.
Proof.
  unfold Py.round2, Qdiv. change (/ 100) with (1 # 100). intros Ha Hb.
  assert (inject_Z a <= q * 100) as Ha' by lra.
  assert (q * 100 <= inject_Z b) as Hb' by lra.
  apply round_half_even_ge in Ha'. apply round_half_even_le in Hb'.
  rewrite Zle_Qle in Ha', Hb'.
  split; lra.
Qed.

(** ** Position sizer *)

Section PositionSizerProofs.
Import position_sizer.

Lemma risk_pct_capped (self : PositionSizer) (score : Q) :
  risk_pct self score <= risk_cap self.
Proof.
  unfold risk_pct. destruct (Py.geb score (score_high self)); apply py_min_r.
Qed.

Lemma clamped_stake_bounds (self : PositionSizer) (balance score : Q) :
  min_stake self <= clamped_stake self balance score /\
  (min_stake self <= max_stake self ->
   clamped_stake self balance score <= max_stake self).
Proof.
  unfold clamped_stake. split; [apply py_max_l|].
  intros H. apply py_max_lub; [assumption | apply py_min_l].
Qed.

(** C5, as stated, fails: with min_stake = 1.004, balance 10 and score 0.6
    the sizer allows the trade, clamps the raw stake 0.055 up to 1.004 and
    returns round(1.004, 2) = 1.0, which is below the minimum stake. *)
Lemma position_sizer_rounding_counterexample :
  0 < 10 /\
  score_min fractional_sizer <= 6 # 10 /\
  allowed (compute fractional_sizer 10 (6 # 10)) = true /\
  stake (compute fractional_sizer 10 (6 # 10)) == 1 /\
  stake (compute fractional_sizer 10 (6 # 10)) < min_stake fractional_sizer.
Proof.
  repeat split; try (vm_compute; reflexivity); vm_compute; discriminate.
Qed.

(** C5, amended.  Whenever [compute] allows, balance > 0 and score is at or
    above the minimum score, the risk percentage is at most the configured
    cap, the stake before the final rounding is at least minStake and, when
    minStake <= maxStake, at most maxStake; the returned stake is that value
    rounded to two decimals, so it is within half a cent of it, and it lies
    in [minStake, maxStake] whenever both bounds are whole cents. *)
Theorem position_sizer_stake_bounds (self : PositionSizer) (balance score : Q)
  (Hallowed : allowed (compute self balance score) = true) :
  0 < balance /\ score_min self <= score /\
  risk_percent (compute self balance score) <= risk_cap self /\
  stake (compute self balance score) = Py.round2 (clamped_stake self balance score) /\
  min_stake self <= clamped_stake self balance score /\
  clamped_stake self balance score - (1 # 200) <= stake (compute self balance score) /\
  stake (compute self balance score) <= clamped_stake self balance score + (1 # 200) /\
  (min_stake self <= max_stake self ->
   clamped_stake self balance score <= max_stake self /\
   forall a b : Z,
     min_stake self == inject_Z a / 100 -> max_stake self == inject_Z b / 100 ->
     min_stake self <= stake (compute self balance score) /\
     stake (compute self balance score) <= max_stake self).
Proof.
  unfold compute in *.
  destruct (Py.leb balance 0) eqn:Eb; [discriminate Hallowed|].
  destruct (Py.ltb score (score_min self)) eqn:Es; [discriminate Hallowed|].
  apply py_leb_false in Eb. apply py_ltb_false in Es. simpl.
  destruct (clamped_stake_bounds self balance score) as [Hlo Hhi].
  destruct (round2_near (clamped_stake self balance score)) as [Hn1 Hn2].
  repeat (split; [first [assumption | reflexivity | apply risk_pct_capped]|]).
  intros Hmm. split; [apply Hhi, Hmm|].
  intros a b Ha Hb. rewrite Ha, Hb.
  apply round2_between_cents.
  - rewrite <- Ha. assumption.
  - rewrite <- Hb. apply Hhi, Hmm.
Qed.

(** The default configuration (minimum 1.00, maximum 1000.00): a balance
    of 10000 at score 0.8 stakes 70.00. *)
Lemma position_sizer_stake_bounds_witness :
  min_stake (mkSizer 1 1000 (5 # 1000) (7 # 1000) (1 # 100) (75 # 100) (55 # 100))
  <= stake (compute (mkSizer 1 1000 (5 # 1000) (7 # 1000) (1 # 100) (75 # 100) (55 # 100))
                    10000 (8 # 10)) /\
  stake (compute (mkSizer 1 1000 (5 # 1000) (7 # 1000) (1 # 100) (75 # 100) (55 # 100))
                 10000 (8 # 10))
  <= max_stake (mkSizer 1 1000 (5 # 1000) (7 # 1000) (1 # 100) (75 # 100) (55 # 100)).
Proof.
  destruct (@position_sizer_stake_bounds
              (mkSizer 1 1000 (5 # 1000) (7 # 1000) (1 # 100) (75 # 100) (55 # 100))
              10000 (8 # 10) eq_refl) as (_ & _ & _ & _ & _ & _ & _ & H).
  destruct H as [_ H]; [vm_compute; discriminate|].
  apply (H 100%Z 100000%Z); reflexivity.
Defined.

End PositionSizerProofs.

(** ** Reconnection backoff *)

Section BackoffProofs.
Import deriv_ws_client.

(** No session makes [_connect_and_run] return: the reset [backoff = 1.0]
    that follows the call in [_run_forever] is never reached. *)
Lemma connect_and_run_raises (s : Session) :
  exists e, _connect_and_run s = Py.Raise e.
Proof.
  unfold _connect_and_run, wait_tasks.
  destruct (connect s); [eauto|].
  destruct (authorize s); [|eauto|eauto].
  destruct (resubscribe s); [eauto|].
  destruct (reader_end s); eauto.
Qed.

Lemma doubled_bounds (m : Q) (n : nat) :
  1 <= m -> 1 <= doubled m n /\ doubled m n <= m.
Proof.
  intros Hm. induction n as [|n [IH1 IH2]]; simpl.
  - split; lra.
  - split; [apply py_min_glb; lra | apply py_min_l].
Qed.

Lemma doubled_step (m : Q) (n : nat) :
  1 <= m -> doubled m n <= doubled m (S n) /\ doubled m (S n) <= 2 * doubled m n.
Proof.
  intros Hm. destruct (doubled_bounds n Hm) as [H1 H2]. simpl. split.
  - apply py_min_glb; lra.
  - pose proof (py_min_r m (doubled m n * 2)). lra.
Qed.

(** With the jitter fixed to zero the [n]-th delay is the [n]-th doubling,
    whatever the sessions did. *)
Lemma run_from_no_jitter (m : Q) (attempts : list Session) :
  1 <= m ->
  forall k,
    Forall2 Qeq
      (run_from m (doubled m k) (map (fun s => (s, 0)) attempts))
      (map (doubled m) (seq k (List.length attempts))).
Proof.
  intros Hm. induction attempts as [|s rest IH]; intros k; simpl; [constructor|].
  destruct (connect_and_run_raises s) as [e ->].
  destruct (doubled_bounds k Hm) as [H1 H2].
  constructor; [|apply (IH (S k))].
  unfold Py.min. destruct (Qlt_le_dec _ _); lra.
Qed.

(** With jitter every delay slept is at most the cap. *)
Lemma run_from_capped (m : Q) (attempts : list (Session * Q)) :
  forall b, Forall (fun d => d <= m) (run_from m b attempts).
Proof.
  induction attempts as [|[s rnd] rest IH]; intros b; simpl; constructor.
  - apply py_min_l.
  - apply IH.
Qed.

(** C4 on the code.  The delays start at 1, double and never exceed 60, but
    the backoff is not reset by a successful connect: the third attempt
    below connects and authorizes, and the delays slept after it are 4 and
    8, where a reset would give 1. *)
Theorem backoff_not_reset_after_connect :
  connected dropped_session = true /\
  Forall2 Qeq
    (_run_forever max_reconnect_backoff_sec
       [ (auth_failure, 0); (auth_failure, 0); (dropped_session, 0); (auth_failure, 0) ])
    [ 1; 2; 4; 8 ].
Proof.
  split; [reflexivity|].
  repeat constructor.
Qed.

(** The parts of C4 that hold: without jitter the [n]-th delay is
    min(60, 2^n) whatever the sessions did, so consecutive delays satisfy
    d <= d' <= 2 d and d <= 60; with jitter in [0, 1) every delay is at
    most 60. *)
Lemma backoff_sequence_bounds (attempts : list Session) (jittered : list (Session * Q)) :
  Forall2 Qeq
    (_run_forever max_reconnect_backoff_sec (map (fun s => (s, 0)) attempts))
    (map (doubled max_reconnect_backoff_sec) (seq 0 (List.length attempts))) /\
  (forall n, doubled max_reconnect_backoff_sec n <= 60 /\
             doubled max_reconnect_backoff_sec n
             <= doubled max_reconnect_backoff_sec (S n) /\
             doubled max_reconnect_backoff_sec (S n)
             <= 2 * doubled max_reconnect_backoff_sec n) /\
  Forall (fun d => d <= 60) (_run_forever max_reconnect_backoff_sec jittered).
Proof.
  assert (1 <= max_reconnect_backoff_sec) as Hm by (vm_compute; discriminate).
  split; [apply (@run_from_no_jitter _ attempts Hm 0%nat)|].
  split; [|apply run_from_capped].
  intros n. split; [apply (doubled_bounds n Hm)|apply (doubled_step n Hm)].
Qed.

End BackoffProofs.

(** ** Indicator engine: RSI *)

Section IndicatorProofs.
Import market_models indicators.

Lemma validate_periods_ok (self : IndicatorEngine) :
  _validate_periods self = Py.Ok tt <->
  (1 < ema_fast_period self /\ 1 < ema_slow_period self /\
   1 < atr_period self /\ 1 < rsi_period self)%Z.
Proof.
  unfold _validate_periods.
  destruct (Z.leb_spec (ema_fast_period self) 1);
    [split; [discriminate | lia]|].
  destruct (Z.leb_spec (ema_slow_period self) 1);
    [split; [discriminate | lia]|].
  destruct (Z.leb_spec (atr_period self) 1);
    [split; [discriminate | lia]|].
  destruct (Z.leb_spec (rsi_period self) 1);
    [split; [discriminate | lia]|].
  split; [lia | reflexivity].
Qed.

Lemma wilder_nonneg (avg x : Q) (period : Z) :
  (1 < period)%Z -> 0 <= avg -> 0 <= x ->
  0 <= (avg * (inject_Z period - 1) + x) / inject_Z period.
Proof.
  intros Hp Ha Hx.
  assert (1 < inject_Z period) as HP.
  { change 1 with (inject_Z 1). rewrite <- Zlt_Qlt. exact Hp. }
  apply Qle_shift_div_l; [lra|].
  assert (0 <= avg * (inject_Z period - 1)) by (apply Qmult_le_0_compat; lra).
  lra.
Qed.

(** The RSI formula stays in [0, 100] on averages that are not negative. *)
Lemma rsi_value_bounds (bars period : Z) (g l : Q) :
  0 <= g -> 0 <= l ->
  exists r, rsi_value bars period g l = Py.Ok r /\ 0 <= r /\ r <= 100 /\
            ((bars < period)%Z -> r = 50) /\
            ((period <= bars)%Z -> l == 0 -> r = 100).
Proof.
  intros Hg Hl. unfold rsi_value.
  destruct (Z.ltb_spec bars period) as [Hw|Hw].
  { exists 50. repeat split; try lra; intros; try reflexivity; lia. }
  unfold Py.eqb. destruct (Qeq_bool l 0) eqn:El.
  { exists 100. repeat split; try lra; intros; try reflexivity; lia. }
  apply Qeq_bool_neq in El.
  set (m := Py.max l (1 # 1000000000000)).
  assert (0 < m) as Hm.
  { pose proof (py_max_r l (1 # 1000000000000)). fold m in H. lra. }
  assert (0 <= g / m) as Hrs by (apply Qle_shift_div_l; lra).
  unfold Py.div. destruct (Qeq_bool (1 + g / m) 0) eqn:Ez.
  { apply Qeq_bool_eq in Ez. lra. }
  simpl. eexists. split; [reflexivity|].
  assert (0 <= 100 / (1 + g / m)) by (apply Qle_shift_div_l; lra).
  assert (100 / (1 + g / m) <= 100) by (apply Qle_shift_div_r; lra).
  repeat split; try lra; intros; try lia; try contradiction.
Qed.

(** One call of [update] on a validated engine whose averages are not
    negative. *)
Lemma update_rsi (self : IndicatorEngine) (c : Candle) :
  _validate_periods self = Py.Ok tt -> averages_ok self ->
  exists self' ind r,
    update self c = Py.Ok (self', ind) /\
    rsi ind = Some r /\ 0 <= r /\ r <= 100 /\
    _bars self' = (_bars self + 1)%Z /\
    _validate_periods self' = Py.Ok tt /\
    rsi_period self' = rsi_period self /\
    averages_ok self' /\
    ((_bars self' < rsi_period self)%Z -> r = 50) /\
    ((rsi_period self <= _bars self')%Z ->
     forall l, _avg_loss self' = Some l -> l == 0 -> r = 100).
Proof.
  intros Hvalid Havg. pose proof Hvalid as Hper.
  apply validate_periods_ok in Hper. destruct Hper as (_ & _ & _ & Hrsi).
  unfold update. rewrite Hvalid. simpl.
  set (change := match _prev_close self with
                 | Some pc => close c - pc
                 | None => 0
                 end).
  pose proof (py_max_r change 0) as Hgain.
  pose proof (py_max_r (- change) 0) as Hloss.
  assert (exists g l, smooth_gain_loss self (Py.max change 0) (Py.max (- change) 0)
                      = Py.Ok (g, l) /\ 0 <= g /\ 0 <= l) as (g & l & Hgl & Hg & Hl).
  { unfold smooth_gain_loss, averages_ok in *.
    destruct (_avg_gain self) as [g0|].
    - destruct (_avg_loss self) as [l0|]; [|contradiction].
      destruct Havg as [Hg0 Hl0]. eexists. eexists. split; [reflexivity|].
      split; apply wilder_nonneg; assumption.
    - eexists. eexists. split; [reflexivity|]. split; assumption. }
  rewrite Hgl. simpl.
  destruct (@rsi_value_bounds (_bars self + 1) (rsi_period self) g l Hg Hl)
    as (r & Hr & Hr0 & Hr100 & Hwarm & Hfull).
  rewrite Hr. simpl.
  eexists. eexists. exists r. split; [reflexivity|]. simpl.
  split; [reflexivity|]. split; [assumption|]. split; [assumption|].
  split; [reflexivity|].
  split; [apply validate_periods_ok; simpl; apply validate_periods_ok in Hvalid; exact Hvalid|].
  split; [reflexivity|].
  split; [split; assumption|].
  split; [assumption|].
  intros Hb l' Hl' Hz. injection Hl' as <-. apply Hfull; assumption.
Qed.

Lemma run_reaches (cs : list Candle) :
  forall self,
    _validate_periods self = Py.Ok tt -> averages_ok self ->
    exists self',
      run self cs = Py.Ok self' /\
      _validate_periods self' = Py.Ok tt /\ averages_ok self' /\
      rsi_period self' = rsi_period self /\
      _bars self' = (_bars self + Z.of_nat (List.length cs))%Z.
Proof.
  induction cs as [|c rest IH]; intros self Hvalid Havg.
  - exists self. simpl. repeat split; try assumption. lia.
  - destruct (@update_rsi self c Hvalid Havg)
      as (s1 & ind & r & Hup & _ & _ & _ & Hbars & Hvalid1 & Hper & Havg1 & _).
    destruct (IH s1 Hvalid1 Havg1) as (s2 & Hrun & Hv2 & Ha2 & Hp2 & Hb2).
    exists s2. simpl. rewrite Hup. simpl.
    repeat split; try assumption; [congruence|].
    rewrite Hb2, Hbars. lia.
Qed.















End IndicatorProofs.

(** ** Signal scorer *)

Section ScorerProofs.
Import market_models trend_pullback.

Lemma py_min_Qmin (a b : Q) : Py.min a b == Qmin a b.
Proof.
  unfold Py.min. destruct (Qlt_le_dec b a) as [H|H].
  - symmetry. apply Q.min_r. lra.
  - symmetry. apply Q.min_l. exact H.
Qed.

Lemma py_max_Qmax (a b : Q) : Py.max a b == Qmax a b.
Proof.
  unfold Py.max. destruct (Qlt_le_dec a b) as [H|H].
  - symmetry. apply Q.max_r. lra.
  - symmetry. apply Q.max_l. exact H.
Qed.

#[local] Instance py_max_proper : Proper (Qeq ==> Qeq ==> Qeq) Py.max.
Proof. intros a b H c d H'. rewrite !py_max_Qmax, H, H'. reflexivity. Qed.

#[local] Instance py_min_proper : Proper (Qeq ==> Qeq ==> Qeq) Py.min.
Proof. intros a b H c d H'. rewrite !py_min_Qmin, H, H'. reflexivity. Qed.

Lemma py_div_ok (a b : Q) : ~ b == 0 -> Py.div a b = Py.Ok (a / b).
Proof.
  intros H. unfold Py.div. destruct (Qeq_bool b 0) eqn:E; [|reflexivity].
  apply Qeq_bool_eq in E. contradiction.
Qed.

(** The scoring tail against the formula of the specification. *)
Lemma score_of_spec (self : TrendPullbackStrategy) (z : Q * Q) (sp ap r : Q) :
  ~ min_ema_spread_pct self == 0 -> ~ min_atr_pct self == 0 ->
  (1 # 1000000000) <= (snd z - fst z) / 2 ->
  exists sc,
    score_of self z sp ap r = Py.Ok sc /\
    sc == spec_score (min_ema_spread_pct self) (min_atr_pct self) (fst z) (snd z) sp ap r /\
    0 <= sc /\ sc <= 1.
Proof.
  intros Hs Ha Hz. unfold score_of.
  rewrite (@py_div_ok sp), (@py_div_ok ap) by lra. simpl.
  assert (zone_half z == (snd z - fst z) / 2) as Hhalf.
  { unfold zone_half, Py.max. destruct (Qlt_le_dec _ _); [lra | reflexivity]. }
  rewrite py_div_ok by (rewrite Hhalf; lra). simpl.
  eexists. split; [reflexivity|]. split.
  - unfold spec_score, zone_mid.
    rewrite Hhalf, !py_max_Qmax, !py_min_Qmin.
    setoid_replace (min_ema_spread_pct self * 4) with (4 * min_ema_spread_pct self) by ring.
    setoid_replace (min_atr_pct self * 4) with (4 * min_atr_pct self) by ring.
    reflexivity.
  - split; [apply py_max_l|].
    apply py_max_lub; [lra | apply py_min_l].
Qed.

Lemma generate_when_gates_pass (self : TrendPullbackStrategy) (c : Candle)
  (ef es a r : Q) :
  gates_pass self (close c) ef es a r ->
  ~ min_ema_spread_pct self == 0 -> ~ min_atr_pct self == 0 ->
  (1 # 1000000000)
  <= (snd (zone self (Py.gtb ef es)) - fst (zone self (Py.gtb ef es))) / 2 ->
  exists s,
    generate self c (mkIndicators (Some ef) (Some es) (Some a) (Some r)) = Py.Ok s /\
    side s = (if Py.gtb ef es then CALL else PUT) /\
    reason s = ok /\
    score s == spec_score (min_ema_spread_pct self) (min_atr_pct self)
                 (fst (zone self (Py.gtb ef es))) (snd (zone self (Py.gtb ef es)))
                 (Qabs (ef - es) / close c) (a / close c) r /\
    0 <= score s /\ score s <= 1.
Proof.
  intros (Hprice & Htrend & Hatr & Hspread & Hob & Hos & Hlo & Hhi) Hf1 Hf2 Hzone.
  destruct (@score_of_spec self (zone self (Py.gtb ef es))
              (Qabs (ef - es) / close c) (a / close c) r Hf1 Hf2 Hzone)
    as (sc & Hsc & Hspec & H0 & H1).
  unfold generate. cbn [ema_fast ema_slow atr rsi].
  rewrite (proj2 (py_leb_false (close c) 0)) by exact Hprice.
  assert (Py.gtb ef es || Py.ltb ef es = true) as Hdir.
  { unfold Py.gtb. destruct (Py.ltb es ef) eqn:Eup; [reflexivity|].
    destruct (Py.ltb ef es) eqn:Edown; [reflexivity|].
    apply py_ltb_false in Eup, Edown. exfalso. apply Htrend. lra. }
  rewrite Hdir. cbn [negb].
  rewrite py_div_ok by lra. cbn [Py.bind].
  rewrite (proj2 (py_ltb_false _ _) Hatr).
  rewrite py_div_ok by lra. cbn [Py.bind].
  rewrite (proj2 (py_ltb_false _ _) Hspread).
  assert (Py.geb r (rsi_overbought self) && Py.gtb ef es = false) as Eob.
  { unfold Py.geb, Py.gtb.
    destruct (Py.leb (rsi_overbought self) r) eqn:E1; [|reflexivity].
    destruct (Py.ltb es ef) eqn:E2; [|reflexivity].
    apply py_leb_true in E1. apply py_ltb_true in E2. exfalso. apply Hob. split; assumption. }
  assert (Py.leb r (rsi_oversold self) && Py.ltb ef es = false) as Eos.
  { destruct (Py.leb r (rsi_oversold self)) eqn:E1; [|reflexivity].
    destruct (Py.ltb ef es) eqn:E2; [|reflexivity].
    apply py_leb_true in E1. apply py_ltb_true in E2. exfalso. apply Hos. split; assumption. }
  rewrite Eob, Eos.
  rewrite (proj2 (py_leb_true _ _) Hlo), (proj2 (py_leb_true _ _) Hhi). cbn [andb negb].
  rewrite Hsc. cbn [Py.bind]. eexists. split; [reflexivity|]. cbn [side reason score].
  repeat split; assumption.
Qed.

(** C7.  When every gate passes (with non-zero floors and a pullback zone
    at least 2e-9 wide) [generate] returns the side of the trend, reason
    "ok" and the score 0.45 min(1, spread/(4 floor)) + 0.35 max(0, 1 -
    |rsi - mid| / half) + 0.20 min(1, atr%/(4 floor)) clamped to [0, 1]; and
    on the default strategy an uptrend with ATR% 0.002, EMA spread% 0.001
    and RSI 52.5 gives a CALL with a positive score (0.675) and reason
    "ok". *)
Theorem generate_score_formula :
  (forall (self : TrendPullbackStrategy) (c : Candle) (ef es a r : Q),
     gates_pass self (close c) ef es a r ->
     ~ min_ema_spread_pct self == 0 -> ~ min_atr_pct self == 0 ->
     (1 # 1000000000)
     <= (snd (zone self (Py.gtb ef es)) - fst (zone self (Py.gtb ef es))) / 2 ->
     exists s,
       generate self c (mkIndicators (Some ef) (Some es) (Some a) (Some r)) = Py.Ok s /\
       side s = (if Py.gtb ef es then CALL else PUT) /\
       reason s = ok /\
       score s == spec_score (min_ema_spread_pct self) (min_atr_pct self)
                    (fst (zone self (Py.gtb ef es))) (snd (zone self (Py.gtb ef es)))
                    (Qabs (ef - es) / close c) (a / close c) r /\
       0 <= score s /\ score s <= 1) /\
  (forall (c : Candle) (ef es a r : Q),
     0 < close c -> es < ef ->
     a / close c == 2 # 1000 ->
     (ef - es) / close c == 1 # 1000 ->
     r == 525 # 10 ->
     exists s,
       generate default c (mkIndicators (Some ef) (Some es) (Some a) (Some r)) = Py.Ok s /\
       side s = CALL /\ reason s = ok /\
       0 < score s /\ score s == 675 # 1000).
Proof.
  split; [exact generate_when_gates_pass|].
  intros c ef es a r Hprice Hup Hatr Hspread Hrsi.
  assert (Py.gtb ef es = true) as Egt by (apply py_ltb_true; exact Hup).
  assert (Qabs (ef - es) / close c == 1 # 1000) as Hspread'.
  { rewrite Qabs_pos by lra. exact Hspread. }
  destruct (@generate_when_gates_pass default c ef es a r)
    as (s & Hgen & Hside & Hreason & Hscore & _).
  - unfold gates_pass. rewrite Egt, Hatr, Hspread'. simpl.
    repeat split; try lra; try (intros [? ?]; lra).
  - simpl. intros H. discriminate H.
  - simpl. intros H. discriminate H.
  - rewrite Egt. simpl. vm_compute. discriminate.
  - rewrite Egt in Hside, Hscore. simpl in Hscore.
    assert (score s == 675 # 1000) as Hval.
    { rewrite Hscore. unfold spec_score. rewrite Hatr, Hspread', Hrsi. reflexivity. }
    exists s. repeat split; try assumption. rewrite Hval. reflexivity.
Qed.

(** The scenario at price 100: EMA 100.1 over 100, ATR 0.2, RSI 52.5. *)
Lemma generate_score_formula_witness :
  exists s,
    generate default (mkCandle "R_75" 60 0 100 100 100 100 1)
             (mkIndicators (Some (1001 # 10)) (Some 100) (Some (2 # 10)) (Some (525 # 10)))
    = Py.Ok s /\
    side s = CALL /\ reason s = ok /\ 0 < score s /\ score s == 675 # 1000.
Proof.
  apply (proj2 generate_score_formula
           (mkCandle "R_75" 60 0 100 100 100 100 1) (1001 # 10) 100 (2 # 10) (525 # 10));
    reflexivity.
Defined.

End ScorerProofs.

(** ** Order executor *)

Section ExecutorProofs.
Import order_executor.

(** Every trade the polling loop returns carries [is_win = (profit > 0)]. *)
Lemma wait_until_sold_is_win (polls : list (Py.Result PocResponse)) :
  forall elapsed poll_sec timeout_sec cid bought_at t,
    wait_until_sold polls elapsed poll_sec timeout_sec cid bought_at = Py.Ok t ->
    is_win t = Py.gtb (profit t) 0.
Proof.
  induction polls as [|answer rest IH]; intros elapsed poll_sec timeout_sec cid bought_at t;
    simpl; destruct (PrimFloat.ltb elapsed timeout_sec); try discriminate.
  destruct answer as [poc|e]; simpl; [|discriminate].
  destruct (Py.truthy (poc_error poc)); [discriminate|].
  destruct (is_sold poc).
  - intros H. injection H as <-. reflexivity.
  - apply IH.
Qed.

Lemma gtb_iff_positive (x : Q) :
  (Py.gtb x 0 = true <-> 0 < x) /\ (x == 0 -> Py.gtb x 0 = false).
Proof.
  unfold Py.gtb. split; [apply py_ltb_true|].
  intros H. apply py_ltb_false. lra.
Qed.

(** C10.  A trade returned by [execute_rise_fall] or [execute_multiplier]
    is a win exactly when its profit is strictly positive; a profit of 0 is
    reported as a loss. *)
Theorem executed_trade_is_win (self : OrderExecutor) (side : string) (stake : Q)
  (take_profit_usd stop_loss_usd : Q) (duration : Z) (duration_unit : string)
  (mult : Z) (sym : option string) (poll_sec timeout_sec : float) (t : ExecutedTrade)
  (Hreturned :
     execute_rise_fall self side stake duration duration_unit sym poll_sec timeout_sec
     = Py.Ok t \/
     execute_multiplier self side stake take_profit_usd stop_loss_usd duration
       duration_unit mult sym poll_sec timeout_sec
     = Py.Ok t) :
  (is_win t = true <-> 0 < profit t) /\ (profit t == 0 -> is_win t = false).
Proof.
  assert (is_win t = Py.gtb (profit t) 0) as ->; [|apply gtb_iff_positive].
  destruct Hreturned as [H|H];
    [unfold execute_rise_fall in H | unfold execute_multiplier in H];
    cbv zeta in H;
    match type of H with
    | Py.bind ?m _ = _ => destruct m as [b|e]; [|discriminate H]
    end;
    simpl in H; apply wait_until_sold_is_win in H; exact H.
Qed.

Lemma executed_trade_is_win_witness :
  exists t,
    execute_rise_fall (mkExecutor break_even_client "R_75" "USD") "CALL" 10 1 "m" None 1%float 180%float
    = Py.Ok t /\
    profit t == 0 /\ is_win t = false.
Proof.
  eexists. split; [vm_compute; reflexivity|]. split; [reflexivity|].
  apply (@executed_trade_is_win (mkExecutor break_even_client "R_75" "USD")
           "CALL" 10 0 0 1 "m" 10 None 1%float 180%float).
  - left. vm_compute. reflexivity.
  - reflexivity.
Defined.

End ExecutorProofs.

(** ** Bounded queue and trade worker *)

Section EngineProofs.
Import engine.

(** C6.  Enqueueing on the capacity-3 queue while it holds three intents
    returns at once without raising: the queue is unchanged and the only
    effect is the warning [trade_queue_full_skip]. *)
Theorem enqueue_when_full (q : Queue) (log : list LogEntry) (intent : TradeIntent)
  (Hcap : maxsize q = 3%Z)
  (Hfull : List.length (items q) = 3%nat) :
  enqueue q log intent = Py.Ok (q, log ++ [mkLog warning "trade_queue_full_skip"]).
Proof.
  unfold enqueue, put_nowait, full, qsize. rewrite Hcap, Hfull. reflexivity.
Qed.

Lemma full_queue_reached :
  (q1 <- put_nowait trade_queue (sample_intent "R_50") ;;
   q2 <- put_nowait q1 (sample_intent "R_75") ;;
   put_nowait q2 (sample_intent "R_100")) = Py.Ok full_queue.
Proof. reflexivity. Qed.

Lemma enqueue_when_full_witness :
  enqueue full_queue [] (sample_intent "R_25")
  = Py.Ok (full_queue, [mkLog warning "trade_queue_full_skip"]).
Proof.
  apply (@enqueue_when_full full_queue [] (sample_intent "R_25")); reflexivity.
Defined.

Ltac engine_simpl :=
  cbn [queue trade_in_flight repo balance peak_equity rf logs
       with_queue with_in_flight with_repo with_balance with_peak with_rf log
       _unfinished_tasks items maxsize Py.bind] in *.

(** The dry-run path marks the task done inside the [try] block and the
    [finally] block marks it done again.  With at most one unfinished task
    the second call raises out of the loop; with more the counter silently
    loses two. *)
Lemma dry_run_double_task_done (w : World) (st : Engine) (intent : TradeIntent)
  (rf' : risk_firewall.RiskFirewall) (d : risk_firewall.RiskDecision) :
  killswitch w = Py.Ok false ->
  (let equity := Py.or_float (balance st) 0 in
   let peak := Py.max (match peak_equity st with
                       | None => Py.or_float (Some equity) 0
                       | Some p => Py.or_float (Some p) 0
                       end) equity in
   risk_firewall.check (clock w) (rf st) (snapshot_of w equity peak) = Py.Ok (rf', d)) ->
  risk_firewall.allowed d = true ->
  trade_in_flight st = false ->
  dry_run w = true ->
  ((_unfinished_tasks (queue st) <= 1)%Z ->
   process_intent w st intent
   = Py.Raise (Py.ValueError "task_done() called too many times")) /\
  ((2 <= _unfinished_tasks (queue st))%Z ->
   exists st', process_intent w st intent = Py.Ok st' /\
               _unfinished_tasks (queue st') = (_unfinished_tasks (queue st) - 2)%Z /\
               items (queue st') = items (queue st)).
Proof.
  intros Hks Hcheck Hallowed Hflight Hdry. cbv zeta in Hcheck.
  unfold process_intent, try_body. rewrite Hks.
  cbv zeta. engine_simpl. rewrite Hcheck.
  engine_simpl. rewrite Hallowed. cbn [negb]. rewrite Hflight, Hdry.
  unfold finally_block, except_handler, task_done. engine_simpl.
  split; intros Hu.
  - destruct (Z.leb_spec (_unfinished_tasks (queue st)) 0) as [H0|H0]; engine_simpl.
    + destruct (log_error w); engine_simpl;
        (destruct (Z.leb_spec (_unfinished_tasks (queue st)) 0); [reflexivity | lia]).
    + destruct (Z.leb_spec (_unfinished_tasks (queue st) - 1) 0); [reflexivity | lia].
  - destruct (Z.leb_spec (_unfinished_tasks (queue st)) 0) as [H0|H0]; [lia|].
    engine_simpl.
    destruct (Z.leb_spec (_unfinished_tasks (queue st) - 1) 0); [lia|].
    cbn [Py.bind]. eexists. split; [reflexivity|]. engine_simpl.
    split; [lia | reflexivity].
Qed.

(** C1 on the code.  With [dry_run] active (the default) and one intent
    queued, the worker logs the skip and is then terminated by the
    [ValueError] of the second [task_done()]; with two intents queued the
    first is skipped, the second kills the worker the same way.  The other
    paths do stay inside the loop: the same intent with [dry_run] off and
    a failing execution is rolled back and the worker goes back to
    waiting. *)
Theorem trade_worker_dies_on_dry_run :
  put_nowait trade_queue (sample_intent "R_75") = Py.Ok one_intent /\
  trade_worker [quiet_world true (Py.Ok winning_trade)] (fresh_engine one_intent)
  = died (Py.ValueError "task_done() called too many times") /\
  trade_worker [quiet_world true (Py.Ok winning_trade);
                quiet_world true (Py.Ok winning_trade)] (fresh_engine two_intents)
  = died (Py.ValueError "task_done() called too many times") /\
  (exists st,
     trade_worker [quiet_world false (Py.Raise (Py.RuntimeError "buy_error"))]
                  (fresh_engine one_intent) = waiting st /\
     trades (repo st) = [] /\ trade_in_flight st = false /\
     _unfinished_tasks (queue st) = 0%Z).
Proof.
  split; [reflexivity|].
  split; [vm_compute; reflexivity|].
  split; [vm_compute; reflexivity|].
  eexists. split; [vm_compute; reflexivity|].
  repeat split.
Qed.

(** The paths that are handled inside the loop, for a queue that still
    counts the intent as unfinished. *)
Lemma killswitch_skip_handled (w : World) (st : Engine) (intent : TradeIntent) :
  killswitch w = Py.Ok true ->
  (0 < _unfinished_tasks (queue st))%Z ->
  exists st',
    process_intent w st intent = Py.Ok st' /\
    trade_in_flight st' = false /\
    trades (repo st') = trades (repo st) /\
    _unfinished_tasks (queue st') = (_unfinished_tasks (queue st) - 1)%Z /\
    logs st' = logs st ++ [mkLog warning "killswitch_enabled_skip_trade"].
Proof.
  intros Hks Hu. unfold process_intent, try_body. rewrite Hks.
  unfold finally_block, except_handler, task_done. engine_simpl.
  destruct (Z.leb_spec (_unfinished_tasks (queue st)) 0); [lia|].
  engine_simpl. eexists. split; [reflexivity|]. engine_simpl.
  repeat split.
Qed.

Lemma risk_rejection_handled (w : World) (st : Engine) (intent : TradeIntent)
  (rf' : risk_firewall.RiskFirewall) (d : risk_firewall.RiskDecision) :
  killswitch w = Py.Ok false ->
  (let equity := Py.or_float (balance st) 0 in
   let peak := Py.max (match peak_equity st with
                       | None => Py.or_float (Some equity) 0
                       | Some p => Py.or_float (Some p) 0
                       end) equity in
   risk_firewall.check (clock w) (rf st) (snapshot_of w equity peak) = Py.Ok (rf', d)) ->
  risk_firewall.allowed d = false ->
  (0 < _unfinished_tasks (queue st))%Z ->
  exists st',
    process_intent w st intent = Py.Ok st' /\
    trade_in_flight st' = false /\
    trades (repo st') = trades (repo st) /\
    _unfinished_tasks (queue st') = (_unfinished_tasks (queue st) - 1)%Z /\
    logs st' = logs st ++ [mkLog warning "risk_block_skip_trade"].
Proof.
  intros Hks Hcheck Hrej Hu. cbv zeta in Hcheck.
  unfold process_intent, try_body. rewrite Hks.
  cbv zeta. engine_simpl. rewrite Hcheck. engine_simpl. rewrite Hrej. cbn [negb].
  unfold finally_block, except_handler, task_done. engine_simpl.
  destruct (Z.leb_spec (_unfinished_tasks (queue st)) 0); [lia|].
  engine_simpl. eexists. split; [reflexivity|]. engine_simpl.
  repeat split.
Qed.



End EngineProofs.

(** ** More on the queue and the worker *)

Section EngineCoverage.
Import engine.

Lemma enqueue_all_from (intents : list TradeIntent) :
  forall q log (room : nat),
    maxsize q = 3%Z -> (List.length (items q) + room = 3)%nat ->
    exists q' log',
      enqueue_all q log intents = Py.Ok (q', log') /\
      maxsize q' = 3%Z /\
      items q' = items q ++ firstn room intents /\
      _unfinished_tasks q' =
      (_unfinished_tasks q + Z.of_nat (List.length (firstn room intents)))%Z /\
      log' =
      log
      ++ repeat (mkLog info "trade_intent_enqueued") (List.length (firstn room intents))
      ++ repeat (mkLog warning "trade_queue_full_skip") (List.length (skipn room intents)).
Proof.
  induction intents as [|i rest IH]; intros q log room Hcap Hlen.
  - exists q, log. rewrite firstn_nil, skipn_nil. cbn [List.length repeat app].
    rewrite !app_nil_r, Z.add_0_r. repeat split. assumption.
  - cbn [enqueue_all]. unfold enqueue, put_nowait, full, qsize. rewrite Hcap.
    change (3 <=? 0)%Z with false. cbv iota.
    destruct room as [|room].
    + destruct (Z.leb_spec 3 (Z.of_nat (List.length (items q)))) as [_|Hroom]; [|lia].
      cbn [Py.bind fst snd].
      destruct (IH q (log ++ [mkLog warning "trade_queue_full_skip"]) 0%nat Hcap Hlen)
        as (q' & log' & Hrun & Hm & Hi & Hu & Hl).
      exists q', log'. cbn [firstn skipn List.length repeat] in *.
      repeat split; try assumption.
      rewrite Hl, <- app_assoc. reflexivity.
    + destruct (Z.leb_spec 3 (Z.of_nat (List.length (items q)))) as [Hfull|_]; [lia|].
      cbn [Py.bind fst snd].
      destruct (IH (mkQueue 3 (items q ++ [i]) (_unfinished_tasks q + 1))
                   (log ++ [mkLog info "trade_intent_enqueued"]) room)
        as (q' & log' & Hrun & Hm & Hi & Hu & Hl);
        [reflexivity | cbn [items]; rewrite length_app; cbn [List.length]; lia |].
      exists q', log'. cbn [items _unfinished_tasks firstn skipn List.length repeat] in *.
      repeat split; try assumption.
      * rewrite Hi, <- app_assoc. reflexivity.
      * rewrite Hu. lia.
      * rewrite Hl, <- app_assoc. reflexivity.
Qed.

(** Backpressure.  Whatever batch of intents is enqueued on the empty
    [trade_queue] while nothing is consumed, no call raises, the queue keeps
    exactly the first three intents in order, and each further intent is
    dropped with one warning. *)
Theorem enqueue_keeps_first_three (intents : list TradeIntent) :
  exists q log,
    enqueue_all trade_queue [] intents = Py.Ok (q, log) /\
    items q = firstn 3 intents /\
    _unfinished_tasks q = Z.of_nat (List.length (firstn 3 intents)) /\
    log = repeat (mkLog info "trade_intent_enqueued") (List.length (firstn 3 intents))
          ++ repeat (mkLog warning "trade_queue_full_skip") (List.length (skipn 3 intents)).
Proof.
  destruct (@enqueue_all_from intents trade_queue [] 3%nat eq_refl eq_refl)
    as (q & log & Hrun & _ & Hi & Hu & Hl).
  exists q, log. repeat split; assumption.
Qed.

End EngineCoverage.

Section WorkerCoverage.
Import engine.

Ltac worker_simpl :=
  cbn [queue trade_in_flight repo balance peak_equity rf logs
       with_queue with_in_flight with_repo with_balance with_peak with_rf log
       _unfinished_tasks items maxsize Py.bind fst snd] in *.

Lemma execute_intent_keeps_queue (w : World) (st : Engine) (intent : TradeIntent) :
  queue (fst (fst (execute_intent w st intent))) = queue st.
Proof.
  unfold execute_intent. cbv zeta.
  destruct (insert_trade (repo st) _); [|reflexivity].
  destruct (execution w); [|reflexivity].
  worker_simpl. destruct (balance st); reflexivity.
Qed.

(** With [dry_run] off the [try] block never touches the queue. *)
Lemma try_body_keeps_queue (w : World) (st : Engine) (intent : TradeIntent) :
  dry_run w = false ->
  queue (fst (fst (try_body w st intent))) = queue st.
Proof.
  intros Hdry. unfold try_body. cbv zeta.
  destruct (killswitch w) as [[|]|e]; try reflexivity.
  destruct (risk_firewall.check _ _ _) as [[rf' d]|e]; [|reflexivity].
  destruct (negb (risk_firewall.allowed d)); [reflexivity|].
  worker_simpl. destruct (trade_in_flight st); [reflexivity|].
  rewrite Hdry. rewrite execute_intent_keeps_queue. reflexivity.
Qed.

Lemma except_handler_keeps_queue (w : World) (st : Engine) (tid : option string)
  (e : BodyEnd) :
  queue (fst (except_handler w st tid e)) = queue st.
Proof.
  unfold except_handler. destruct e; try reflexivity.
  destruct (log_error w); destruct tid; try reflexivity;
    destruct (delete_error w); reflexivity.
Qed.

Lemma except_handler_contained (w : World) (st : Engine) (tid : option string)
  (e : BodyEnd) :
  log_error w = None -> snd (except_handler w st tid e) = None.
Proof.
  intros Hlog. unfold except_handler. rewrite Hlog. destruct e; reflexivity.
Qed.

Lemma process_intent_without_dry_run (w : World) (st : Engine) (intent : TradeIntent) :
  dry_run w = false ->
  log_error w = None ->
  (0 < _unfinished_tasks (queue st))%Z ->
  exists st',
    process_intent w st intent = Py.Ok st' /\
    items (queue st') = items (queue st) /\
    maxsize (queue st') = maxsize (queue st) /\
    _unfinished_tasks (queue st') = (_unfinished_tasks (queue st) - 1)%Z.
Proof.
  intros Hdry Hlog Hu. unfold process_intent.
  pose proof (@try_body_keeps_queue w st intent Hdry) as Hq.
  destruct (try_body w st intent) as [[st1 tid] e]. cbn [fst] in Hq.
  pose proof (except_handler_keeps_queue w st1 tid e) as Hh.
  pose proof (@except_handler_contained w st1 tid e Hlog) as Hc.
  destruct (except_handler w st1 tid e) as [st2 escaped]. cbn [fst snd] in Hh, Hc.
  subst escaped.
  unfold finally_block, task_done. worker_simpl.
  rewrite Hh, Hq.
  destruct (Z.leb_spec (_unfinished_tasks (queue st)) 0); [lia|].
  worker_simpl. eexists. split; [reflexivity|]. worker_simpl.
  repeat split.
Qed.

Lemma trade_worker_unfold (worlds : list World) (st : Engine) :
  trade_worker worlds st =
  match get (queue st) with
  | None => waiting st
  | Some (intent, q) =>
      match worlds with
      | [] => pending st
      | w :: rest =>
          match process_intent w (with_queue st q) intent with
          | Py.Ok st' => trade_worker rest st'
          | Py.Raise e => died e
          end
      end
  end.
Proof. destruct worlds; reflexivity. Qed.

(** With [development.dry_run] off, and as long as the handler can write
    its error event, a worker whose queue counts its items correctly and
    that is given a world for every queued intent consumes them all and ends
    suspended on the empty queue: no kill-switch state or error, no risk
    decision or exception of the risk check, no duplicate trade id, failed
    rollback or execution failure terminates it. *)
Theorem trade_worker_drains_queue (worlds : list World) :
  forall (st : Engine)
    (Hdry : Forall (fun w => dry_run w = false) worlds)
    (Hlog : Forall (fun w => log_error w = None) worlds)
    (Hcount : _unfinished_tasks (queue st) = Z.of_nat (List.length (items (queue st))))
    (Hworlds : (List.length (items (queue st)) <= List.length worlds)%nat),
  exists st',
    trade_worker worlds st = waiting st' /\
    items (queue st') = [] /\
    _unfinished_tasks (queue st') = 0%Z.
Proof.
  induction worlds as [|w rest IH]; intros st Hdry Hlog Hcount Hworlds;
    rewrite trade_worker_unfold; unfold get.
  - destruct (items (queue st)) as [|i its] eqn:E; [|simpl in Hworlds; lia].
    exists st. simpl in Hcount. repeat split; assumption.
  - destruct (items (queue st)) as [|i its] eqn:E.
    + exists st. simpl in Hcount. repeat split; assumption.
    + inversion Hdry as [|? ? Hw Hrest]; subst.
      inversion Hlog as [|? ? Hl Hlrest]; subst.
      simpl in Hcount, Hworlds.
      destruct (@process_intent_without_dry_run w
                  (with_queue st (mkQueue (maxsize (queue st)) its
                                          (_unfinished_tasks (queue st)))) i Hw Hl)
        as (st1 & Hrun & Hi & Hm & Hu); [worker_simpl; lia|].
      rewrite Hrun. worker_simpl.
      apply IH; [assumption | assumption | rewrite Hu, Hi; lia | rewrite Hi; lia].
Qed.

Lemma trade_worker_drains_queue_witness :
  exists st',
    trade_worker [quiet_world false (Py.Ok winning_trade);
                  quiet_world false (Py.Raise (Py.RuntimeError "buy_error"))]
                 (fresh_engine two_intents) = waiting st' /\
    items (queue st') = [] /\
    _unfinished_tasks (queue st') = 0%Z.
Proof.
  apply (@trade_worker_drains_queue
           [quiet_world false (Py.Ok winning_trade);
            quiet_world false (Py.Raise (Py.RuntimeError "buy_error"))]
           (fresh_engine two_intents)).
  - repeat constructor.
  - repeat constructor.
  - reflexivity.
  - simpl. lia.
Defined.

(** Single flight.  Whenever the processing of an intent returns, by any
    path, the in-flight guard is clear again. *)
Theorem in_flight_released (w : World) (st st' : Engine) (intent : TradeIntent)
  (Hdone : process_intent w st intent = Py.Ok st') :
  trade_in_flight st' = false.
Proof.
  unfold process_intent in Hdone.
  destruct (try_body w st intent) as [[st1 tid] e].
  destruct (except_handler w st1 tid e) as [st2 escaped].
  unfold finally_block in Hdone.
  destruct (task_done _) as [q|err]; [|discriminate Hdone].
  cbn [Py.bind] in Hdone. destruct escaped; [discriminate Hdone|].
  injection Hdone as <-. reflexivity.
Qed.

Lemma in_flight_released_witness :
  exists st',
    process_intent (quiet_world false (Py.Ok winning_trade))
                   (fresh_engine one_intent) (sample_intent "R_75") = Py.Ok st' /\
    trade_in_flight st' = false.
Proof.
  eexists. split; [vm_compute; reflexivity|].
  apply (@in_flight_released (quiet_world false (Py.Ok winning_trade))
           (fresh_engine one_intent) _ (sample_intent "R_75")).
  vm_compute. reflexivity.
Defined.





(** The double [task_done()] of the dry-run path with three intents
    counted: the counter drops to one. *)
Lemma dry_run_double_task_done_witness :
  exists st',
    process_intent (quiet_world true (Py.Ok winning_trade))
                   (fresh_engine (mkQueue 3 [sample_intent "R_50"; sample_intent "R_100"] 3))
                   (sample_intent "R_75") = Py.Ok st' /\
    _unfinished_tasks (queue st') = 1%Z.
Proof.
  destruct (@dry_run_double_task_done (quiet_world true (Py.Ok winning_trade))
              (fresh_engine (mkQueue 3 [sample_intent "R_50"; sample_intent "R_100"] 3))
              (sample_intent "R_75")
              (risk_firewall.mkFirewall (1 # 10) (5 # 100) 50 3 30 0 (Some 1000))
              (risk_firewall.mkDecision true risk_firewall.ok 0))
    as [_ Hmany]; try reflexivity.
  destruct Hmany as (st' & Hrun & Hu & _); [simpl; lia|].
  exists st'. split; [exact Hrun | exact Hu].
Defined.

End WorkerCoverage.

(** ** More on the indicator engine *)

Section IndicatorCoverage.
Import market_models indicators.

(** What a returning [update] leaves in the engine and hands back. *)
Lemma update_shape (self self' : IndicatorEngine) (c : Candle) (ind : Indicators) :
  update self c = Py.Ok (self', ind) ->
  ema_fast_period self' = ema_fast_period self /\
  ema_slow_period self' = ema_slow_period self /\
  atr_period self' = atr_period self /\
  rsi_period self' = rsi_period self /\
  _bars self' = (_bars self + 1)%Z /\
  _ema_fast self' = Some (_ema (_ema_fast self) (close c) (ema_fast_period self)) /\
  _ema_slow self' = Some (_ema (_ema_slow self) (close c) (ema_slow_period self)) /\
  _atr self' =
  Some (match _atr self with
        | None => true_range (_prev_close self) c
        | Some a => (a * (inject_Z (atr_period self) - 1) + true_range (_prev_close self) c)
                    / inject_Z (atr_period self)
        end) /\
  ema_fast ind = _ema_fast self' /\ ema_slow ind = _ema_slow self' /\
  atr ind = _atr self' /\
  _validate_periods self = Py.Ok tt.
Proof.
  unfold update. destruct (_validate_periods self) as [[]|e] eqn:Ev; [|discriminate].
  cbn [Py.bind]. cbv zeta.
  destruct (smooth_gain_loss self _ _) as [gl|e]; [|discriminate]. cbn [Py.bind].
  destruct (rsi_value _ _ _ _) as [r|e]; [|discriminate]. cbn [Py.bind].
  intros H. injection H as <- <-. cbn. repeat split.
Qed.

(** A property kept by every returning [update] on admissible candles is
    kept by [run]. *)
Lemma run_preserves (good : Candle -> Prop) (P : IndicatorEngine -> Prop) :
  (forall s c s' ind, good c -> P s -> update s c = Py.Ok (s', ind) -> P s') ->
  forall cs s s', Forall good cs -> P s -> run s cs = Py.Ok s' -> P s'.
Proof.
  intros Hstep. induction cs as [|c rest IH]; intros s s' Hgood HP Hrun; simpl in Hrun.
  - injection Hrun as <-. exact HP.
  - inversion Hgood as [|? ? Hc Hrest]; subst.
    destruct (update s c) as [[s1 ind]|e] eqn:Eu; [|discriminate Hrun].
    cbn [Py.bind fst] in Hrun.
    apply (IH s1 s' Hrest); [|exact Hrun].
    apply (Hstep s c s1 ind Hc HP Eu).
Qed.

(** Warm-up.  After [k] candles fed to a fresh engine with valid periods,
    [is_ready] holds exactly when [k] has reached the largest of the slow
    EMA, ATR and RSI periods. *)
Theorem is_ready_after (fast slow atr_p rsi_p : Z) (cs : list Candle)
  (Hvalid : _validate_periods (new fast slow atr_p rsi_p) = Py.Ok tt) :
  exists self,
    run (new fast slow atr_p rsi_p) cs = Py.Ok self /\
    (is_ready self = true <->
     (slow <= Z.of_nat (List.length cs) /\ atr_p <= Z.of_nat (List.length cs) /\
      rsi_p <= Z.of_nat (List.length cs))%Z).
Proof.
  destruct (@run_reaches cs (new fast slow atr_p rsi_p) Hvalid I)
    as (self & Hrun & _ & _ & _ & Hbars).
  exists self. split; [exact Hrun|].
  assert (ema_slow_period self = slow /\ atr_period self = atr_p /\ rsi_period self = rsi_p)
    as (Es & Ea & Er).
  { apply (@run_preserves (fun _ => True)
             (fun s => ema_slow_period s = slow /\ atr_period s = atr_p /\ rsi_period s = rsi_p))
      with (cs := cs) (s := new fast slow atr_p rsi_p); try assumption.
    - intros s c s' ind _ (H1 & H2 & H3) Hu.
      apply update_shape in Hu. destruct Hu as (_ & U2 & U3 & U4 & _).
      repeat split; congruence.
    - apply Forall_forall. intros; exact I.
    - repeat split. }
  unfold is_ready. rewrite Es, Ea, Er, Hbars. cbn [_bars new].
  rewrite Z.leb_le. lia.
Qed.

Lemma is_ready_after_witness :
  exists self,
    run (new 2 3 2 2) [mkCandle "R_75" 60 0 100 101 99 100 5;
                       mkCandle "R_75" 60 60 100 102 100 101 7;
                       mkCandle "R_75" 60 120 101 103 100 102 4] = Py.Ok self /\
    (is_ready self = true <-> (3 <= 3 /\ 2 <= 3 /\ 2 <= 3)%Z).
Proof.
  apply (@is_ready_after 2 3 2 2
           [mkCandle "R_75" 60 0 100 101 99 100 5;
            mkCandle "R_75" 60 60 100 102 100 101 7;
            mkCandle "R_75" 60 120 101 103 100 102 4]).
  reflexivity.
Defined.

Lemma true_range_nonneg (prev : option Q) (c : Candle) :
  low c <= high c -> 0 <= true_range prev c.
Proof.
  intros H. unfold true_range. destruct prev as [pc|]; [|lra].
  pose proof (py_max_r (Py.max (high c - low c) (Qabs (high c - pc))) (Qabs (low c - pc))).
  pose proof (Qabs_nonneg (low c - pc)). lra.
Qed.

(** The ATR is never negative on candles whose low does not exceed their
    high: after any such sequence the next [update] returns an ATR >= 0. *)
Theorem atr_never_negative (fast slow atr_p rsi_p : Z) (cs : list Candle) (c : Candle)
  (Hvalid : _validate_periods (new fast slow atr_p rsi_p) = Py.Ok tt)
  (Hshape : Forall (fun k => low k <= high k) (cs ++ [c])) :
  exists self self' ind a,
    run (new fast slow atr_p rsi_p) cs = Py.Ok self /\
    update self c = Py.Ok (self', ind) /\
    atr ind = Some a /\ 0 <= a.
Proof.
  apply Forall_app in Hshape. destruct Hshape as [Hcs Hc].
  inversion Hc as [|? ? Hc1 _]; subst.
  destruct (@run_reaches cs (new fast slow atr_p rsi_p) Hvalid I)
    as (self & Hrun & Hv & Ha & _ & _).
  destruct (@update_rsi self c Hv Ha) as (self' & ind & r & Hup & _).
  assert ((1 < atr_period self)%Z /\
          forall a, _atr self = Some a -> 0 <= a) as [Hp Hatr].
  { apply (@run_preserves (fun k => low k <= high k)
             (fun s => (1 < atr_period s)%Z /\ forall a, _atr s = Some a -> 0 <= a))
      with (cs := cs) (s := new fast slow atr_p rsi_p); try assumption.
    - intros s k s' ind' Hk [Hper Hnon] Hu. apply update_shape in Hu.
      destruct Hu as (_ & _ & U3 & _ & _ & _ & _ & U8 & _).
      split; [congruence|]. intros a Ea. rewrite U8 in Ea. injection Ea as <-.
      pose proof (@true_range_nonneg (_prev_close s) k Hk) as Htr.
      destruct (_atr s) as [a0|]; [|exact Htr].
      apply wilder_nonneg; [exact Hper | apply Hnon; reflexivity | exact Htr].
    - split; [|intros a Ea; discriminate Ea].
      apply validate_periods_ok in Hvalid. apply Hvalid. }
  pose proof (@update_shape _ _ _ _ Hup) as (_ & _ & _ & _ & _ & _ & _ & U8 & _ & _ & U11 & _).
  exists self, self', ind. eexists. split; [exact Hrun|]. split; [exact Hup|].
  split; [rewrite U11; exact U8|].
  pose proof (@true_range_nonneg (_prev_close self) c Hc1) as Htr.
  destruct (_atr self) as [a0|]; [|exact Htr].
  apply wilder_nonneg; [exact Hp | apply Hatr; reflexivity | exact Htr].
Qed.

Lemma atr_never_negative_witness :
  exists self self' ind a,
    run (new 20 50 14 14) [mkCandle "R_75" 60 0 100 101 99 100 5] = Py.Ok self /\
    update self (mkCandle "R_75" 60 60 100 102 100 101 7) = Py.Ok (self', ind) /\
    atr ind = Some a /\ 0 <= a.
Proof.
  apply (@atr_never_negative 20 50 14 14
           [mkCandle "R_75" 60 0 100 101 99 100 5]
           (mkCandle "R_75" 60 60 100 102 100 101 7)).
  - reflexivity.
  - repeat constructor; simpl; discriminate.
Defined.

End IndicatorCoverage.

(** ** More on the signal scorer *)

Section ScorerCoverage.
Import market_models trend_pullback.

Lemma score_of_bounds (self : TrendPullbackStrategy) (z : Q * Q) (sp ap r sc : Q) :
  score_of self z sp ap r = Py.Ok sc -> 0 <= sc /\ sc <= 1.
Proof.
  unfold score_of.
  destruct (Py.div sp _) as [t|e]; [|discriminate]. cbn [Py.bind].
  destruct (Py.div ap _) as [v|e]; [|discriminate]. cbn [Py.bind].
  destruct (Py.div _ (zone_half z)) as [d|e]; [|discriminate]. cbn [Py.bind].
  intros H. injection H as <-.
  split; [apply py_max_l|].
  apply py_max_lub; [lra | apply py_min_l].
Qed.

(** What [generate] can return: the score is within [0, 1] and is 0 with
    side NONE; a CALL is only issued in an uptrend with the RSI inside the
    long zone and below the overbought level, a PUT only in a downtrend with
    the RSI inside the short zone and above the oversold level; and the
    reason is "ok" exactly for CALL and PUT. *)
Theorem generate_signal_discipline (self : TrendPullbackStrategy) (c : Candle)
  (ind : Indicators) (s : Signal)
  (Hgen : generate self c ind = Py.Ok s) :
  0 <= score s /\ score s <= 1 /\
  (side s = NONE -> score s = 0 /\ reason s <> ok) /\
  (side s = CALL ->
   reason s = ok /\
   exists ef es r,
     ema_fast ind = Some ef /\ ema_slow ind = Some es /\ rsi ind = Some r /\
     es < ef /\ r < rsi_overbought self /\
     fst (rsi_long_zone self) <= r /\ r <= snd (rsi_long_zone self)) /\
  (side s = PUT ->
   reason s = ok /\
   exists ef es r,
     ema_fast ind = Some ef /\ ema_slow ind = Some es /\ rsi ind = Some r /\
     ef < es /\ rsi_oversold self < r /\
     fst (rsi_short_zone self) <= r /\ r <= snd (rsi_short_zone self)).
Proof.
  assert (forall rs, s = none rs -> rs <> ok ->
            0 <= score s /\ score s <= 1 /\
            (side s = NONE -> score s = 0 /\ reason s <> ok) /\
            (side s = CALL -> reason s = ok /\
               exists ef es r,
                 ema_fast ind = Some ef /\ ema_slow ind = Some es /\ rsi ind = Some r /\
                 es < ef /\ r < rsi_overbought self /\
                 fst (rsi_long_zone self) <= r /\ r <= snd (rsi_long_zone self)) /\
            (side s = PUT -> reason s = ok /\
               exists ef es r,
                 ema_fast ind = Some ef /\ ema_slow ind = Some es /\ rsi ind = Some r /\
                 ef < es /\ rsi_oversold self < r /\
                 fst (rsi_short_zone self) <= r /\ r <= snd (rsi_short_zone self)))
    as Hnone.
  { intros rs -> Hrs. simpl.
    split; [lra|]. split; [lra|].
    split; [intros _; split; [reflexivity | exact Hrs]|].
    split; intros H; discriminate H. }
  unfold generate in Hgen.
  destruct (ema_fast ind) as [ef|] eqn:Ef;
    [|injection Hgen as <-; apply (Hnone indicators_not_ready); [reflexivity|discriminate]].
  destruct (ema_slow ind) as [es|] eqn:Es;
    [|injection Hgen as <-; apply (Hnone indicators_not_ready); [reflexivity|discriminate]].
  destruct (atr ind) as [a|] eqn:Ea;
    [|injection Hgen as <-; apply (Hnone indicators_not_ready); [reflexivity|discriminate]].
  destruct (rsi ind) as [r|] eqn:Er;
    [|injection Hgen as <-; apply (Hnone indicators_not_ready); [reflexivity|discriminate]].
  cbv zeta in Hgen.
  destruct (Py.leb (close c) 0);
    [injection Hgen as <-; apply (Hnone invalid_price); [reflexivity|discriminate]|].
  destruct (negb (Py.gtb ef es || Py.ltb ef es)) eqn:Edir;
    [injection Hgen as <-; apply (Hnone no_trend); [reflexivity|discriminate]|].
  destruct (Py.div a (close c)) as [ap|e]; [|discriminate Hgen]. cbn [Py.bind] in Hgen.
  destruct (Py.ltb ap (min_atr_pct self));
    [injection Hgen as <-; apply (Hnone (atr_too_low ap)); [reflexivity|discriminate]|].
  destruct (Py.div (Qabs (ef - es)) (close c)) as [sp|e]; [|discriminate Hgen].
  cbn [Py.bind] in Hgen.
  destruct (Py.ltb sp (min_ema_spread_pct self));
    [injection Hgen as <-; apply (Hnone (ema_spread_too_low sp)); [reflexivity|discriminate]|].
  destruct (Py.geb r (rsi_overbought self) && Py.gtb ef es) eqn:Eob;
    [injection Hgen as <-; apply (Hnone rsi_overbought_skip); [reflexivity|discriminate]|].
  destruct (Py.leb r (rsi_oversold self) && Py.ltb ef es) eqn:Eos;
    [injection Hgen as <-; apply (Hnone rsi_oversold_skip); [reflexivity|discriminate]|].
  destruct (negb (Py.leb (fst (zone self (Py.gtb ef es))) r
                  && Py.leb r (snd (zone self (Py.gtb ef es))))) eqn:Ezone.
  { injection Hgen as <-. destruct (Py.gtb ef es).
    - apply (Hnone rsi_not_in_long_zone); [reflexivity|discriminate].
    - apply (Hnone rsi_not_in_short_zone); [reflexivity|discriminate]. }
  destruct (score_of self _ sp ap r) as [sc|e] eqn:Esc; [|discriminate Hgen].
  cbn [Py.bind] in Hgen. injection Hgen as <-. cbn [side score reason].
  apply score_of_bounds in Esc. destruct Esc as [S0 S1].
  apply negb_false_iff, andb_true_iff in Ezone. destruct Ezone as [Z1 Z2].
  apply py_leb_true in Z1, Z2.
  apply negb_false_iff in Edir.
  unfold Py.gtb, Py.geb in *.
  destruct (Py.ltb es ef) eqn:Eup.
  - apply py_ltb_true in Eup. rewrite andb_true_r in Eob. apply py_leb_false in Eob.
    cbn [zone] in Z1, Z2.
    split; [exact S0|]. split; [exact S1|].
    split; [intros H; discriminate H|].
    split; [|intros H; discriminate H].
    intros _. split; [reflexivity|]. exists ef, es, r. repeat split; assumption.
  - cbn [orb] in Edir. rewrite Edir, andb_true_r in Eos.
    apply py_ltb_true in Edir. apply py_leb_false in Eos.
    cbn [zone] in Z1, Z2.
    split; [exact S0|]. split; [exact S1|].
    split; [intros H; discriminate H|].
    split; [intros H; discriminate H|].
    intros _. split; [reflexivity|]. exists ef, es, r. repeat split; assumption.
Qed.

Lemma generate_signal_discipline_witness :
  exists s,
    generate default (mkCandle "R_75" 60 0 100 100 100 100 1)
             (mkIndicators (Some (999 # 10)) (Some 100) (Some (2 # 10)) (Some (475 # 10)))
    = Py.Ok s /\
    side s = PUT /\ 0 <= score s /\ score s <= 1.
Proof.
  eexists. split; [vm_compute; reflexivity|]. split; [reflexivity|].
  destruct (@generate_signal_discipline default (mkCandle "R_75" 60 0 100 100 100 100 1)
              (mkIndicators (Some (999 # 10)) (Some 100) (Some (2 # 10)) (Some (475 # 10)))
              _ eq_refl) as (H0 & H1 & _).
  split; [exact H0 | exact H1].
Defined.

(** [generate] raises nothing but [ZeroDivisionError], and only for a
    strategy one of whose two floors is zero. *)
Theorem generate_raises_only_on_zero_floor (self : TrendPullbackStrategy) (c : Candle)
  (ind : Indicators) (e : Py.exn)
  (Hraise : generate self c ind = Py.Raise e) :
  e = Py.ZeroDivisionError /\
  (min_ema_spread_pct self == 0 \/ min_atr_pct self == 0).
Proof.
  unfold generate in Hraise.
  destruct (ema_fast ind) as [ef|]; [|discriminate Hraise].
  destruct (ema_slow ind) as [es|]; [|discriminate Hraise].
  destruct (atr ind) as [a|]; [|discriminate Hraise].
  destruct (rsi ind) as [r|]; [|discriminate Hraise].
  cbv zeta in Hraise.
  destruct (Py.leb (close c) 0) eqn:Ep; [discriminate Hraise|].
  apply py_leb_false in Ep.
  destruct (negb _); [discriminate Hraise|].
  rewrite py_div_ok in Hraise by lra. cbn [Py.bind] in Hraise.
  destruct (Py.ltb _ (min_atr_pct self)); [discriminate Hraise|].
  rewrite py_div_ok in Hraise by lra. cbn [Py.bind] in Hraise.
  destruct (Py.ltb _ (min_ema_spread_pct self)); [discriminate Hraise|].
  destruct (_ && _); [discriminate Hraise|].
  destruct (_ && _); [discriminate Hraise|].
  destruct (negb _); [discriminate Hraise|].
  unfold score_of, Py.div in Hraise.
  destruct (Qeq_bool (min_ema_spread_pct self * 4) 0) eqn:E1.
  { apply Qeq_bool_eq in E1. injection Hraise as <-. split; [reflexivity|]. left. lra. }
  cbn [Py.bind] in Hraise.
  destruct (Qeq_bool (min_atr_pct self * 4) 0) eqn:E2.
  { apply Qeq_bool_eq in E2. injection Hraise as <-. split; [reflexivity|]. right. lra. }
  cbn [Py.bind] in Hraise.
  destruct (Qeq_bool (zone_half _) 0) eqn:E3.
  { apply Qeq_bool_eq in E3. exfalso.
    pose proof (py_max_r ((snd (zone self (Py.gtb ef es)) - fst (zone self (Py.gtb ef es))) / 2)
                         (1 # 1000000000)) as Hpos.
    unfold zone_half in E3. lra. }
  cbn [Py.bind] in Hraise. discriminate Hraise.
Qed.

Lemma generate_raises_only_on_zero_floor_witness :
  generate (mkStrategy 0 (5 # 10000) (45, 60) (40, 55) 70 30)
           (mkCandle "R_75" 60 0 100 100 100 100 1)
           (mkIndicators (Some (1001 # 10)) (Some 100) (Some (2 # 10)) (Some (525 # 10)))
  = Py.Raise Py.ZeroDivisionError /\
  (min_ema_spread_pct (mkStrategy 0 (5 # 10000) (45, 60) (40, 55) 70 30) == 0 \/
   min_atr_pct (mkStrategy 0 (5 # 10000) (45, 60) (40, 55) 70 30) == 0).
Proof.
  split; [vm_compute; reflexivity|].
  apply (@generate_raises_only_on_zero_floor
           (mkStrategy 0 (5 # 10000) (45, 60) (40, 55) 70 30)
           (mkCandle "R_75" 60 0 100 100 100 100 1)
           (mkIndicators (Some (1001 # 10)) (Some 100) (Some (2 # 10)) (Some (525 # 10)))
           Py.ZeroDivisionError).
  vm_compute. reflexivity.
Defined.

End ScorerCoverage.

(** ** More on the risk firewall and the position sizer *)

Section RiskCoverage.
Import risk_firewall.

Lemma consecutive_loss_decision_cooldown (clk : Clock) (self : RiskFirewall)
  (s : RiskSnapshot) (d : RiskDecision) :
  consecutive_loss_decision clk self s = Py.Ok d ->
  (0 <= cooldown_remaining_sec d)%Z.
Proof.
  unfold consecutive_loss_decision.
  destruct (last_trade_closed_at_iso s) as [iso|];
    [|intros H; injection H as <-; simpl; lia].
  destruct (Py.truthy (Some iso)); [|intros H; injection H as <-; simpl; lia].
  destruct (elapsed clk iso) as [e|x]; cbn [Py.bind]; [|discriminate].
  destruct (Z.ltb_spec 0 (remaining self e)) as [Hpos|Hnot];
    intros H; injection H as <-; simpl; lia.
Qed.

(** Soundness of the firewall.  The cooldown it reports is never negative,
    and a snapshot is allowed only when every limit holds: peak equity
    positive, drawdown and daily loss strictly below their maxima, trade
    count and consecutive losses strictly below theirs; the decision is then
    ("ok", cooldown 0). *)
Theorem check_allows_only_within_limits (clk : Clock) (self self' : RiskFirewall)
  (s : RiskSnapshot) (d : RiskDecision)
  (Hcheck : check clk self s = Py.Ok (self', d)) :
  (0 <= cooldown_remaining_sec d)%Z /\
  (allowed d = true ->
   exists start,
     _daily_start_equity self' = Some start /\
     passes_first_four self start s /\
     (consecutive_losses s < max_consecutive_losses self)%Z /\
     d = mkDecision true ok 0).
Proof.
  destruct (reset_daily_keeps_limits clk self s) as (Ldd & Lloss & Ltr & Lcl & _).
  unfold check in Hcheck. rewrite Ldd, Lloss, Ltr, Lcl in Hcheck. unfold Py.geb in Hcheck.
  destruct (Py.leb (peak_equity s) 0) eqn:Epeak.
  { injection Hcheck as <- <-. simpl. split; [lia | discriminate]. }
  destruct (Py.leb (max_drawdown_total self) (drawdown s)) eqn:Edd.
  { injection Hcheck as <- <-. simpl. split; [lia | discriminate]. }
  destruct (_daily_start_equity (reset_daily_if_needed clk self s)) as [start|] eqn:Es;
    [|discriminate Hcheck].
  destruct (Py.leb (max_loss_daily self) (daily_loss start s)) eqn:Eloss.
  { injection Hcheck as <- <-. simpl. split; [lia | discriminate]. }
  destruct (Z.leb_spec (max_trades_daily self) (trades_today s)) as [Etr|Etr].
  { injection Hcheck as <- <-. simpl. split; [lia | discriminate]. }
  destruct (Z.leb_spec (max_consecutive_losses self) (consecutive_losses s)) as [Ecl|Ecl].
  { destruct (consecutive_loss_decision clk (reset_daily_if_needed clk self s) s)
      as [d0|x] eqn:Ed; cbn [Py.bind] in Hcheck; [|discriminate Hcheck].
    injection Hcheck as <- <-.
    split; [apply (consecutive_loss_decision_cooldown _ _ _ Ed)|].
    rewrite (consecutive_loss_decision_rejects _ _ _ Ed). discriminate. }
  injection Hcheck as <- <-. simpl. split; [lia|]. intros _.
  apply py_leb_false in Epeak, Edd, Eloss.
  exists start. split; [exact Es|]. split; [|split; [exact Ecl | reflexivity]].
  unfold passes_first_four. repeat split; assumption.
Qed.

Lemma check_allows_only_within_limits_witness :
  exists start,
    _daily_start_equity (mkFirewall (1 # 10) (5 # 100) 50 5 30 0 (Some 1000)) = Some start /\
    passes_first_four cooldown_firewall start (mkSnapshot 990 990 1000 0 3 1 None) /\
    (consecutive_losses (mkSnapshot 990 990 1000 0 3 1 None)
     < max_consecutive_losses cooldown_firewall)%Z /\
    mkDecision true ok 0 = mkDecision true ok 0.
Proof.
  apply (@check_allows_only_within_limits
           cooldown_clock
           (mkFirewall (1 # 10) (5 # 100) 50 5 30 0 (Some 1000))
           (mkFirewall (1 # 10) (5 # 100) 50 5 30 0 (Some 1000))
           (mkSnapshot 990 990 1000 0 3 1 None)
           (mkDecision true ok 0)).
  - reflexivity.
  - reflexivity.
Defined.

(** The day-start equity.  Every returning [check] leaves the firewall on
    the clock's day with a day-start equity set: the snapshot's equity when
    the day changed or none was set yet, and the value already stored
    otherwise, whatever the equity of the later snapshot. *)
Theorem daily_start_equity_fixed_per_day (clk : Clock) (self self' : RiskFirewall)
  (s : RiskSnapshot) (d : RiskDecision)
  (Hcheck : check clk self s = Py.Ok (self', d)) :
  _day self' = today clk /\
  exists start,
    _daily_start_equity self' = Some start /\
    (today clk <> _day self -> start = equity s) /\
    (_daily_start_equity self = None -> start = equity s) /\
    (today clk = _day self ->
     forall kept, _daily_start_equity self = Some kept -> start = kept).
Proof.
  assert (self' = reset_daily_if_needed clk self s) as ->.
  { unfold check in Hcheck.
    destruct (Py.leb _ _); [injection Hcheck as <- _; reflexivity|].
    destruct (Py.geb _ _); [injection Hcheck as <- _; reflexivity|].
    destruct (_daily_start_equity _); [|discriminate Hcheck].
    destruct (Py.geb _ _); [injection Hcheck as <- _; reflexivity|].
    destruct (_ <=? _)%Z; [injection Hcheck as <- _; reflexivity|].
    destruct (_ <=? _)%Z; [|injection Hcheck as <- _; reflexivity].
    destruct (consecutive_loss_decision _ _ _); cbn [Py.bind] in Hcheck;
      [|discriminate Hcheck].
    injection Hcheck as <- _. reflexivity. }
  unfold reset_daily_if_needed.
  destruct (Z.eqb_spec (today clk) (_day self)) as [Eday|Eday]; cbn [negb].
  - destruct (_daily_start_equity self) as [kept|] eqn:Ek; cbn.
    + rewrite Ek. split; [congruence|]. exists kept. split; [reflexivity|].
      split; [intros H; contradiction|]. split; [intros H; discriminate H|].
      intros _ k Hk. congruence.
    + split; [congruence|]. exists (equity s). split; [reflexivity|].
      split; [reflexivity|]. split; [reflexivity|].
      intros _ k Hk. discriminate Hk.
  - cbn. split; [reflexivity|]. exists (equity s). split; [reflexivity|].
    split; [reflexivity|]. split; [reflexivity|]. intros H. contradiction.
Qed.

Lemma daily_start_equity_fixed_per_day_witness :
  _day (mkFirewall (1 # 10) (5 # 100) 50 5 30 0 (Some 1000)) = 0%Z /\
  exists start,
    _daily_start_equity (mkFirewall (1 # 10) (5 # 100) 50 5 30 0 (Some 1000)) = Some start /\
    (0%Z <> 0%Z -> start = 990) /\
    (Some 1000 = None -> start = 990) /\
    (0%Z = 0%Z -> forall kept, Some 1000 = Some kept -> start = kept).
Proof.
  apply (@daily_start_equity_fixed_per_day
           cooldown_clock
           (mkFirewall (1 # 10) (5 # 100) 50 5 30 0 (Some 1000))
           (mkFirewall (1 # 10) (5 # 100) 50 5 30 0 (Some 1000))
           (mkSnapshot 990 990 1000 0 3 1 None)
           (mkDecision true ok 0)).
  reflexivity.
Defined.

End RiskCoverage.

Section SizerCoverage.
Import position_sizer.

Lemma round_half_even_mono (p q : Q) :
  p <= q -> (Py.round_half_even p <= Py.round_half_even q)%Z.
Proof.
  intros H. pose proof (Qfloor_resp_le _ _ H) as Hf.
  assert (forall x, (Qfloor x <= Py.round_half_even x <= Qfloor x + 1)%Z) as Hb.
  { intros x. unfold Py.round_half_even.
    destruct (Qlt_le_dec _ _); [lia|]. destruct (Qlt_le_dec _ _); [lia|].
    destruct (Z.even _); lia. }
  destruct (Z.eq_dec (Qfloor p) (Qfloor q)) as [E|N].
  - unfold Py.round_half_even. rewrite E.
    destruct (Qlt_le_dec (p - inject_Z (Qfloor q)) (1 # 2));
      destruct (Qlt_le_dec (q - inject_Z (Qfloor q)) (1 # 2));
      destruct (Qlt_le_dec (1 # 2) (p - inject_Z (Qfloor q)));
      destruct (Qlt_le_dec (1 # 2) (q - inject_Z (Qfloor q)));
      destruct (Z.even (Qfloor q));
      first [lia | exfalso; lra].
  - pose proof (Hb p). pose proof (Hb q). lia.
Qed.

Lemma round2_mono (p q : Q) : p <= q -> Py.round2 p <= Py.round2 q.
Proof.
  intros H. unfold Py.round2, Qdiv. change (/ 100) with (1 # 100).
  assert (p * 100 <= q * 100) as H' by lra.
  apply round_half_even_mono in H'. rewrite Zle_Qle in H'. lra.
Qed.

Lemma py_min_mono_r (a x y : Q) : x <= y -> Py.min a x <= Py.min a y.
Proof.
  intros H. unfold Py.min.
  destruct (Qlt_le_dec x a); destruct (Qlt_le_dec y a); lra.
Qed.

Lemma py_max_mono_r (a x y : Q) : x <= y -> Py.max a x <= Py.max a y.
Proof.
  intros H. unfold Py.max.
  destruct (Qlt_le_dec a x); destruct (Qlt_le_dec a y); lra.
Qed.

(** The risk percentage is a blend of the base and the high-score rate,
    capped: with rates and cap that are not negative it lies between 0 and
    the cap for every score the sizer accepts. *)
Lemma risk_pct_nonneg (self : PositionSizer) (score : Q) :
  0 <= risk_base self -> 0 <= risk_high self -> 0 <= risk_cap self ->
  score_min self <= score ->
  0 <= risk_pct self score.
Proof.
  intros Hb Hh Hc Hs. unfold risk_pct, Py.geb.
  destruct (Py.leb (score_high self) score) eqn:E.
  - apply py_min_glb; assumption.
  - apply py_leb_false in E. apply py_min_glb; [|assumption].
    set (m := Py.max (score_high self - score_min self) (1 # 1000000000)).
    assert (0 < m) as Hm.
    { pose proof (py_max_r (score_high self - score_min self) (1 # 1000000000)).
      fold m in H. lra. }
    assert (score_high self - score_min self <= m) as Hd by apply py_max_l.
    set (t := (score - score_min self) / m).
    assert (0 <= t) as T0 by (apply Qle_shift_div_l; lra).
    assert (t <= 1) as T1 by (apply Qle_shift_div_r; lra).
    assert (0 <= (1 - t) * risk_base self) by (apply Qmult_le_0_compat; lra).
    assert (0 <= t * risk_high self) by (apply Qmult_le_0_compat; lra).
    lra.
Qed.

(** A larger balance never yields a smaller stake: for rates and cap that
    are not negative and an accepted score, the returned stake is monotone
    in the balance. *)
Theorem stake_monotone_in_balance (self : PositionSizer) (b1 b2 score : Q)
  (Hbase : 0 <= risk_base self) (Hhigh : 0 <= risk_high self)
  (Hcap : 0 <= risk_cap self)
  (Hscore : score_min self <= score)
  (Hpos : 0 < b1) (Hle : b1 <= b2) :
  allowed (compute self b1 score) = true /\
  allowed (compute self b2 score) = true /\
  stake (compute self b1 score) <= stake (compute self b2 score).
Proof.
  unfold compute.
  rewrite (proj2 (py_leb_false b1 0)) by lra.
  rewrite (proj2 (py_leb_false b2 0)) by lra.
  rewrite (proj2 (py_ltb_false score (score_min self))) by exact Hscore.
  cbn [allowed stake]. split; [reflexivity|]. split; [reflexivity|].
  apply round2_mono. unfold clamped_stake.
  apply py_max_mono_r, py_min_mono_r.
  pose proof (@risk_pct_nonneg self score Hbase Hhigh Hcap Hscore) as Hr.
  assert (0 <= (b2 - b1) * risk_pct self score) by (apply Qmult_le_0_compat; lra).
  lra.
Qed.

Lemma stake_monotone_in_balance_witness :
  allowed (compute fractional_sizer 10000 (6 # 10)) = true /\
  allowed (compute fractional_sizer 20000 (6 # 10)) = true /\
  stake (compute fractional_sizer 10000 (6 # 10))
  <= stake (compute fractional_sizer 20000 (6 # 10)).
Proof.
  apply (@stake_monotone_in_balance fractional_sizer 10000 20000 (6 # 10));
    vm_compute; discriminate || reflexivity.
Defined.

End SizerCoverage.

(** ** Higher-timeframe trend *)

Section TrendCoverage.
Import market_models higher_tf_trend.

Lemma deque_append_shape (maxlen : Z) (buf : list Candle) (c : Candle) :
  (0 < maxlen)%Z ->
  (exists pre, deque_append maxlen buf c = pre ++ [c]) /\
  List.length (deque_append maxlen buf c)
  = Nat.min (List.length buf + 1) (Nat.max (List.length buf) (Z.to_nat maxlen)).
Proof.
  intros Hm. unfold deque_append.
  destruct (Z.leb_spec maxlen (Z.of_nat (List.length buf))) as [Hfull|Hroom].
  - split; [eexists; reflexivity|].
    destruct buf as [|b rest]; [simpl in Hfull; lia|].
    simpl tl. rewrite length_app. cbn [List.length] in *. lia.
  - split; [eexists; reflexivity|].
    rewrite length_app. simpl List.length. lia.
Qed.

Lemma last_n_snoc (n : Z) (pre : list Candle) (c : Candle) :
  (1 <= n)%Z -> exists m, last_n n (pre ++ [c]) = m ++ [c].
Proof.
  intros Hn. unfold last_n. rewrite length_app. simpl List.length.
  exists (skipn (List.length pre + 1 - Z.to_nat n) pre).
  rewrite skipn_app.
  replace (List.length pre + 1 - Z.to_nat n - List.length pre)%nat with 0%nat by lia.
  reflexivity.
Qed.

Lemma snoc_two (A : Type) (l older : list A) (x y z : A) :
  l ++ [x] = older ++ [y; z] -> l = older ++ [y] /\ x = z.
Proof.
  intros H. change (older ++ [y; z]) with (older ++ [y] ++ [z]) in H.
  rewrite app_assoc in H. apply app_inj_tail in H. exact H.
Qed.

(** One more candle keeps the bookkeeping of the trend object. *)
Lemma add_1m_candle_inv (n : Z) (fed : list Candle) (s : HigherTimeframeTrend)
  (c : Candle) :
  (1 <= n)%Z -> fed_inv n fed s ->
  exists s', add_1m_candle s c = Py.Ok s' /\ fed_inv n (fed ++ [c]) s'.
Proof.
  intros Hn (En & Hlen & Hnew & Hl0 & Hl1 & Hp0 & Hp1).
  unfold add_1m_candle. rewrite En. cbv zeta.
  destruct (@deque_append_shape (n * 3) (_buffer s) c) as [[pre Epre] Elen]; [lia|].
  assert (List.length (deque_append (n * 3) (_buffer s) c)
          = Nat.min (List.length fed + 1) (Z.to_nat (n * 3))) as Elen' by lia.
  assert (fed_tail : forall older x, fed ++ [c] = older ++ [x] -> x = c).
  { intros older x H. apply app_inj_tail in H. destruct H as [_ H]. congruence. }
  destruct (Z.ltb_spec (Z.of_nat (List.length (deque_append (n * 3) (_buffer s) c))) n)
    as [Hshort|Hlong].
  - (* still fewer than n candles *)
    eexists. split; [reflexivity|].
    unfold fed_inv. cbn [_n _buffer _last_htf _prev_htf].
    rewrite (length_app fed [c]). cbn [List.length].
    split; [reflexivity|]. split; [exact Elen'|].
    split; [intros older x H; rewrite (fed_tail _ _ H); exists pre; exact Epre|].
    split; [intros _; apply Hl0; lia|].
    split; [intros H; lia|].
    split; [intros _; apply Hp0; lia|].
    intros H; lia.
  - (* an aggregated candle is built *)
    destruct (@last_n_snoc n pre c Hn) as [m Em].
    rewrite Epre, Em.
    destruct (m ++ [c]) as [|first rest] eqn:Echunk;
      [destruct m; discriminate Echunk|].
    cbn [max_high min_low Py.bind].
    eexists. split; [reflexivity|].
    assert (last (first :: rest) first = c) as Elast.
    { rewrite <- Echunk. apply last_last. }
    unfold fed_inv. cbn [_n _buffer _last_htf _prev_htf].
    rewrite (length_app fed [c]). cbn [List.length].
    split; [reflexivity|]. split; [rewrite <- Epre; exact Elen'|].
    split; [intros older x H; rewrite (fed_tail _ _ H); exists pre; reflexivity|].
    split; [intros H; lia|].
    split.
    { intros _. eexists. split; [reflexivity|].
      intros older x H. cbn [agg_close]. rewrite Elast, (fed_tail _ _ H). reflexivity. }
    split.
    { intros H. apply Hl0. lia. }
    intros H. destruct Hl1 as (a & Ea & Ha); [lia|].
    exists a. split; [exact Ea|].
    intros older y x Hxy. apply snoc_two in Hxy. destruct Hxy as [Hfed _].
    apply (Ha older y Hfed).
Qed.

Lemma feed_inv (n : Z) (more : list Candle) :
  (1 <= n)%Z ->
  forall fed s, fed_inv n fed s ->
  exists s', feed s more = Py.Ok s' /\ fed_inv n (fed ++ more) s'.
Proof.
  intros Hn. induction more as [|c rest IH]; intros fed s Hinv.
  - exists s. rewrite app_nil_r. split; [reflexivity | exact Hinv].
  - destruct (@add_1m_candle_inv n fed s c Hn Hinv) as (s1 & Hadd & Hinv1).
    destruct (IH (fed ++ [c]) s1 Hinv1) as (s2 & Hfeed & Hinv2).
    exists s2. simpl. rewrite Hadd. cbn [Py.bind].
    split; [exact Hfeed|]. rewrite <- app_assoc in Hinv2. exact Hinv2.
Qed.

Lemma new_inv (blocks : Z) : fed_inv (Z.max 1 blocks) [] (new blocks).
Proof.
  unfold fed_inv, new. cbn.
  split; [reflexivity|]. split; [reflexivity|].
  split; [intros older x H; destruct older; discriminate H|].
  split; [reflexivity|]. split; [intros H; lia|].
  split; [reflexivity|]. intros H; lia.
Qed.

(** The trend object never raises, never buffers more than 3 n candles,
    and reports "neutral" until more than n candles have been fed. *)
Theorem trend_neutral_until_warm (blocks : Z) (candles : list Candle) :
  exists s,
    feed (new blocks) candles = Py.Ok s /\
    (Z.of_nat (List.length (_buffer s)) <= Z.max 1 blocks * 3)%Z /\
    ((Z.of_nat (List.length candles) <= Z.max 1 blocks)%Z ->
     get_trend s = neutral /\
     forall side allow, is_aligned s side allow = allow).
Proof.
  destruct (@feed_inv (Z.max 1 blocks) candles (Z.le_max_l 1 blocks) [] (new blocks)
              (new_inv blocks)) as (s & Hfeed & Hinv).
  simpl in Hinv. destruct Hinv as (_ & Hlen & _ & _ & _ & Hp0 & _).
  exists s. split; [exact Hfeed|]. split; [lia|].
  intros Hfew. assert (get_trend s = neutral) as Hn.
  { unfold get_trend. rewrite (Hp0 Hfew). destruct (_last_htf s); reflexivity. }
  split; [exact Hn|]. intros side allow. unfold is_aligned. rewrite Hn. reflexivity.
Qed.

Lemma trend_neutral_until_warm_witness :
  exists s,
    feed (new 5) [mkCandle "R_75" 60 0 100 101 99 100 5;
                  mkCandle "R_75" 60 60 100 102 100 101 7] = Py.Ok s /\
    (Z.of_nat (List.length (_buffer s)) <= Z.max 1 5 * 3)%Z /\
    get_trend s = neutral.
Proof.
  destruct (@trend_neutral_until_warm 5
              [mkCandle "R_75" 60 0 100 101 99 100 5;
               mkCandle "R_75" 60 60 100 102 100 101 7])
    as (s & Hfeed & Hlen & Hn).
  exists s. split; [exact Hfeed|]. split; [exact Hlen|].
  apply Hn. simpl. lia.
Defined.

(** Once at least n candles came before the newest one, the trend compares
    the closes of the two newest 1m candles: bullish when the newest close
    is the higher one, bearish when it is the lower one, neutral when they
    are equal. *)
Theorem trend_compares_last_two_closes (blocks : Z) (older : list Candle)
  (y x : Candle)
  (Hwarm : (Z.max 1 blocks <= Z.of_nat (List.length older) + 1)%Z) :
  exists s,
    feed (new blocks) (older ++ [y; x]) = Py.Ok s /\
    (close y < close x -> get_trend s = bullish) /\
    (close x < close y -> get_trend s = bearish) /\
    (close x == close y -> get_trend s = neutral).
Proof.
  destruct (@feed_inv (Z.max 1 blocks) (older ++ [y; x]) (Z.le_max_l 1 blocks) []
              (new blocks) (new_inv blocks)) as (s & Hfeed & Hinv).
  simpl app in Hinv. destruct Hinv as (_ & _ & _ & _ & Hl1 & _ & Hp1).
  rewrite length_app in Hl1, Hp1. simpl List.length in Hl1, Hp1.
  destruct Hl1 as (a & Ea & Ha); [lia|]. destruct Hp1 as (p & Ep & Hp); [lia|].
  pose proof (Ha (older ++ [y]) x) as Hax.
  rewrite <- app_assoc in Hax. specialize (Hax eq_refl).
  pose proof (Hp older y x eq_refl) as Hpy.
  exists s. split; [exact Hfeed|].
  unfold get_trend, Py.gtb. rewrite Ea, Ep, Hax, Hpy.
  split; [|split]; intros H.
  - rewrite (proj2 (py_ltb_true _ _)) by exact H. reflexivity.
  - rewrite (proj2 (py_ltb_false (close y) (close x))) by lra.
    rewrite (proj2 (py_ltb_true _ _)) by exact H. reflexivity.
  - rewrite (proj2 (py_ltb_false (close y) (close x))) by lra.
    rewrite (proj2 (py_ltb_false (close x) (close y))) by lra. reflexivity.
Qed.

Lemma trend_compares_last_two_closes_witness :
  exists s,
    feed (new 2) ([mkCandle "R_75" 60 0 100 101 99 100 5]
                  ++ [mkCandle "R_75" 60 60 100 102 100 101 7;
                      mkCandle "R_75" 60 120 101 103 100 102 4]) = Py.Ok s /\
    get_trend s = bullish.
Proof.
  destruct (@trend_compares_last_two_closes 2
              [mkCandle "R_75" 60 0 100 101 99 100 5]
              (mkCandle "R_75" 60 60 100 102 100 101 7)
              (mkCandle "R_75" 60 120 101 103 100 102 4))
    as (s & Hfeed & Hup & _).
  - simpl. lia.
  - exists s. split; [exact Hfeed|]. apply Hup. reflexivity.
Defined.

End TrendCoverage.

(** ** Support / resistance and TP / SL amounts *)

Section LevelsCoverage.
Import market_models support_resistance.

Lemma fold_min_spec (rest : list Q) :
  forall x,
    fold_left Py.min rest x <= x /\
    (forall y, In y rest -> fold_left Py.min rest x <= y) /\
    (fold_left Py.min rest x = x \/ In (fold_left Py.min rest x) rest).
Proof.
  induction rest as [|z rest IH]; intros x; simpl.
  - split; [lra|]. split; [intros y []|]. left. reflexivity.
  - destruct (IH (Py.min x z)) as (H1 & H2 & H3).
    pose proof (py_min_l x z). pose proof (py_min_r x z).
    split; [lra|]. split.
    + intros y [<-|Hy]; [lra | apply H2, Hy].
    + destruct H3 as [E|Hin]; [|right; right; exact Hin].
      rewrite E. unfold Py.min. destruct (Qlt_le_dec z x); [right; left|left]; reflexivity.
Qed.

Lemma fold_max_spec (rest : list Q) :
  forall x,
    x <= fold_left Py.max rest x /\
    (forall y, In y rest -> y <= fold_left Py.max rest x) /\
    (fold_left Py.max rest x = x \/ In (fold_left Py.max rest x) rest).
Proof.
  induction rest as [|z rest IH]; intros x; simpl.
  - split; [lra|]. split; [intros y []|]. left. reflexivity.
  - destruct (IH (Py.max x z)) as (H1 & H2 & H3).
    pose proof (py_max_l x z). pose proof (py_max_r x z).
    split; [lra|]. split.
    + intros y [<-|Hy]; [lra | apply H2, Hy].
    + destruct H3 as [E|Hin]; [|right; right; exact Hin].
      rewrite E. unfold Py.max. destruct (Qlt_le_dec x z); [right; left|left]; reflexivity.
Qed.

Lemma compute_levels_some (window : list Candle) (k : Z) :
  window <> [] -> (k <= Z.of_nat (List.length window))%Z ->
  exists s r,
    compute_levels window k = (Some s, Some r) /\
    (forall c, In c window -> s <= low c /\ high c <= r) /\
    (exists c, In c window /\ low c = s) /\
    (exists c, In c window /\ high c = r).
Proof.
  intros Hne Hk. unfold compute_levels.
  destruct window as [|c0 rest]; [contradiction|].
  destruct (Z.ltb_spec (Z.of_nat (List.length (c0 :: rest))) k) as [H|_]; [lia|].
  cbn [map min_of max_of].
  destruct (fold_min_spec (map low rest) (low c0)) as (L1 & L2 & L3).
  destruct (fold_max_spec (map high rest) (high c0)) as (M1 & M2 & M3).
  eexists. eexists. split; [reflexivity|]. split; [|split].
  - intros c [<-|Hc]; [split; assumption|].
    split; [apply L2, in_map, Hc | apply M2, in_map, Hc].
  - destruct L3 as [E|Hin].
    + exists c0. split; [left; reflexivity | symmetry; exact E].
    + apply in_map_iff in Hin. destruct Hin as (c & Ec & Hc).
      exists c. split; [right; exact Hc | exact Ec].
  - destruct M3 as [E|Hin].
    + exists c0. split; [left; reflexivity | symmetry; exact E].
    + apply in_map_iff in Hin. destruct Hin as (c & Ec & Hc).
      exists c. split; [right; exact Hc | exact Ec].
Qed.

Lemma div_le_iff (a b c : Q) : 0 < b -> (a / b <= c <-> a <= c * b).
Proof.
  intros Hb. split; intros H.
  - assert (a / b * b <= c * b) as H' by (apply Qmult_le_compat_r; lra).
    assert (a / b * b == a) as E by (field; lra). lra.
  - apply Qle_shift_div_r; assumption.
Qed.

(** The levels bracket the window.  [compute_levels] returns no level
    exactly when the window is empty or shorter than [min_candles];
    otherwise the support is the lowest low and the resistance the highest
    high of the window, both attained by one of its candles. *)
Theorem levels_bracket_window (window : list Candle) (min_candles : Z) :
  (compute_levels window min_candles = (None, None) <->
   window = [] \/ (Z.of_nat (List.length window) < min_candles)%Z) /\
  (forall s r,
     compute_levels window min_candles = (Some s, Some r) ->
     (forall c, In c window -> s <= low c /\ high c <= r) /\
     (exists c, In c window /\ low c = s) /\
     (exists c, In c window /\ high c = r)).
Proof.
  destruct window as [|c0 rest].
  - split; [split; [intros _; left; reflexivity | reflexivity]|].
    intros s r H. discriminate H.
  - destruct (Z.ltb_spec (Z.of_nat (List.length (c0 :: rest))) min_candles) as [Hshort|Hok].
    + assert (compute_levels (c0 :: rest) min_candles = (None, None)) as E.
      { unfold compute_levels.
        destruct (Z.ltb_spec (Z.of_nat (List.length (c0 :: rest))) min_candles);
          [reflexivity | lia]. }
      split; [split; [intros _; right; exact Hshort | intros _; exact E]|].
      intros s r H. rewrite E in H. discriminate H.
    + destruct (@compute_levels_some (c0 :: rest) min_candles) as (s0 & r0 & E & Hspec);
        [discriminate | exact Hok |].
      split.
      * split; [intros H; rewrite E in H; discriminate H|].
        intros [H|H]; [discriminate H | lia].
      * intros s r H. rewrite E in H. injection H as <- <-. exact Hspec.
Qed.

Lemma levels_bracket_window_witness :
  compute_levels [mkCandle "R_75" 60 0 100 103 99 101 4;
                  mkCandle "R_75" 60 60 101 102 100 100 3] 2 = (Some 99, Some 103) /\
  (exists c, In c [mkCandle "R_75" 60 0 100 103 99 101 4;
                   mkCandle "R_75" 60 60 101 102 100 100 3] /\ low c = 99) /\
  (exists c, In c [mkCandle "R_75" 60 0 100 103 99 101 4;
                   mkCandle "R_75" 60 60 101 102 100 100 3] /\ high c = 103).
Proof.
  split; [vm_compute; reflexivity|].
  destruct (@levels_bracket_window
              [mkCandle "R_75" 60 0 100 103 99 101 4;
               mkCandle "R_75" 60 60 101 102 100 100 3] 2) as [_ H].
  destruct (H 99 103) as (_ & Hs & Hr); [vm_compute; reflexivity|].
  split; assumption.
Defined.

(** The gate on the window that contains the closing candle.  With fewer
    than [min_candles] candles the gate passes every side.  Otherwise, for a
    candle of the window with low <= close <= high and a close of at least
    1e-9, a CALL passes exactly when the close is within [near_pct] of the
    support above it, a PUT exactly when it is within [near_pct] of the
    resistance below it. *)
Theorem sr_gate_distance (window : list Candle) (min_candles : Z) (c : Candle)
  (near_pct : Q)
  (Hin : In c window)
  (Hlow : low c <= close c) (Hhigh : close c <= high c)
  (Hprice : 1 # 1000000000 <= close c) :
  ((Z.of_nat (List.length window) < min_candles)%Z ->
   forall side, sr_gate window min_candles side (close c) near_pct = true) /\
  ((min_candles <= Z.of_nat (List.length window))%Z ->
   exists s r,
     compute_levels window min_candles = (Some s, Some r) /\
     s <= close c /\ close c <= r /\
     (sr_gate window min_candles "CALL" (close c) near_pct = true <->
      close c - s <= near_pct * close c) /\
     (sr_gate window min_candles "PUT" (close c) near_pct = true <->
      r - close c <= near_pct * close c)).
Proof.
  split.
  - intros Hshort side. unfold sr_gate.
    destruct (Z.leb_spec min_candles (Z.of_nat (List.length window))); [lia|].
    reflexivity.
  - intros Hok.
    destruct (@compute_levels_some window min_candles) as (s & r & E & Hbr & _ & _);
      [intros H; rewrite H in Hin; exact Hin | exact Hok |].
    destruct (Hbr c Hin) as [Hs Hr].
    exists s, r. split; [exact E|]. split; [lra|]. split; [lra|].
    assert (Py.max (close c) (1 # 1000000000) == close c) as Href.
    { unfold Py.max. destruct (Qlt_le_dec _ _); lra. }
    unfold sr_gate. rewrite E. cbn [fst snd].
    destruct (Z.leb_spec min_candles (Z.of_nat (List.length window))) as [_|Hbad];
      [|lia].
    unfold passes_sr_filter. cbn [negb orb].
    rewrite (proj2 (py_leb_false (close c) 0)) by lra.
    cbn [String.eqb Ascii.eqb Bool.eqb andb]. unfold near.
    split.
    + rewrite py_leb_true, Qabs_pos, div_le_iff, Href by lra. reflexivity.
    + rewrite py_leb_true, Qabs_neg, div_le_iff, Href by lra.
      split; intros H; lra.
Qed.

Lemma sr_gate_distance_witness :
  exists s r,
    compute_levels [mkCandle "R_75" 60 0 100 101 99 100 5;
                    mkCandle "R_75" 60 60 100 102 100 101 7] 2 = (Some s, Some r) /\
    s <= 101 /\ 101 <= r.
Proof.
  destruct (@sr_gate_distance
              [mkCandle "R_75" 60 0 100 101 99 100 5;
               mkCandle "R_75" 60 60 100 102 100 101 7] 2
              (mkCandle "R_75" 60 60 100 102 100 101 7) (3 # 1000))
    as [_ H].
  - right. left. reflexivity.
  - simpl. discriminate.
  - simpl. discriminate.
  - simpl. discriminate.
  - destruct H as (s & r & E & Hs & Hr & _); [simpl; lia|].
    exists s, r. split; [exact E|]. split; assumption.
Defined.

End LevelsCoverage.

Section TpSlCoverage.
Import tp_sl.

Lemma cents_amount (x : Q) :
  1 # 100 <= Py.max (1 # 100) (Py.round2 x) /\
  (exists k : Z, Py.max (1 # 100) (Py.round2 x) == inject_Z k / 100) /\
  x - (1 # 200) <= Py.max (1 # 100) (Py.round2 x) /\
  Py.max (1 # 100) (Py.round2 x) <= Py.max (1 # 100) (x + (1 # 200)).
Proof.
  destruct (round2_near x) as [N1 N2].
  pose proof (py_max_l (1 # 100) (Py.round2 x)) as M1.
  pose proof (py_max_r (1 # 100) (Py.round2 x)) as M2.
  split; [exact M1|]. split; [|split; [lra|]].
  - unfold Py.max. destruct (Qlt_le_dec _ _).
    + exists (Py.round_half_even (x * 100)). reflexivity.
    + exists 1%Z. reflexivity.
  - apply py_max_lub; [apply py_max_l|].
    pose proof (py_max_r (1 # 100) (x + (1 # 200))). lra.
Qed.

(** Take-profit and stop-loss amounts are whole cents of at least 0.01,
    each within half a cent of (stake floored at 0.01) times its percentage
    unless the 0.01 floor applies. *)
Theorem tp_sl_amounts_are_cents (stake take_profit_percent stop_loss_percent : Q) :
  let r := compute_tp_sl_from_stake stake take_profit_percent stop_loss_percent in
  let tp := Py.max (1 # 100) stake * take_profit_percent in
  let sl := Py.max (1 # 100) stake * stop_loss_percent in
  1 # 100 <= take_profit_usd r /\ 1 # 100 <= stop_loss_usd r /\
  (exists k : Z, take_profit_usd r == inject_Z k / 100) /\
  (exists k : Z, stop_loss_usd r == inject_Z k / 100) /\
  tp - (1 # 200) <= take_profit_usd r /\
  take_profit_usd r <= Py.max (1 # 100) (tp + (1 # 200)) /\
  sl - (1 # 200) <= stop_loss_usd r /\
  stop_loss_usd r <= Py.max (1 # 100) (sl + (1 # 200)).
Proof.
  cbv zeta. unfold compute_tp_sl_from_stake. cbn [take_profit_usd stop_loss_usd].
  destruct (cents_amount (Py.max (1 # 100) stake * take_profit_percent))
    as (T1 & T2 & T3 & T4).
  destruct (cents_amount (Py.max (1 # 100) stake * stop_loss_percent))
    as (S1 & S2 & S3 & S4).
  repeat split; assumption.
Qed.

End TpSlCoverage.

(** ** Multiplier choice *)

Section MultiplierCoverage.
Import deriv_multiplier_resolver.

Lemma closest_from_spec (rest : list Z) (preferred : Z) :
  forall best,
    (closest_from best rest preferred = best \/
     In (closest_from best rest preferred) rest) /\
    (Z.abs (closest_from best rest preferred - preferred) <= Z.abs (best - preferred))%Z /\
    (forall x, In x rest ->
       (Z.abs (closest_from best rest preferred - preferred) <= Z.abs (x - preferred))%Z).
Proof.
  induction rest as [|y rest IH]; intros best; simpl.
  - split; [left; reflexivity|]. split; [lia | intros x []].
  - destruct (Z.ltb_spec (Z.abs (y - preferred)) (Z.abs (best - preferred))) as [Hlt|Hge].
    + destruct (IH y) as (H1 & H2 & H3).
      split; [destruct H1 as [->|H1]; right; [left; reflexivity | right; exact H1]|].
      split; [lia|]. intros x [<-|Hx]; [exact H2 | apply H3, Hx].
    + destruct (IH best) as (H1 & H2 & H3).
      split; [destruct H1 as [H1|H1]; [left; exact H1 | right; right; exact H1]|].
      split; [exact H2|]. intros x [<-|Hx]; [lia | apply H3, Hx].
Qed.

Lemma closest_spec (xs : list Z) (preferred : Z) :
  xs <> [] ->
  exists m, closest xs preferred = Py.Ok m /\ In m xs /\
            forall x, In x xs -> (Z.abs (m - preferred) <= Z.abs (x - preferred))%Z.
Proof.
  intros Hne. destruct xs as [|x0 rest]; [contradiction|].
  destruct (closest_from_spec rest preferred x0) as (H1 & H2 & H3).
  eexists. split; [reflexivity|]. split.
  - destruct H1 as [->|H1]; [left; reflexivity | right; exact H1].
  - intros x [<-|Hx]; [exact H2 | apply H3, Hx].
Qed.

Lemma mem_In (x : Z) (xs : list Z) : mem x xs = true <-> In x xs.
Proof.
  unfold mem. rewrite existsb_exists. split.
  - intros (y & Hy & E). apply Z.eqb_eq in E. subst. exact Hy.
  - intros H. exists x. split; [exact H | apply Z.eqb_refl].
Qed.

Lemma moderate_prefix (allowed : list Z) :
  incl (moderate allowed) allowed.
Proof.
  unfold moderate. cbv zeta. intros x Hx.
  match type of Hx with
  | In _ (firstn ?k _) =>
      rewrite <- (firstn_skipn k allowed); apply in_or_app; left; exact Hx
  end.
Qed.

(** [pick_best_multiplier] never raises; on an empty list it falls back to
    max(1, preferred); otherwise it returns a member of [allowed], and the
    preferred value itself whenever that is allowed. *)
Theorem pick_best_is_allowed (allowed : list Z) (preferred : Z) (prefer_moderate : bool) :
  exists m,
    pick_best_multiplier allowed preferred prefer_moderate = Py.Ok m /\
    (allowed = [] -> m = Z.max 1 preferred) /\
    (allowed <> [] -> In m allowed) /\
    (In preferred allowed -> m = preferred).
Proof.
  unfold pick_best_multiplier. destruct allowed as [|a0 rest] eqn:Ea.
  - eexists. split; [reflexivity|]. split; [reflexivity|].
    split; [intros H; contradiction | intros []].
  - rewrite <- Ea. assert (allowed <> []) as Hne by (rewrite Ea; discriminate).
    destruct (mem preferred allowed) eqn:Em.
    + apply mem_In in Em. eexists. split; [reflexivity|].
      split; [intros H; contradiction|]. split; [intros _; exact Em | reflexivity].
    + assert (~ In preferred allowed) as Hnot.
      { intros H. apply mem_In in H. congruence. }
      assert (forall xs, xs <> [] -> incl xs allowed ->
                exists m, closest xs preferred = Py.Ok m /\
                          (allowed = [] -> m = Z.max 1 preferred) /\
                          (allowed <> [] -> In m allowed) /\
                          (In preferred allowed -> m = preferred)) as Hclose.
      { intros xs Hxs Hincl.
        destruct (@closest_spec xs preferred Hxs) as (m & E & Hin & _).
        exists m. split; [exact E|]. split; [intros H; contradiction|].
        split; [intros _; apply Hincl, Hin | intros H; contradiction]. }
      destruct (prefer_moderate && (1 <? Z.of_nat (List.length allowed))%Z).
      * destruct (moderate allowed) as [|m0 more] eqn:Emod.
        -- apply Hclose; [exact Hne | apply incl_refl].
        -- rewrite <- Emod. apply Hclose; [rewrite Emod; discriminate|].
           apply moderate_prefix.
      * apply Hclose; [exact Hne | apply incl_refl].
Qed.

Lemma pick_best_is_allowed_witness :
  exists m,
    pick_best_multiplier [50; 100; 200; 300; 500]%Z 10 true = Py.Ok m /\
    In m [50; 100; 200; 300; 500]%Z.
Proof.
  destruct (@pick_best_is_allowed [50; 100; 200; 300; 500]%Z 10 true)
    as (m & E & _ & Hin & _).
  exists m. split; [exact E|]. apply Hin. discriminate.
Defined.

(** When the preferred value is not allowed and [prefer_moderate] is set on
    a list of at least two values, the choice is made among the list
    without its last max(1, len // 4) entries, and it is a closest value to
    the preferred one among those. *)
Theorem pick_best_avoids_top (allowed : list Z) (preferred : Z)
  (Hnot : ~ In preferred allowed)
  (Hlen : (2 <= List.length allowed)%nat) :
  exists m,
    pick_best_multiplier allowed preferred true = Py.Ok m /\
    In m (firstn (List.length allowed
                  - Nat.max 1 (List.length allowed / 4)) allowed) /\
    forall x,
      In x (firstn (List.length allowed - Nat.max 1 (List.length allowed / 4)) allowed) ->
      (Z.abs (m - preferred) <= Z.abs (x - preferred))%Z.
Proof.
  assert (moderate allowed
          = firstn (List.length allowed - Nat.max 1 (List.length allowed / 4)) allowed)
    as Emod.
  { unfold moderate. cbv zeta. f_equal.
    assert (Z.of_nat (List.length allowed) / 4
            = Z.of_nat (List.length allowed / 4))%Z as Ediv.
    { rewrite Nat2Z.inj_div. reflexivity. }
    rewrite Ediv.
    assert (List.length allowed / 4 < List.length allowed)%nat
      by (apply Nat.div_lt; lia).
    lia. }
  assert (moderate allowed <> []) as Hne.
  { rewrite Emod. destruct allowed as [|a0 [|a1 rest]]; simpl in Hlen; try lia.
    assert (List.length (a0 :: a1 :: rest) / 4 < List.length (a0 :: a1 :: rest))%nat
      by (apply Nat.div_lt; simpl; lia).
    remember (List.length (a0 :: a1 :: rest)) as n eqn:En.
    destruct (n - Nat.max 1 (n / 4))%nat as [|k] eqn:Ek; [simpl in En; lia|].
    simpl. discriminate. }
  unfold pick_best_multiplier.
  destruct allowed as [|a0 rest] eqn:Ea; [simpl in Hlen; lia|]. rewrite <- Ea in *.
  destruct (mem preferred allowed) eqn:Em; [apply mem_In in Em; contradiction|].
  destruct (Z.ltb_spec 1 (Z.of_nat (List.length allowed))) as [_|Hbad]; [|lia].
  cbn [andb].
  destruct (@closest_spec (moderate allowed) preferred Hne) as (m & E & Hin & Hbest).
  destruct (moderate allowed) as [|m0 more] eqn:Em0; [contradiction|].
  exists m. split; [exact E|]. rewrite <- Emod. split; assumption.
Qed.

Lemma pick_best_avoids_top_witness :
  exists m,
    pick_best_multiplier [50; 100; 200; 300; 500]%Z 1000 true = Py.Ok m /\
    In m [50; 100; 200; 300]%Z.
Proof.
  destruct (@pick_best_avoids_top [50; 100; 200; 300; 500]%Z 1000)
    as (m & E & Hin & _).
  - intros H. simpl in H. intuition discriminate.
  - simpl. lia.
  - exists m. split; [exact E | exact Hin].
Defined.

(** Every multiplier [_range_to_list] lists for a numeric range lies in
    [lo, hi], and the list is empty exactly when the range is. *)
Theorem range_to_list_within (lo hi : Z) :
  (forall x, In x (_range_to_list (Some lo) (Some hi)) -> (lo <= x <= hi)%Z) /\
  (_range_to_list (Some lo) (Some hi) = [] <-> (hi < lo)%Z).
Proof.
  unfold _range_to_list.
  destruct (filter (fun x => (lo <=? x) && (x <=? hi))%Z common) as [|c0 more] eqn:Ef.
  - set (step := Z.max 1 ((hi - lo) / 10)).
    assert (1 <= step)%Z as Hstep by apply Z.le_max_l.
    set (count := ((hi + 1 - lo + step - 1) / step)%Z).
    assert (count * step <= hi + 1 - lo + step - 1 < (count + 1) * step)%Z as Hcount.
    { unfold count.
      pose proof (Z.div_mod (hi + 1 - lo + step - 1) step ltac:(lia)).
      pose proof (Z.mod_pos_bound (hi + 1 - lo + step - 1) step ltac:(lia)).
      nia. }
    unfold py_range. fold step. fold count. split.
    + intros x Hx. apply in_map_iff in Hx. destruct Hx as (k & <- & Hk).
      apply in_seq in Hk.
      assert (Z.of_nat k < count)%Z as Hkc by lia. nia.
    + split.
      * intros E. apply map_eq_nil in E.
        assert (Z.to_nat count = 0%nat) as E0.
        { destruct (Z.to_nat count); [reflexivity | discriminate E]. }
        assert (count <= 0)%Z by lia. nia.
      * intros H. assert (count <= 0)%Z as Hc by nia.
        replace (Z.to_nat count) with 0%nat by lia. reflexivity.
  - assert (forall x, In x (c0 :: more) -> (lo <= x <= hi)%Z) as Hin.
    { intros x Hx. rewrite <- Ef in Hx. apply filter_In in Hx. destruct Hx as [_ Hx].
      apply andb_true_iff in Hx. destruct Hx as [H1 H2].
      apply Z.leb_le in H1, H2. lia. }
    split; [exact Hin|]. split; [discriminate|].
    intros H. specialize (Hin c0 (or_introl eq_refl)). lia.
Qed.

End MultiplierCoverage.

(** ** Loss streak of the ledger *)

Section LedgerCoverage.
Import sqlite_repository.

Lemma scan_spec (rows : list ClosedRow) :
  forall n last,
  exists k : nat,
    fst (scan rows n last) = (n + Z.of_nat k)%Z /\
    (k <= List.length rows)%nat /\
    Forall (fun r => is_loss r = true) (firstn k rows) /\
    (forall r, nth_error rows k = Some r -> is_loss r = false).
Proof.
  induction rows as [|r rest IH]; intros n last; simpl.
  - exists 0%nat. simpl. split; [lia|]. split; [lia|]. split; [constructor|].
    intros r H. discriminate H.
  - destruct (pnl r) as [p|] eqn:Ep.
    + destruct (Py.leb p 0) eqn:El.
      * destruct (IH (n + 1)%Z
                     (match last with
                      | Some t => Some t
                      | None => if negb (exit_time r =? "")%string
                                then Some (exit_time r) else None
                      end)) as (k & H1 & H2 & H3 & H4).
        exists (S k). simpl. split; [rewrite H1; lia|]. split; [lia|].
        split; [|exact H4].
        constructor; [unfold is_loss; rewrite Ep; exact El | exact H3].
      * exists 0%nat. simpl. split; [lia|]. split; [lia|]. split; [constructor|].
        intros r' H. injection H as <-. unfold is_loss. rewrite Ep. exact El.
    + exists 0%nat. simpl. split; [lia|]. split; [lia|]. split; [constructor|].
      intros r' H. injection H as <-. unfold is_loss. rewrite Ep. reflexivity.
Qed.

(** The loss streak is the length of the run of losing trades (pnl <= 0,
    break-even included) at the head of the 20 most recent closed trades:
    it is at most 20, every trade of the run is a loss, and the run is
    either 20 long or followed by no trade or by one that is not a loss. *)
Theorem loss_streak_is_leading_run (closed : list ClosedRow) :
  exists k : nat,
    fst (get_consecutive_losses_and_last_close closed) = Z.of_nat k /\
    (k <= 20)%nat /\ (k <= List.length closed)%nat /\
    Forall (fun r => is_loss r = true) (firstn k closed) /\
    ((k < 20)%nat -> forall r, nth_error closed k = Some r -> is_loss r = false).
Proof.
  unfold get_consecutive_losses_and_last_close.
  destruct (scan_spec (firstn 20 closed) 0 None) as (k & H1 & H2 & H3 & H4).
  rewrite length_firstn in H2.
  exists k. split; [rewrite H1; lia|]. split; [lia|]. split; [lia|].
  split.
  - rewrite firstn_firstn in H3. replace (Nat.min k 20) with k in H3 by lia. exact H3.
  - intros Hk r Hr. apply H4. rewrite nth_error_firstn.
    destruct (Nat.ltb_spec k 20); [exact Hr | lia].
Qed.

Lemma loss_streak_is_leading_run_witness :
  exists k : nat,
    fst (get_consecutive_losses_and_last_close
           [mkClosed (Some (- (5))) "2026-11-03T12:02:00";
            mkClosed (Some 0) "2026-11-03T12:01:00";
            mkClosed (Some 4) "2026-11-03T12:00:00"]) = Z.of_nat k /\
    (k <= 20)%nat.
Proof.
  destruct (@loss_streak_is_leading_run
              [mkClosed (Some (- (5))) "2026-11-03T12:02:00";
               mkClosed (Some 0) "2026-11-03T12:01:00";
               mkClosed (Some 4) "2026-11-03T12:00:00"])
    as (k & E & Hk & _).
  exists k. split; [exact E | exact Hk].
Defined.

(** The close time reported with the streak is that of the most recent
    closed trade. *)
Lemma last_close_is_most_recent (r : ClosedRow) (rest : list ClosedRow) :
  exit_time r <> ""%string ->
  snd (get_consecutive_losses_and_last_close (r :: rest)) = Some (exit_time r).
Proof.
  intros Hne. unfold get_consecutive_losses_and_last_close.
  cbn [firstn scan Py.truthy].
  destruct (String.eqb_spec (exit_time r) "") as [Hempty|_]; [contradiction|].
  cbn [negb].
  assert (forall rows k t, snd (scan rows k (Some t)) = Some t) as Hkeep.
  { induction rows as [|x rows IH]; intros k t; simpl; [reflexivity|].
    destruct (pnl x); [|reflexivity]. destruct (Py.leb _ _); [apply IH | reflexivity]. }
  destruct (pnl r); [|reflexivity].
  destruct (Py.leb _ _); [apply Hkeep | reflexivity].
Qed.

Lemma last_close_is_most_recent_witness :
  snd (get_consecutive_losses_and_last_close
         [mkClosed (Some 4) "2026-11-03T12:02:00";
          mkClosed (Some (- (5))) "2026-11-03T12:01:00"])
  = Some "2026-11-03T12:02:00"%string.
Proof.
  apply (@last_close_is_most_recent
           (mkClosed (Some 4) "2026-11-03T12:02:00")
           [mkClosed (Some (- (5))) "2026-11-03T12:01:00"]).
  discriminate.
Defined.

End LedgerCoverage.

(** ** The ledger against the firewall and the executor *)

Section StreakCoverage.
Import sqlite_repository.

Lemma check_rejects_at_max (clk : risk_firewall.Clock) (self self' : risk_firewall.RiskFirewall)
  (s : risk_firewall.RiskSnapshot) (d : risk_firewall.RiskDecision) :
  (risk_firewall.max_consecutive_losses self <= risk_firewall.consecutive_losses s)%Z ->
  risk_firewall.check clk self s = Py.Ok (self', d) ->
  risk_firewall.allowed d = false.
Proof.
  intros Hmax Hcheck.
  destruct (reset_daily_keeps_limits clk self s) as (_ & _ & _ & Lcl & _).
  unfold risk_firewall.check in Hcheck. rewrite Lcl in Hcheck.
  destruct (Py.leb _ _); [injection Hcheck as _ <-; reflexivity|].
  destruct (Py.geb _ _); [injection Hcheck as _ <-; reflexivity|].
  destruct (risk_firewall._daily_start_equity _); [|discriminate Hcheck].
  destruct (Py.geb _ _); [injection Hcheck as _ <-; reflexivity|].
  destruct (_ <=? _)%Z; [injection Hcheck as _ <-; reflexivity|].
  destruct (Z.leb_spec (risk_firewall.max_consecutive_losses self)
                       (risk_firewall.consecutive_losses s)); [|lia].
  destruct (risk_firewall.consecutive_loss_decision _ _ _) as [d0|x] eqn:Ed;
    cbn [Py.bind] in Hcheck; [|discriminate Hcheck].
  injection Hcheck as _ <-. apply (consecutive_loss_decision_rejects _ _ _ Ed).
Qed.

(** A losing streak stops trading.  When the most recent closed trades of
    the ledger, as many as the configured maximum (at most 20), all have
    pnl <= 0, the firewall rejects every snapshot that carries the streak
    the ledger reports. *)
Theorem loss_streak_blocks_trading (closed : list ClosedRow) (m : nat)
  (clk : risk_firewall.Clock) (self self' : risk_firewall.RiskFirewall)
  (s : risk_firewall.RiskSnapshot) (d : risk_firewall.RiskDecision)
  (Hlosses : Forall (fun r => is_loss r = true) (firstn m closed))
  (Hrows : (m <= List.length closed)%nat)
  (Hlimit : (m <= 20)%nat)
  (Hmax : (risk_firewall.max_consecutive_losses self <= Z.of_nat m)%Z)
  (Hstreak : risk_firewall.consecutive_losses s
             = fst (get_consecutive_losses_and_last_close closed))
  (Hcheck : risk_firewall.check clk self s = Py.Ok (self', d)) :
  risk_firewall.allowed d = false.
Proof.
  apply (@check_rejects_at_max clk self self' s d); [|exact Hcheck].
  rewrite Hstreak. unfold get_consecutive_losses_and_last_close.
  destruct (scan_spec (firstn 20 closed) 0 None) as (k & H1 & H2 & _ & H4).
  rewrite H1. rewrite length_firstn in H2.
  destruct (Nat.lt_ge_cases k m) as [Hlt|Hge]; [exfalso|lia].
  destruct (nth_error closed k) as [r|] eqn:Er.
  - assert (is_loss r = false) as Hno.
    { apply H4. rewrite nth_error_firstn.
      destruct (Nat.ltb_spec k 20); [exact Er | lia]. }
    assert (is_loss r = true) as Hyes.
    { rewrite Forall_forall in Hlosses. apply Hlosses.
      apply nth_error_In with (n := k). rewrite nth_error_firstn.
      destruct (Nat.ltb_spec k m); [exact Er | lia]. }
    congruence.
  - apply nth_error_None in Er. lia.
Qed.

Lemma loss_streak_blocks_trading_witness :
  exists d,
    risk_firewall.check risk_firewall.cooldown_clock
      (risk_firewall.mkFirewall (1 # 10) (5 # 100) 50 2 30 0 (Some 1000))
      (risk_firewall.mkSnapshot 1000 1000 1000 0 3 2 None)
    = Py.Ok (risk_firewall.mkFirewall (1 # 10) (5 # 100) 50 2 30 0 (Some 1000), d) /\
    risk_firewall.allowed d = false.
Proof.
  eexists. split; [vm_compute; reflexivity|].
  apply (@loss_streak_blocks_trading
           [mkClosed (Some (- (5))) "2026-11-03T12:02:00";
            mkClosed (Some 0) "2026-11-03T12:01:00";
            mkClosed (Some 4) "2026-11-03T12:00:00"] 2
           risk_firewall.cooldown_clock
           (risk_firewall.mkFirewall (1 # 10) (5 # 100) 50 2 30 0 (Some 1000))
           (risk_firewall.mkFirewall (1 # 10) (5 # 100) 50 2 30 0 (Some 1000))
           (risk_firewall.mkSnapshot 1000 1000 1000 0 3 2 None)).
  - repeat constructor.
  - simpl. lia.
  - lia.
  - simpl. lia.
  - reflexivity.
  - reflexivity.
Defined.

(** The ledger and the executor agree on what a loss is: a trade returned by
    either entry point and closed with its profit as pnl counts towards the
    losing streak exactly when the executor did not flag it as a win. *)
Theorem ledger_loss_matches_is_win (self : order_executor.OrderExecutor)
  (side : string) (stake take_profit_usd stop_loss_usd : Q) (duration : Z)
  (duration_unit : string) (mult : Z) (sym : option string)
  (poll_sec timeout_sec : float) (t : order_executor.ExecutedTrade) (closed_at : string)
  (Hreturned :
     order_executor.execute_rise_fall self side stake duration duration_unit sym
       poll_sec timeout_sec = Py.Ok t \/
     order_executor.execute_multiplier self side stake take_profit_usd stop_loss_usd
       duration duration_unit mult sym poll_sec timeout_sec = Py.Ok t) :
  is_loss (mkClosed (Some (order_executor.profit t)) closed_at)
  = negb (order_executor.is_win t).
Proof.
  assert (order_executor.is_win t = Py.gtb (order_executor.profit t) 0) as ->.
  { destruct Hreturned as [H|H];
      [unfold order_executor.execute_rise_fall in H
      | unfold order_executor.execute_multiplier in H];
      cbv zeta in H;
      match type of H with
      | Py.bind ?m _ = _ => destruct m as [b|e]; [|discriminate H]
      end;
      simpl in H; apply wait_until_sold_is_win in H; exact H. }
  unfold is_loss, Py.gtb, Py.ltb, Py.leb. cbn [pnl].
  destruct (Qlt_le_dec 0 (order_executor.profit t)); reflexivity.
Qed.

Lemma ledger_loss_matches_is_win_witness :
  is_loss (mkClosed (Some 0) "2026-11-03T12:00:00") = negb false.
Proof.
  apply (@ledger_loss_matches_is_win
           (order_executor.mkExecutor order_executor.break_even_client "R_75" "USD")
           "CALL" 10 0 0 1 "m" 10 None 1%float 180%float
           (order_executor.mkExecuted 7 0 10 10 false) "2026-11-03T12:00:00").
  left. vm_compute. reflexivity.
Defined.

End StreakCoverage.

(** ** Kill switch *)

Section KillSwitchCoverage.
Import killswitch.

(** Persistence.  A switch built on the file a [save] wrote has the saved
    state; so after [activate] on a disabled switch a restart finds it
    enabled with that reason and time, and after [deactivate] it finds it
    disabled with the activation time cleared. *)
Theorem killswitch_survives_restart (self : KillSwitch) (why now : string) :
  _state (new (file (save self))) = _state self /\
  (enabled (_state self) = false ->
   _state (new (file (activate self why now))) = mkState true why (Some now)) /\
  _state (new (file (deactivate self why))) = mkState false why None.
Proof.
  split; [|split].
  - unfold new, load, save. cbn. destruct (_state self); reflexivity.
  - intros Hoff. unfold activate. rewrite Hoff. reflexivity.
  - reflexivity.
Qed.

Lemma killswitch_survives_restart_witness :
  _state (new (file (activate (new None) "max_daily_loss" "2026-11-03T12:00:00")))
  = mkState true "max_daily_loss" (Some "2026-11-03T12:00:00"%string).
Proof.
  apply (@killswitch_survives_restart (new None) "max_daily_loss" "2026-11-03T12:00:00").
  reflexivity.
Defined.

(** The first activation wins: activating an enabled switch changes neither
    its reason, its activation time nor the file. *)
Theorem activate_keeps_first_reason (self : KillSwitch) (why1 now1 why2 now2 : string) :
  activate (activate self why1 now1) why2 now2 = activate self why1 now1 /\
  enabled (_state (activate self why1 now1)) = true.
Proof.
  unfold activate. destruct (enabled (_state self)) eqn:E.
  - rewrite !E. split; reflexivity.
  - cbn. split; reflexivity.
Qed.

End KillSwitchCoverage.

(** ** What an emitted candle contains *)

Section CandleContentCoverage.
Import market_models candle_builder.

Variable sym : string.
Variable tf : Z.
Hypothesis tf_nonzero : tf <> 0%Z.

Lemma bucket_prices_snoc (hist : list Tick) (t : Tick) (b : Z) :
  bucket_prices tf (hist ++ [t]) b =
  bucket_prices tf hist b ++ (if (bucket tf t =? b)%Z then [price t] else []).
Proof.
  unfold bucket_prices. rewrite filter_app, map_app. simpl.
  destruct (bucket tf t =? b)%Z; reflexivity.
Qed.

Lemma bucket_prices_none (hist : list Tick) (b : Z) :
  (forall u, In u hist -> bucket tf u <> b) -> bucket_prices tf hist b = [].
Proof.
  unfold bucket_prices. induction hist as [|u hist IH]; intros H; [reflexivity|].
  simpl. destruct (Z.eqb_spec (bucket tf u) b) as [E|_].
  - exfalso. apply (H u); [left; reflexivity | exact E].
  - apply IH. intros v Hv. apply H. right. exact Hv.
Qed.

Lemma summarises_other (hist : list Tick) (t : Tick) (c : Candle) :
  bucket tf t <> open_time c -> summarises tf hist c -> summarises tf (hist ++ [t]) c.
Proof.
  intros Hne H. unfold summarises in *. rewrite bucket_prices_snoc.
  destruct (Z.eqb_spec (bucket tf t) (open_time c)); [contradiction|].
  rewrite app_nil_r. exact H.
Qed.

Lemma summarises_seed (hist : list Tick) (t : Tick) (self : CandleBuilder) :
  (forall u, In u hist -> bucket tf u <> bucket tf t) ->
  summarises tf (hist ++ [t]) (seed self (bucket tf t) t).
Proof.
  intros H. unfold summarises, seed.
  cbn [open_time open close high low].
  rewrite bucket_prices_snoc, Z.eqb_refl, (bucket_prices_none _ H). simpl.
  split; [reflexivity|]. split; [reflexivity|].
  split; [constructor; [split; lra | constructor]|].
  split; left; reflexivity.
Qed.

Lemma summarises_update (hist : list Tick) (t : Tick) (c : Candle) :
  bucket tf t = open_time c -> summarises tf hist c ->
  summarises tf (hist ++ [t])
    (mkCandle (symbol c) (timeframe_sec c) (open_time c) (open c)
              (Py.max (high c) (price t)) (Py.min (low c) (price t))
              (price t) (volume c + 1)%Z).
Proof.
  intros Hb (Hhd & Hlast & Hall & Hhi & Hlo). unfold summarises.
  cbn [open_time open close high low].
  rewrite bucket_prices_snoc, Hb, Z.eqb_refl.
  set (ps := bucket_prices tf hist (open_time c)) in *.
  pose proof (py_max_l (high c) (price t)). pose proof (py_max_r (high c) (price t)).
  pose proof (py_min_l (low c) (price t)). pose proof (py_min_r (low c) (price t)).
  split; [destruct ps; [discriminate Hhd | exact Hhd]|].
  split; [apply last_last|].
  split.
  - apply Forall_app. split.
    + rewrite Forall_forall in *. intros p Hp. destruct (Hall p Hp). split; lra.
    + constructor; [split; lra | constructor].
  - split; apply in_or_app.
    + unfold Py.max. destruct (Qlt_le_dec _ _); [right; left; reflexivity | left; exact Hhi].
    + unfold Py.min. destruct (Qlt_le_dec _ _); [right; left; reflexivity | left; exact Hlo].
Qed.

Lemma tick_step_summarises (hist : list Tick) (self : CandleBuilder)
  (out : list Candle) (t : Tick) :
  order_inv tf hist self out ->
  (forall c, _current self = Some c -> (open_time c <= bucket tf t)%Z) ->
  (forall c, _current self = Some c -> summarises tf hist c) ->
  Forall (summarises tf hist) out ->
  (forall c, _current (fst (tick_step tf self t)) = Some c ->
             summarises tf (hist ++ [t]) c) /\
  Forall (summarises tf (hist ++ [t]))
         (match snd (tick_step tf self t) with None => out | Some c => out ++ [c] end).
Proof.
  unfold order_inv, tick_step. intros Hinv Hle Hcur Hout.
  destruct (_current self) as [c|] eqn:Ec.
  - destruct Hinv as (_ & _ & Hmax & _ & _ & Hin).
    specialize (Hle c eq_refl). specialize (Hcur c eq_refl).
    assert (forall d, In d out -> summarises tf (hist ++ [t]) d) as Hold.
    { intros d Hd. apply summarises_other.
      - assert (open_time d < open_time c)%Z by (apply Hin, in_map, Hd). lia.
      - rewrite Forall_forall in Hout. apply Hout, Hd. }
    destruct (Z.ltb_spec (open_time c) (bucket tf t)) as [Hlt|Hge]; cbn [fst snd].
    + split.
      * intros d Hd. cbn in Hd. injection Hd as <-. apply summarises_seed.
        intros u Hu. specialize (Hmax u Hu). lia.
      * apply Forall_app. split; [apply Forall_forall; exact Hold|].
        constructor; [|constructor]. apply summarises_other; [lia | exact Hcur].
    + split; [|apply Forall_forall; exact Hold].
      intros d Hd. cbn in Hd. injection Hd as <-.
      apply summarises_update; [lia | exact Hcur].
  - destruct Hinv as [-> ->]. cbn [fst snd]. split; [|constructor].
    intros d Hd. cbn in Hd. injection Hd as <-.
    apply (@summarises_seed [] t self). intros u [].
Qed.

Lemma feed_from_summarises (rest : list Tick) :
  forall hist self out,
    cb_symbol self = sym -> cb_timeframe_sec self = tf ->
    (forall t, In t rest -> tick_symbol t = sym) ->
    (forall t, In t rest -> in_datetime_range (bucket tf t)) ->
    order_inv tf hist self out ->
    (forall c u, _current self = Some c -> In u rest -> (open_time c <= bucket tf u)%Z) ->
    in_order tf rest ->
    (forall c, _current self = Some c -> summarises tf hist c) ->
    Forall (summarises tf hist) out ->
    exists self' out',
      feed_from self out rest = Py.Ok (self', out') /\
      Forall (summarises tf (hist ++ rest)) out'.
Proof.
  induction rest as [|t rest IH];
    intros hist self out Hs Ht Hsym Hrange Hinv Hle Hord Hcur Hout.
  - exists self, out. rewrite app_nil_r. split; [reflexivity | exact Hout].
  - simpl.
    rewrite (@update_with_tick_own sym tf tf_nonzero self t Hs Ht
               (Hsym t (or_introl eq_refl)) (Hrange t (or_introl eq_refl))).
    cbn [Py.bind].
    destruct Hord as [Hhead Hord].
    assert (forall c, _current self = Some c -> (open_time c <= bucket tf t)%Z) as Hle1.
    { intros c Ec. apply (Hle c t Ec). left. reflexivity. }
    destruct (@tick_step_order tf hist self out t Hinv Hle1) as (Hnext & c' & Ec' & Ot').
    destruct (@tick_step_summarises hist self out t Hinv Hle1 Hcur Hout) as [Hcur' Hout'].
    destruct (tick_step_config tf self t) as [Cs Ct].
    replace (hist ++ t :: rest) with ((hist ++ [t]) ++ rest)
      by (rewrite <- app_assoc; reflexivity).
    destruct (snd (tick_step tf self t)) as [c|];
      (apply IH;
       [ congruence | congruence
       | intros u Hu; apply Hsym; right; assumption
       | intros u Hu; apply Hrange; right; assumption
       | assumption
       | intros d u Ed Hu; rewrite Ec' in Ed; inversion Ed; subst d;
         rewrite Ot'; apply Hhead, Hu
       | assumption | assumption | assumption ]).
Qed.

End CandleContentCoverage.

Section CandleContentClaims.
Import market_models candle_builder.

(** For ticks of one instrument that arrive in bucket order, with bucket
    times within the range of [datetime], every emitted candle summarises
    the ticks of its bucket: its open is the price of the first of them,
    its close the price of the last, its high the largest and its low the
    smallest of their prices. *)
Theorem candle_summarises_bucket (sym : string) (tf : Z) (ticks : list Tick)
  (Htf : tf <> 0%Z)
  (Hsym : forall t, In t ticks -> tick_symbol t = sym)
  (Hrange : forall t, In t ticks -> in_datetime_range (bucket tf t))
  (Hord : in_order tf ticks) :
  exists self out,
    feed (new sym tf) ticks = Py.Ok (self, out) /\
    Forall (summarises tf ticks) out.
Proof.
  destruct (@feed_from_summarises sym tf Htf ticks [] (new sym tf) [] eq_refl eq_refl
              Hsym Hrange)
    as (self & out & Hfeed & Hall); try assumption.
  - split; reflexivity.
  - intros c u Hc. discriminate Hc.
  - intros c Hc. discriminate Hc.
  - constructor.
  - exists self, out. split; assumption.
Qed.

Lemma candle_summarises_bucket_witness :
  exists self out,
    feed (new "R_75" 60)
         [ mkTick "R_75" 61 10; mkTick "R_75" 75 12; mkTick "R_75" 120 7 ]
    = Py.Ok (self, out) /\
    Forall (summarises 60
              [ mkTick "R_75" 61 10; mkTick "R_75" 75 12; mkTick "R_75" 120 7 ]) out.
Proof.
  apply (@candle_summarises_bucket "R_75" 60).
  - discriminate.
  - intros t [<-|[<-|[<-|[]]]]; reflexivity.
  - intros t [<-|[<-|[<-|[]]]]; vm_compute; split; discriminate.
  - simpl. repeat split; intros u Hu;
      repeat (destruct Hu as [<-|Hu]; [vm_compute; discriminate|]); destruct Hu.
Defined.

End CandleContentClaims.

(** ** Where an executed trade comes from *)

Section ExecutorCoverage.
Import order_executor.

Lemma wait_until_sold_source (polls : list (Py.Result PocResponse)) :
  forall elapsed poll_sec timeout_sec cid bought_at t,
    wait_until_sold polls elapsed poll_sec timeout_sec cid bought_at = Py.Ok t ->
    exists k poc,
      nth_error polls k = Some (Py.Ok poc) /\
      Py.truthy (poc_error poc) = false /\ is_sold poc = true /\
      still_open polls k /\
      PrimFloat.ltb (waited elapsed poll_sec k) timeout_sec = true /\
      t = mkExecuted cid (Py.or_float (poc_profit poc) 0) bought_at
                     (Py.or_float (poc_payout poc) 0)
                     (Py.gtb (Py.or_float (poc_profit poc) 0) 0).
Proof.
  induction polls as [|answer rest IH]; intros elapsed poll_sec timeout_sec cid bought_at t;
    simpl; destruct (PrimFloat.ltb elapsed timeout_sec) eqn:Elt; try discriminate.
  destruct answer as [poc|e]; simpl; [|discriminate].
  destruct (Py.truthy (poc_error poc)) eqn:Eerr; [discriminate|].
  destruct (is_sold poc) eqn:Esold.
  - intros H. injection H as <-. exists 0%nat, poc.
    split; [reflexivity|]. split; [exact Eerr|]. split; [exact Esold|].
    split; [intros j Hj; lia|]. split; [exact Elt | reflexivity].
  - intros H. destruct (IH _ _ _ _ _ _ H) as (k & p & Hk & Herr & Hsold & Hopen & Ht & Hv).
    exists (S k), p. split; [exact Hk|]. split; [exact Herr|]. split; [exact Hsold|].
    split; [|split; [exact Ht | exact Hv]].
    intros [|j] Hj.
    + exists poc. split; [reflexivity|]. split; assumption.
    + apply (Hopen j). lia.
Qed.

Lemma propose_and_buy_source (self : OrderExecutor) (req : ProposalRequest)
  (stake : Q) (limit : option LimitOrder) (cid : Z) (bought_at : Q) :
  propose_and_buy self req stake limit = Py.Ok (cid, bought_at) ->
  exists pid bought,
    on_buy (client self) (mkBuyReq pid stake limit) = Py.Ok bought /\
    buy_contract_id bought = Some cid /\
    bought_at = Py.or_float (buy_buy_price bought) stake.
Proof.
  unfold propose_and_buy.
  destruct (on_proposal (client self) req) as [proposal|e]; simpl; [|discriminate].
  destruct (Py.truthy (proposal_error proposal)); [discriminate|].
  destruct (proposal_id proposal) as [pid|]; [|discriminate].
  destruct (negb _); [discriminate|].
  destruct (on_buy (client self) (mkBuyReq pid stake limit)) as [bought|e] eqn:Eb;
    simpl; [|discriminate].
  destruct (Py.truthy (buy_error bought)); [discriminate|].
  destruct (buy_contract_id bought) as [c|] eqn:Ec; [|discriminate].
  intros H. injection H as <- <-. exists pid, bought.
  split; [exact Eb|]. split; [exact Ec | reflexivity].
Qed.

(** A trade is only returned for a contract that was bought and that a
    status poll reported sold.  Its contract id is the one of the buy
    answer; its profit and payout are those of the first poll that says the
    contract is sold (0 when the entry is missing); every poll before that
    one answered without error that the contract was open; and that poll
    was made while the waiting time, the binary64 sum of the [k] sleeps
    before it, was still below the timeout. *)
Theorem executed_trade_from_sold_poll (self : OrderExecutor) (side : string) (stake : Q)
  (take_profit_usd stop_loss_usd : Q) (duration : Z) (duration_unit : string)
  (mult : Z) (sym : option string) (poll_sec timeout_sec : float) (t : ExecutedTrade)
  (Hreturned :
     execute_rise_fall self side stake duration duration_unit sym poll_sec timeout_sec
     = Py.Ok t \/
     execute_multiplier self side stake take_profit_usd stop_loss_usd duration
       duration_unit mult sym poll_sec timeout_sec
     = Py.Ok t) :
  exists k poc,
    nth_error (on_poc (client self) (contract_id t)) k = Some (Py.Ok poc) /\
    Py.truthy (poc_error poc) = false /\ is_sold poc = true /\
    still_open (on_poc (client self) (contract_id t)) k /\
    PrimFloat.ltb (waited 0%float poll_sec k) timeout_sec = true /\
    profit t = Py.or_float (poc_profit poc) 0 /\
    payout t = Py.or_float (poc_payout poc) 0 /\
    exists pid limit bought,
      on_buy (client self) (mkBuyReq pid stake limit) = Py.Ok bought /\
      buy_contract_id bought = Some (contract_id t) /\
      buy_price t = Py.or_float (buy_buy_price bought) stake.
Proof.
  assert (exists req limit cid bought_at,
            propose_and_buy self req stake limit = Py.Ok (cid, bought_at) /\
            wait_until_sold (on_poc (client self) cid) 0%float poll_sec timeout_sec
                            cid bought_at
            = Py.Ok t) as (req & limit & cid & bought_at & Hbuy & Hwait).
  { destruct Hreturned as [H|H];
      [unfold execute_rise_fall in H | unfold execute_multiplier in H];
      cbv zeta in H;
      match type of H with
      | Py.bind (propose_and_buy _ ?r _ ?l) _ = _ =>
          destruct (propose_and_buy self r stake l) as [[c b]|e] eqn:E;
          [|discriminate H];
          cbn [Py.bind fst snd] in H;
          exists r, l, c, b; split; [exact E | exact H]
      end. }
  destruct (wait_until_sold_source _ _ _ _ _ _ Hwait)
    as (k & poc & Hk & Herr & Hsold & Hopen & Ht & ->).
  destruct (propose_and_buy_source _ _ _ _ Hbuy) as (pid & bought & Hb & Hc & Hp).
  cbn [contract_id profit payout buy_price].
  exists k, poc. repeat (split; [first [assumption | reflexivity]|]).
  exists pid, limit, bought. repeat split; assumption.
Qed.

(** With sleeps of 0.1 and a timeout of 1.0 the eleventh poll is still
    made, because ten binary64 additions of 0.1 give less than 1.0. *)
Lemma executed_trade_from_sold_poll_witness :
  execute_rise_fall (mkExecutor slow_client "R_75" "USD") "CALL" 10 1 "m" None
                    one_tenth 1%float
  = Py.Ok (mkExecuted 7 3 10 13 true) /\
  exists k poc,
    nth_error (on_poc slow_client 7) k = Some (Py.Ok poc) /\
    Py.truthy (poc_error poc) = false /\ is_sold poc = true /\
    still_open (on_poc slow_client 7) k /\
    PrimFloat.ltb (waited 0%float one_tenth k) 1%float = true /\
    3 = Py.or_float (poc_profit poc) 0 /\
    13 = Py.or_float (poc_payout poc) 0 /\
    exists pid limit bought,
      on_buy slow_client (mkBuyReq pid 10 limit) = Py.Ok bought /\
      buy_contract_id bought = Some 7%Z /\
      10 = Py.or_float (buy_buy_price bought) 10.
Proof.
  split; [vm_compute; reflexivity|].
  apply (@executed_trade_from_sold_poll
           (mkExecutor slow_client "R_75" "USD")
           "CALL" 10 0 0 1 "m" 10 None one_tenth 1%float
           (mkExecuted 7 3 10 13 true)).
  left. vm_compute. reflexivity.
Defined.

End ExecutorCoverage.
